(** * DouyinHelper: the download and upload pipelines, embedded and verified

    A shallow embedding of the logic of [youtube_uploader.py] and
    [douyin_youtube_tool.py].  Python strings are lists of characters,
    parsed JSON is an inductive type, dictionaries built by the code are
    finite maps, exceptions are an error monad with [try]/[except]
    handlers, and the remote services, the file system and the clock are
    parameters of the functions that use them. *)

From Stdlib Require Import ZArith Ascii String List Lia Bool DecimalString.
From stdpp Require Import gmap strings list.
Import ListNotations.

Local Open Scope Z_scope.
Set Warnings "-register-all".

(** ** Python strings *)

(** A [str] is a sequence of characters. *)
Abbreviation str := (list ascii).

(** A string literal of the source. *)
Definition py (s : string) : str := list_ascii_of_string s.
Arguments py : simpl never.

(** [len(s)] *)
Definition len {A} (l : list A) : Z := Z.of_nat (length l).

(** [s[:n]] for a literal [n >= 0]. *)
Definition slice_to {A} (n : Z) (l : list A) : list A := take (Z.to_nat n) l.

(** [s.startswith(prefix)] *)
Fixpoint startswith (s prefix : str) : bool :=
  match prefix, s with
  | [], _ => true
  | _ :: _, [] => false
  | p :: prefix', c :: s' => bool_decide (c = p) && startswith s' prefix'
  end.

(** [s.endswith(suffix)] *)
Definition endswith (s suffix : str) : bool :=
  bool_decide (drop (length s - length suffix)%nat s = suffix).

(** [needle in s] on strings. *)
Fixpoint substring_of (needle s : str) : bool :=
  startswith s needle ||
  match s with
  | [] => false
  | _ :: s' => substring_of needle s'
  end.

(** [s.replace(old, new)] for a non-empty [old]: every occurrence, found
    from the left and not overlapping, is replaced.  [fuel] is the number
    of characters still to scan. *)
Fixpoint replace_from (fuel : nat) (old new s : str) : str :=
  match fuel with
  | O => s
  | S fuel' =>
      if startswith s old then
        new ++ replace_from (fuel' - (length old - 1)) old new (drop (length old) s)
      else
        match s with
        | [] => []
        | c :: s' => c :: replace_from fuel' old new s'
        end
  end.

Definition replace (s old new : str) : str := replace_from (length s) old new s.

(** [str(n)] of an integer, and the format [{n:03d}]. *)
Definition str_of_Z (n : Z) : str := py (NilZero.string_of_int (Z.to_int n)).

Definition format_03d (n : Z) : str :=
  let digits := str_of_Z n in
  replicate (3 - length digits) "0"%char ++ digits.

(** [','.join(l)] and friends. *)
Fixpoint join (sep : str) (l : list str) : str :=
  match l with
  | [] => []
  | [x] => x
  | x :: l' => x ++ sep ++ join sep l'
  end.

(** The order of [str]: by code point, a proper prefix first. *)
Fixpoint str_le (a b : str) : bool :=
  match a, b with
  | [], _ => true
  | _ :: _, [] => false
  | x :: a', y :: b' =>
      if (nat_of_ascii x <? nat_of_ascii y)%nat then true
      else if (nat_of_ascii y <? nat_of_ascii x)%nat then false
      else str_le a' b'
  end.

(** [a >= b] *)
Definition str_ge (a b : str) : bool := str_le b a.

(** ** Parsed JSON and the Python operations on it *)

(** What [json.loads] and the API client return.  The fields of an object
    have distinct keys. *)
Inductive json :=
| JNull
| JBool (b : bool)
| JNum (n : Z)
| JStr (s : str)
| JArr (items : list json)
| JObj (fields : list (str * json)).

Fixpoint dict_lookup (key : str) (fields : list (str * json)) : option json :=
  match fields with
  | [] => None
  | (k, v) :: fields' => if bool_decide (k = key) then Some v else dict_lookup key fields'
  end.

(** The exception classes that occur.  All of them derive from
    [Exception]; [text] is what [str(e)] gives.  The texts of the errors
    that the interpreter raises are indicative. *)
Inductive exn :=
| HttpError (status : Z) (text : str)
| FileNotFoundError (text : str)
| KeyError (text : str)
| IndexError (text : str)
| TypeError (text : str)
| AttributeError (text : str)
| Exception_ (text : str).

Definition exn_str (e : exn) : str :=
  match e with
  | HttpError _ t | FileNotFoundError t | KeyError t | IndexError t
  | TypeError t | AttributeError t | Exception_ t => t
  end.

(** A computation that returns or raises. *)
Inductive M (A : Type) :=
| Return (a : A)
| Raise (e : exn).
Arguments Return {A} a.
Arguments Raise {A} e.

#[global] Instance M_bind : MBind M := fun A B k c =>
  match c with
  | Return a => k a
  | Raise e => Raise e
  end.

#[global] Instance M_ret : MRet M := fun A a => Return a.

(** [try: c  except Exception as e: h e] *)
Definition try_except {A} (c : M A) (h : exn -> M A) : M A :=
  match c with
  | Return a => Return a
  | Raise e => h e
  end.

Definition returns {A} (c : M A) : Prop := exists a, c = Return a.

(** Truth value: [if x], [not x]. *)
Definition truthy (j : json) : bool :=
  match j with
  | JNull => false
  | JBool b => b
  | JNum n => negb (n =? 0)
  | JStr s => negb (bool_decide (s = []))
  | JArr l => negb (bool_decide (l = []))
  | JObj f => negb (bool_decide (f = []))
  end.

Definition is_str (s : str) (j : json) : bool :=
  match j with
  | JStr s' => bool_decide (s' = s)
  | _ => false
  end.

(** [key in j] *)
Definition contains (key : str) (j : json) : M bool :=
  match j with
  | JObj f => Return (bool_decide (is_Some (dict_lookup key f)))
  | JArr l => Return (existsb (is_str key) l)
  | JStr s => Return (substring_of key s)
  | _ => Raise (TypeError (py "argument is not iterable"))
  end.

(** [j[key]] for a string [key] *)
Definition getitem (j : json) (key : str) : M json :=
  match j with
  | JObj f =>
      match dict_lookup key f with
      | Some v => Return v
      | None => Raise (KeyError (py "'" ++ key ++ py "'"))
      end
  | JArr _ => Raise (TypeError (py "list indices must be integers or slices, not str"))
  | JStr _ => Raise (TypeError (py "string indices must be integers"))
  | _ => Raise (TypeError (py "object is not subscriptable"))
  end.

(** [j[0]] *)
Definition index0 (j : json) : M json :=
  match j with
  | JArr (x :: _) => Return x
  | JArr [] => Raise (IndexError (py "list index out of range"))
  | JStr (c :: _) => Return (JStr [c])
  | JStr [] => Raise (IndexError (py "string index out of range"))
  | JObj _ => Raise (KeyError (py "0"))
  | _ => Raise (TypeError (py "object is not subscriptable"))
  end.

(** [j.get(key, default)] *)
Definition get (j : json) (key : str) (default : json) : M json :=
  match j with
  | JObj f => Return (from_option id default (dict_lookup key f))
  | _ => Raise (AttributeError (py "object has no attribute 'get'"))
  end.

(** The elements that [for x in j] visits. *)
Definition iter (j : json) : M (list json) :=
  match j with
  | JArr l => Return l
  | JObj f => Return (map (fun kv => JStr (fst kv)) f)
  | JStr s => Return (map (fun c => JStr [c]) s)
  | _ => Raise (TypeError (py "object is not iterable"))
  end.

(** A dictionary built by the code, [d[key]] and [d.get(key, default)]. *)
Abbreviation dict := (gmap str json).

Definition dict_getitem (d : dict) (key : str) : M json :=
  match d !! key with
  | Some v => Return v
  | None => Raise (KeyError (py "'" ++ key ++ py "'"))
  end.

Definition dict_get (d : dict) (key : str) (default : json) : json :=
  from_option id default (d !! key).

(** The value of a computation whose every exception is handled by [h]. *)
Definition catch {A} (c : M A) (h : exn -> A) : A :=
  match c with
  | Return a => a
  | Raise e => h e
  end.

(** ** youtube_uploader.py *)

Module YouTubeUploader.

(** The request body of [videos().insert()]. *)
Record snippet := {
  title : str;
  description : str;
  tags : list str;
  categoryId : str;
  defaultLanguage : str;
  defaultAudioLanguage : str
}.

Record status := {
  privacyStatus : str;
  embeddable : bool;
  license : str;
  publicStatsViewable : bool;
  publishAt : option str
}.

Record body := { body_snippet : snippet; body_status : status }.

(** The remote service ([self.youtube]).  [videos_insert b f n] is the
    outcome of the [n]-th call (from 0) of [next_chunk()] on the insert
    request made for body [b] and file [f]: it raises, or returns
    [(status, response)], where [response] is [None] while the transfer is
    in progress.  The other fields are the [execute()] of the [list]
    requests, by their arguments. *)
Record service := {
  videos_insert : body -> str -> nat -> M (option json);
  videos_list : str -> json -> M json;
  channels_list : str -> M json;
  playlistItems_list : str -> json -> Z -> M json
}.

(** The effects of one upload: the retry counter, how many times
    [next_chunk()] was called, and the arguments of [time.sleep], oldest
    first. *)
Record upload_state := {
  retry : Z;
  calls : nat;
  slept : list Z
}.

Section Uploader.

(** [str(x)] of a value inside an f-string; the file system; the [:.1f]
    rendering of a size. *)
Variable repr : json -> str.
Variable os_path_exists : str -> bool.
Variable os_path_getsize : str -> Z.
Variable format_gb : Z -> str.

Definition format (j : json) : str :=
  match j with
  | JStr s => s
  | _ => repr j
  end.

Definition failure (message : str) : dict :=
  <[py "success" := JBool false]> (<[py "error" := JStr message]> ∅).

(** The follow-up status query and the result built from it, lines
    1017-1056: the inner [try]/[except]. *)
Definition uploaded (yt : service) (video_id : json) : M dict :=
  let video_url := py "https://www.youtube.com/watch?v=" ++ format video_id in
  try_except
    (video_info ← videos_list yt (py "snippet,status,processingDetails") video_id;
     items ← getitem video_info (py "items");
     if truthy items then
       video_data ← index0 items;
       processingDetails ← get video_data (py "processingDetails") (JObj []);
       processing_status ← get processingDetails (py "processingStatus") (JStr (py "unknown"));
       status1 ← get video_data (py "status") (JObj []);
       upload_status ← get status1 (py "uploadStatus") (JStr (py "unknown"));
       status2 ← get video_data (py "status") (JObj []);
       privacy_status ← get status2 (py "privacyStatus") (JStr (py "unknown"));
       Return (<[py "success" := JBool true]>
              (<[py "video_id" := video_id]>
              (<[py "url" := JStr video_url]>
              (<[py "processing_status" := processing_status]>
              (<[py "upload_status" := upload_status]>
              (<[py "privacy_status" := privacy_status]> ∅))))))
     else
       Return (failure (py "Video uploaded but not found in channel. May need processing time.")))
    (fun info_error =>
       Return (<[py "success" := JBool true]>
              (<[py "video_id" := video_id]>
              (<[py "url" := JStr video_url]>
              (<[py "processing_status" := JStr (py "unknown")]>
              (<[py "upload_status" := JStr (py "uploaded")]>
              (<[py "privacy_status" := JStr (py "unknown")]>
              (<[py "warning" :=
                   JStr (py "Could not get video details: " ++ exn_str info_error)]> ∅)))))))).

(** [e.resp.status in [500, 502, 503, 504]] *)
Definition retriable (st : Z) : bool :=
  bool_decide (st ∈ [500; 502; 503; 504]).

(** One iteration of [while response is None], lines 1013-1083.  The
    second component is [Some r] when the iteration executes [return r]
    and [None] when the loop goes round again. *)
Definition upload_iteration (yt : service) (insert_request : nat -> M (option json))
    (s : upload_state) : M (upload_state * option dict) :=
  let s1 := {| retry := retry s; calls := S (calls s); slept := slept s |} in
  try_except
    (response ← insert_request (calls s);
     match response with
     | Some response =>
         has_id ← contains (py "id") response;
         if has_id : bool then
           video_id ← getitem response (py "id");
           r ← uploaded yt video_id;
           Return (s1, Some r)
         else
           Return (s1, Some (failure (py "Upload failed: " ++ format response)))
     | None => Return (s1, None)
     end)
    (fun e =>
       match e with
       | HttpError st _ =>
           if retriable st then
             let retry' := retry s + 1 in
             if 5 <? retry' then
               Return ({| retry := retry'; calls := S (calls s); slept := slept s |},
                       Some (failure (py "Max retries exceeded: " ++ exn_str e)))
             else
               Return ({| retry := retry'; calls := S (calls s);
                          slept := slept s ++ [2 ^ retry'] |}, None)
           else
             Return (s1, Some (failure (py "HTTP Error: " ++ exn_str e)))
       | _ =>
           Return (s1, Some (failure (py "Unexpected error: " ++ exn_str e)))
       end).

(** The loop, bounded by [fuel] iterations; [None] is "still running". *)
Fixpoint upload_loop (fuel : nat) (yt : service) (insert_request : nat -> M (option json))
    (s : upload_state) : option (M (upload_state * dict)) :=
  match fuel with
  | O => None
  | S fuel' =>
      match upload_iteration yt insert_request s with
      | Raise e => Some (Raise e)
      | Return (s', Some r) => Some (Return (s', r))
      | Return (s', None) => upload_loop fuel' yt insert_request s'
      end
  end.

Definition _resumable_upload (fuel : nat) (yt : service)
    (insert_request : nat -> M (option json)) : option (M (upload_state * dict)) :=
  upload_loop fuel yt insert_request {| retry := 0; calls := 0; slept := [] |}.

(** [title[:97] + '...'] when [len(title) > 100] *)
Definition clean_title (title : str) : str :=
  if 100 <? len title then slice_to 97 title ++ py "..." else title.

(** [description[:4997] + '...'] when [len(description) > 5000] *)
Definition clean_description (description : str) : str :=
  if 5000 <? len description then slice_to 4997 description ++ py "..." else description.

Definition upload_body (title description : str) (tags : list str)
    (category_id privacy_status : str) : body :=
  {| body_snippet :=
       {| title := clean_title title;
          description := clean_description description;
          tags := slice_to 30 tags;
          categoryId := category_id;
          defaultLanguage := py "en";
          defaultAudioLanguage := py "en" |};
     body_status :=
       {| privacyStatus := privacy_status;
          embeddable := true;
          license := py "youtube";
          publicStatsViewable := true;
          publishAt := None |} |}.

(** [upload_video], lines 660-726.  [youtube] is [self.youtube], [None]
    before authentication. *)
Definition upload_video (fuel : nat) (youtube : option service)
    (video_file title description : str) (tags : list str)
    (category_id privacy_status : str) : option (M (upload_state * dict)) :=
  match youtube with
  | None => Some (Raise (Exception_ (py "Not authenticated! Call authenticate() first.")))
  | Some yt =>
      if negb (os_path_exists video_file) then
        Some (Raise (FileNotFoundError (py "Video file '" ++ video_file ++ py "' not found!")))
      else
        let file_size := os_path_getsize video_file in
        if 256 * 1024 * 1024 * 1024 <? file_size then
          Some (Raise (Exception_ (py "File too large: " ++ format_gb file_size
                                   ++ py "GB. YouTube limit is 256GB")))
        else
          let b := upload_body title description tags category_id privacy_status in
          _resumable_upload fuel yt (videos_insert yt b video_file)
  end.

(** *** Status queries *)

(** [check_video_status], lines 1085-1130. *)
Definition check_video_status (youtube : option service) (video_id : json) : dict :=
  match youtube with
  | None => failure (py "Not authenticated")
  | Some yt =>
      catch
        (response ← videos_list yt (py "snippet,status,processingDetails,contentDetails") video_id;
         items ← getitem response (py "items");
         if negb (truthy items) then
           Return (failure (py "Video not found - may have been removed or processing failed"))
         else
           video ← index0 items;
           snippet ← get video (py "snippet") (JObj []);
           status ← get video (py "status") (JObj []);
           processing ← get video (py "processingDetails") (JObj []);
           content ← get video (py "contentDetails") (JObj []);
           v_title ← get snippet (py "title") (JStr (py "Unknown"));
           v_privacy ← get status (py "privacyStatus") (JStr (py "unknown"));
           v_upload ← get status (py "uploadStatus") (JStr (py "unknown"));
           v_processing ← get processing (py "processingStatus") (JStr (py "unknown"));
           v_progress ← get processing (py "processingProgress") (JObj []);
           v_failure ← get status (py "failureReason") JNull;
           v_rejection ← get status (py "rejectionReason") JNull;
           v_embeddable ← get status (py "embeddable") (JBool false);
           v_license ← get status (py "license") (JStr (py "unknown"));
           v_duration ← get content (py "duration") (JStr (py "unknown"));
           v_published ← get snippet (py "publishedAt") JNull;
           v_channel ← get snippet (py "channelId") (JStr (py "unknown"));
           Return (<[py "success" := JBool true]>
                  (<[py "video_id" := video_id]>
                  (<[py "title" := v_title]>
                  (<[py "privacy_status" := v_privacy]>
                  (<[py "upload_status" := v_upload]>
                  (<[py "processing_status" := v_processing]>
                  (<[py "processing_progress" := v_progress]>
                  (<[py "failure_reason" := v_failure]>
                  (<[py "rejection_reason" := v_rejection]>
                  (<[py "embeddable" := v_embeddable]>
                  (<[py "license" := v_license]>
                  (<[py "duration" := v_duration]>
                  (<[py "published_at" := v_published]>
                  (<[py "channel_id" := v_channel]> ∅)))))))))))))))
        (fun e => failure (py "Failed to check video status: " ++ exn_str e))
  end.

(** The clock and the datetime library.  [now] is
    [datetime.now(timezone.utc)] in microseconds since the epoch.
    [fromisoformat s] stands for
    [datetime.fromisoformat(s.replace('Z', '+00:00'))] followed by the
    comparison with the aware [today_start]: it is the instant in
    microseconds, or [None] when one of these raises (not a string, not
    ISO 8601, no UTC offset).  [isoformat] renders an instant. *)
Variable fromisoformat : json -> option Z.
Variable isoformat : Z -> str.

Definition day : Z := 86400000000.

(** [today.replace(hour=0, minute=0, second=0, microsecond=0)] *)
Definition start_of_day (now : Z) : Z := now - now mod day.

(** [today.replace(hour=23, minute=59, second=59, microsecond=999999)] *)
Definition end_of_day (now : Z) : Z := start_of_day now + (day - 1).

(** The state of the loop of [get_todays_uploads]: the two variables of
    the source and, as its effect, the ids that were passed to
    [check_video_status], oldest first. *)
Record walk := {
  todays_videos : list dict;
  total_checked : Z;
  resolved : list json
}.

(** The dictionary appended for a video of today, lines 1234-1245. *)
Definition todays_entry (video_id published_at_str : json) (video_info : dict) : M dict :=
  v_title ← dict_getitem video_info (py "title");
  v_privacy ← dict_getitem video_info (py "privacy_status");
  v_upload ← dict_getitem video_info (py "upload_status");
  v_processing ← dict_getitem video_info (py "processing_status");
  Return (<[py "video_id" := video_id]>
         (<[py "title" := v_title]>
         (<[py "privacy_status" := v_privacy]>
         (<[py "upload_status" := v_upload]>
         (<[py "processing_status" := v_processing]>
         (<[py "published_at" := published_at_str]>
         (<[py "duration" := dict_get video_info (py "duration") (JStr (py "unknown"))]>
         (<[py "failure_reason" := dict_get video_info (py "failure_reason") JNull]>
         (<[py "rejection_reason" := dict_get video_info (py "rejection_reason") JNull]>
         (<[py "url" := JStr (py "https://www.youtube.com/watch?v=" ++ format video_id)]>
          ∅)))))))))).

(** The body of [for item in playlist_response['items']], lines 1220-1252.
    The boolean is [true] when the body executes [break]. *)
Definition visit (youtube : option service) (today_start today_end : Z)
    (item : json) (w : walk) : M (bool * walk) :=
  let w1 := {| todays_videos := todays_videos w;
               total_checked := total_checked w + 1;
               resolved := resolved w |} in
  contentDetails ← getitem item (py "contentDetails");
  video_id ← getitem contentDetails (py "videoId");
  snippet ← getitem item (py "snippet");
  published_at_str ← getitem snippet (py "publishedAt");
  match fromisoformat published_at_str with
  | None => Return (false, w1)
  | Some published_at =>
      if (today_start <=? published_at) && (published_at <=? today_end) then
        let video_info := check_video_status youtube video_id in
        let w2 := {| todays_videos := todays_videos w1;
                     total_checked := total_checked w1;
                     resolved := resolved w1 ++ [video_id] |} in
        try_except
          (success ← dict_getitem video_info (py "success");
           if truthy success then
             entry ← todays_entry video_id published_at_str video_info;
             Return (false, {| todays_videos := todays_videos w2 ++ [entry];
                               total_checked := total_checked w2;
                               resolved := resolved w2 |})
           else Return (false, w2))
          (fun date_error => Return (false, w2))
      else if published_at <? today_start then Return (true, w1)
      else Return (false, w1)
  end.

(** The loop.  An exception of the body leaves the loop with the state
    before the item that raised. *)
Fixpoint walk_items (youtube : option service) (today_start today_end : Z)
    (items : list json) (w : walk) : walk * option exn :=
  match items with
  | [] => (w, None)
  | item :: rest =>
      match visit youtube today_start today_end item w with
      | Raise e => (w, Some e)
      | Return (true, w') => (w', None)
      | Return (false, w') => walk_items youtube today_start today_end rest w'
      end
  end.

(** The dictionary that [get_todays_uploads] returns: with ['success']
    true it has the keys below, otherwise ['error']. *)
Record todays_report := {
  channel_title : json;
  videos : list dict;
  total_today : Z;
  report_total_checked : Z;
  date_range : str * str
}.

Inductive todays_result :=
| Success (report : todays_report)
| Failure (error : str).

(** [get_todays_uploads], lines 1183-1270, with the final state of the
    loop when the loop was reached. *)
Definition get_todays_uploads (youtube : option service) (now : Z)
    : todays_result * option walk :=
  match youtube with
  | None => (Failure (py "Not authenticated"), None)
  | Some yt =>
      let today_start := start_of_day now in
      let today_end := end_of_day now in
      let before_loop :=
        channels_response ← channels_list yt (py "contentDetails,snippet");
        items ← getitem channels_response (py "items");
        if negb (truthy items) then Return None
        else
          channel_info ← index0 items;
          snippet ← getitem channel_info (py "snippet");
          channel_title ← getitem snippet (py "title");
          contentDetails ← getitem channel_info (py "contentDetails");
          relatedPlaylists ← getitem contentDetails (py "relatedPlaylists");
          uploads_playlist_id ← getitem relatedPlaylists (py "uploads");
          playlist_response ←
            playlistItems_list yt (py "snippet,contentDetails") uploads_playlist_id 50;
          page ← getitem playlist_response (py "items");
          entries ← iter page;
          Return (Some (channel_title, entries)) in
      let failed e := Failure (py "Failed to get today's uploads: " ++ exn_str e) in
      match before_loop with
      | Raise e => (failed e, None)
      | Return None => (Failure (py "No channel found"), None)
      | Return (Some (channel_title, entries)) =>
          match walk_items youtube today_start today_end entries
                  {| todays_videos := []; total_checked := 0; resolved := [] |} with
          | (w, Some e) => (failed e, Some w)
          | (w, None) =>
              (Success {| channel_title := channel_title;
                          videos := todays_videos w;
                          total_today := len (todays_videos w);
                          report_total_checked := total_checked w;
                          date_range := (isoformat today_start, isoformat today_end) |},
               Some w)
          end
      end
  end.

End Uploader.

End YouTubeUploader.

(** ** douyin_youtube_tool.py: class YouTubeAPI *)

Module YouTubeAPI.

(** The API client ([self.service] when it is not the demo marker). *)
Record client := {
  channels_list : str -> M json;
  playlistItems_list : str -> json -> Z -> M json;
  videos_list : str -> str -> M json;
  search_list : str -> M json
}.

(** [self.service]: unset, the string ['demo_service'], or a client. *)
Inductive service :=
| NoService
| DemoService
| Client (c : client).

(** The fields of the object that [get_todays_uploads] reads;
    [credentials] is the truth value of [self.credentials]. *)
Record api := {
  authenticated : bool;
  the_service : service;
  credentials : bool
}.

(** What the traversal did: the number of playlist entries whose
    timestamp was read, and the [id] arguments of the [videos().list()]
    requests, oldest first. *)
Record trace := {
  inspected : Z;
  resolved : list str
}.

Definition demo_video (id title publishedAt viewCount likeCount commentCount : string) : dict :=
  <[py "id" := JStr (py id)]>
  (<[py "title" := JStr (py title)]>
  (<[py "publishedAt" := JStr (py publishedAt)]>
  (<[py "viewCount" := JStr (py viewCount)]>
  (<[py "likeCount" := JStr (py likeCount)]>
  (<[py "commentCount" := JStr (py commentCount)]>
  (<[py "status" := JStr (py "public")]> ∅)))))).

Definition demo_todays_uploads : list dict :=
  [ demo_video "demo_video_1" "Amazing Douyin Video - Demo 1 🔥" "2025-08-21T10:00:00Z"
      "12345" "567" "89";
    demo_video "demo_video_2" "Viral Douyin Content - Demo 2 ✨" "2025-08-21T14:30:00Z"
      "98765" "4321" "234" ].

(** [a >= b] on values: defined between two strings. *)
Definition ge (a : json) (b : str) : M bool :=
  match a with
  | JStr s => Return (str_ge s b)
  | _ => Raise (TypeError (py "'>=' not supported between these instances"))
  end.

(** [','.join(ids)]: every element has to be a string. *)
Fixpoint strings_of (ids : list json) : M (list str) :=
  match ids with
  | [] => Return []
  | JStr s :: ids' => l ← strings_of ids'; Return (s :: l)
  | _ :: _ => Raise (TypeError (py "sequence item: expected str instance"))
  end.

(** The filter loop, lines 222-225: [for item in response.get('items', [])].
    An exception of the body leaves the loop with the count so far. *)
Fixpoint collect_ids (today : str) (items : list json) (video_ids : list json) (n : Z)
    : (list json * Z) * option exn :=
  match items with
  | [] => (video_ids, n, None)
  | item :: rest =>
      let step :=
        snippet ← getitem item (py "snippet");
        pub_date ← getitem snippet (py "publishedAt");
        is_today ← ge pub_date today;
        if is_today : bool then
          snippet' ← getitem item (py "snippet");
          resourceId ← getitem snippet' (py "resourceId");
          video_id ← getitem resourceId (py "videoId");
          Return (video_ids ++ [video_id])
        else Return video_ids in
      match step with
      | Raise e => (video_ids, n + 1, Some e)
      | Return video_ids' => collect_ids today rest video_ids' (n + 1)
      end
  end.

(** The dictionary appended for a video of the statistics response;
    [strict] is the OAuth branch, which reads
    [video['status']['privacyStatus']] without defaults. *)
Definition stats_entry (strict : bool) (video : json) : M dict :=
  v_id ← getitem video (py "id");
  snippet ← getitem video (py "snippet");
  v_title ← getitem snippet (py "title");
  snippet' ← getitem video (py "snippet");
  v_published ← getitem snippet' (py "publishedAt");
  statistics ← getitem video (py "statistics");
  v_views ← get statistics (py "viewCount") (JStr (py "0"));
  v_likes ← get statistics (py "likeCount") (JStr (py "0"));
  v_comments ← get statistics (py "commentCount") (JStr (py "0"));
  v_status ←
    (if strict then
       status ← getitem video (py "status"); getitem status (py "privacyStatus")
     else
       status ← get video (py "status") (JObj []);
       get status (py "privacyStatus") (JStr (py "unknown")));
  Return (<[py "id" := v_id]>
         (<[py "title" := v_title]>
         (<[py "publishedAt" := v_published]>
         (<[py "viewCount" := v_views]>
         (<[py "likeCount" := v_likes]>
         (<[py "commentCount" := v_comments]>
         (<[py "status" := v_status]> ∅))))))).

Fixpoint stats_entries (strict : bool) (items : list json) (videos : list dict) : M (list dict) :=
  match items with
  | [] => Return videos
  | video :: rest =>
      entry ← stats_entry strict video;
      stats_entries strict rest (videos ++ [entry])
  end.

(** The statistics request for the collected ids and the entries built
    from its response. *)
Definition resolve (c : client) (strict : bool) (ids : list str) : M (list dict) :=
  stats_response ← videos_list c (py "snippet,statistics,status") (join (py ",") ids);
  items ← get stats_response (py "items") (JArr []);
  l ← iter items;
  stats_entries strict l [].

(** The OAuth branch, lines 201-244. *)
Definition my_uploads (c : client) (today : str) : list dict * trace :=
  let nothing := {| inspected := 0; resolved := [] |} in
  match
    (channels_response ← channels_list c (py "contentDetails");
     items ← get channels_response (py "items") JNull;
     if truthy items then
       items' ← getitem channels_response (py "items");
       channel ← index0 items';
       contentDetails ← getitem channel (py "contentDetails");
       relatedPlaylists ← getitem contentDetails (py "relatedPlaylists");
       uploads_playlist_id ← getitem relatedPlaylists (py "uploads");
       response ← playlistItems_list c (py "snippet") uploads_playlist_id 50;
       page ← get response (py "items") (JArr []);
       entries ← iter page;
       Return (Some entries)
     else Return None)
  with
  | Raise _ => ([], nothing)
  | Return None => ([], nothing)
  | Return (Some entries) =>
      match collect_ids today entries [] 0 with
      | (_, n, Some _) => ([], {| inspected := n; resolved := [] |})
      | (video_ids, n, None) =>
          if bool_decide (video_ids = []) then ([], {| inspected := n; resolved := [] |})
          else
            match strings_of video_ids with
            | Raise _ => ([], {| inspected := n; resolved := [] |})
            | Return ids =>
                (catch (resolve c true ids) (fun _ => []),
                 {| inspected := n; resolved := [join (py ",") ids] |})
            end
      end
  end.

Fixpoint search_ids (items : list json) : M (list json) :=
  match items with
  | [] => Return []
  | item :: rest =>
      id ← getitem item (py "id");
      video_id ← getitem id (py "videoId");
      l ← search_ids rest;
      Return (video_id :: l)
  end.

(** The API-key branch, lines 246-275: a search instead of the playlist. *)
Definition searched_uploads (c : client) (today : str) : list dict * trace :=
  let nothing := {| inspected := 0; resolved := [] |} in
  match
    (response ← search_list c today;
     items ← get response (py "items") (JArr []);
     l ← iter items;
     video_ids ← search_ids l;
     if bool_decide (video_ids = []) then Return None
     else ids ← strings_of video_ids; Return (Some ids))
  with
  | Raise _ => ([], nothing)
  | Return None => ([], nothing)
  | Return (Some ids) =>
      (catch (resolve c false ids) (fun _ => []),
       {| inspected := 0; resolved := [join (py ",") ids] |})
  end.

(** [get_todays_uploads], lines 165-286.  [today] is
    [datetime.now(timezone.utc).strftime('%Y-%m-%dT00:00:00Z')]. *)
Definition get_todays_uploads (self : api) (today : str) : list dict * trace :=
  let nothing := {| inspected := 0; resolved := [] |} in
  if negb (authenticated self) then ([], nothing)
  else
    match the_service self with
    | NoService => ([], nothing)
    | DemoService => (demo_todays_uploads, nothing)
    | Client c =>
        if credentials self then my_uploads c today else searched_uploads c today
    end.

End YouTubeAPI.

(** ** douyin_youtube_tool.py: class DouyinYouTubeTool *)

Module DouyinYouTubeTool.

(** What the user sees and what the process does besides computing:
    [self.log], the message boxes and [time.sleep]. *)
Inductive event :=
| Log (message : str)
| ShowError (message : str)
| ShowInfo (message : str)
| Sleep (seconds : Z).

(** *** Regular expressions

    The patterns of [parse_curl] are sequences of character classes, each
    taken once, [+] or [*], some of them capture groups.  Matching is
    Python's: the leftmost match, every repetition as long as possible,
    giving characters back one at a time when the rest of the pattern
    fails. *)

Record atom := {
  accepts : ascii -> bool;
  at_least : nat;
  unbounded : bool;
  captured : bool
}.

Definition one (p : ascii -> bool) : atom :=
  {| accepts := p; at_least := 1; unbounded := false; captured := false |}.
Definition many (p : ascii -> bool) : atom :=
  {| accepts := p; at_least := 0; unbounded := true; captured := false |}.
Definition group_many1 (p : ascii -> bool) : atom :=
  {| accepts := p; at_least := 1; unbounded := true; captured := true |}.

Definition literal (s : string) : list atom :=
  map (fun c => one (fun x => bool_decide (x = c))) (list_ascii_of_string s).

(** The length of the longest prefix of [s] inside the class. *)
Fixpoint run (p : ascii -> bool) (s : str) : nat :=
  match s with
  | c :: s' => if p c then S (run p s') else O
  | [] => O
  end.

(** The first success among [f (lo + n)], [f (lo + n - 1)], ..., [f lo]. *)
Fixpoint longest_first {R} (f : nat -> option R) (lo n : nat) : option R :=
  match f (lo + n)%nat with
  | Some r => Some r
  | None =>
      match n with
      | O => None
      | S n' => longest_first f lo n'
      end
  end.

(** A match of [re] at the start of [s]: the groups and what follows the
    match. *)
Fixpoint match_here (re : list atom) (s : str) : option (list str * str) :=
  match re with
  | [] => Some ([], s)
  | a :: re' =>
      let available := run (accepts a) s in
      let most := if unbounded a then available else Nat.min (at_least a) available in
      if (most <? at_least a)%nat then None
      else
        longest_first
          (fun k =>
             match match_here re' (drop k s) with
             | Some (groups, rest) =>
                 Some (if captured a then take k s :: groups else groups, rest)
             | None => None
             end)
          (at_least a) (most - at_least a)
  end.

(** [re.search]: the match at the leftmost position that has one. *)
Fixpoint search (re : list atom) (s : str) : option (list str * str) :=
  match match_here re s with
  | Some r => Some r
  | None =>
      match s with
      | [] => None
      | _ :: s' => search re s'
      end
  end.

(** [re.findall] for a pattern that matches no empty string: the groups
    of the successive matches, each search starting where the previous
    match ended. *)
Fixpoint findall_from (fuel : nat) (re : list atom) (s : str) : list (list str) :=
  match fuel with
  | O => []
  | S fuel' =>
      match search re s with
      | Some (groups, rest) => groups :: findall_from fuel' re rest
      | None => []
      end
  end.

Definition findall (re : list atom) (s : str) : list (list str) :=
  findall_from (S (length s)) re s.

(** The classes: a quote of either kind, the colon and white space; [non]
    is the complement of a class. *)
Definition quote (c : ascii) : bool :=
  bool_decide (c = "'"%char) || bool_decide (c = ascii_of_nat 34).

Definition colon (c : ascii) : bool := bool_decide (c = ":"%char).

Definition space (c : ascii) : bool :=
  let n := nat_of_ascii c in
  ((9 <=? n) && (n <=? 13) || (28 <=? n) && (n <=? 32)
   || (n =? 133) || (n =? 160))%nat.

Definition non (p : ascii -> bool) (c : ascii) : bool := negb (p c).

(** The pattern [curl Q(N+)Q], with [Q] a quote and [N] not a quote. *)
Definition quoted_url_re : list atom :=
  literal "curl " ++ [one quote; group_many1 (non quote); one quote].

(** The pattern [curl (S+)], with [S] not white space. *)
Definition bare_url_re : list atom :=
  literal "curl " ++ [group_many1 (non space)].

(** The pattern [-H Q(C+):W*(N+)Q], with [C] not a colon and [W] white
    space. *)
Definition header_re : list atom :=
  literal "-H " ++ [one quote; group_many1 (non colon); one colon; many space;
                    group_many1 (non quote); one quote].

(** The pattern [-b Q(N+)Q]. *)
Definition cookie_re : list atom :=
  literal "-b " ++ [one quote; group_many1 (non quote); one quote].

(** [s.strip()] *)
Fixpoint lstrip (s : str) : str :=
  match s with
  | c :: s' => if space c then lstrip s' else s
  | [] => []
  end.

Definition strip (s : str) : str := reverse (lstrip (reverse (lstrip s))).

(** *** cURL parsing *)

(** The two fields that [parse_curl] fills.  [headers_text] holds the
    [json.dumps] of a dictionary, which [get_headers] reads back with
    [json.loads]: it is modelled by the dictionary. *)
Record form := {
  url_var : str;
  headers_text : gmap str str
}.

(** [for header_name, header_value in header_matches:
       headers[header_name] = header_value] *)
Fixpoint set_headers (header_matches : list (list str)) (headers : gmap str str)
    : gmap str str :=
  match header_matches with
  | [header_name; header_value] :: rest =>
      set_headers rest (<[header_name := header_value]> headers)
  | _ => headers
  end.

(** [parse_curl], lines 1312-1353, on the content [text] of the cURL area.
    No statement of its [try] block raises. *)
Definition parse_curl (self : form) (text : str) : form * list event :=
  let curl_text := strip text in
  if bool_decide (curl_text = []) then
    (self, [ShowError (py "Please paste cURL command first!")])
  else
    let url_match :=
      match search quoted_url_re curl_text with
      | Some m => Some m
      | None => search bare_url_re curl_text
      end in
    let '(url_var', log1) :=
      match url_match with
      | Some (url :: _, _) => (url, [Log (py "🎯 Extracted URL")])
      | _ => (url_var self, [])
      end in
    let headers := set_headers (findall header_re curl_text) ∅ in
    let headers :=
      match search cookie_re curl_text with
      | Some (cookie_string :: _, _) => <[py "Cookie" := cookie_string]> headers
      | _ => headers
      end in
    if bool_decide (headers = ∅) then
      ({| url_var := url_var'; headers_text := headers_text self |},
       [Log (py "🔍 Parsing cURL command...")] ++ log1 ++ [Log (py "⚠️ No headers found")])
    else
      ({| url_var := url_var'; headers_text := headers |},
       [Log (py "🔍 Parsing cURL command...")] ++ log1 ++
       [Log (py "✅ Extracted " ++ str_of_Z (Z.of_nat (size headers)) ++ py " headers")]).

(** *** Feed pagination *)

(** [extract_video_url], lines 1528-1543; the bare [except] makes every
    exception a [None]. *)
Definition extract_video_url (video_data : json) : option str :=
  catch
    (has_video ← contains (py "video") video_data;
     if has_video : bool then
       video_info ← getitem video_data (py "video");
       has_play_addr ← contains (py "play_addr") video_info;
       has_url_list ←
         (if has_play_addr : bool then
            play_addr ← getitem video_info (py "play_addr");
            contains (py "url_list") play_addr
          else Return false);
       if has_url_list : bool then
         play_addr ← getitem video_info (py "play_addr");
         url_list ← getitem play_addr (py "url_list");
         if truthy url_list then
           url ← index0 url_list;
           match url with
           | JStr url =>
               Return (Some (if negb (startswith url (py "https"))
                             then replace url (py "http") (py "https")
                             else url))
           | _ => Raise (AttributeError (py "object has no attribute 'startswith'"))
           end
         else Return None
       else Return None
     else Return None)
    (fun _ => None).

(** The state of [analyze_url]: the list it fills, the URLs it requested
    and the events, all oldest first. *)
Record analysis := {
  video_urls : list str;
  requested : list str;
  events : list event
}.

Section Feed.

(** The two helpers over [urllib.parse], the HTTP client behind
    [fetch_api_data] ([http_get n url headers] is the [n]-th request, from
    0: it raises, or returns the status and the body), [json.loads], and
    [str()] of a value. *)
Variable extract_user_id_from_api_url : str -> option str.
Variable update_url_with_params : str -> json -> str -> str.
Variable http_get : nat -> str -> gmap str str -> M (Z * str).
Variable json_loads : str -> M json.

(** [fetch_api_data], lines 1504-1518. *)
Definition fetch_api_data (n : nat) (headers : gmap str str) (url : str)
    : option json * list event :=
  match
    (response ← http_get n url headers;
     if fst response =? 200 then data ← json_loads (snd response); Return (Some data)
     else Return None)
  with
  | Return data => (data, [])
  | Raise e => (None, [Log (py "❌ API error: " ++ exn_str e)])
  end.

(** [for video in aweme_list], lines 1449-1459 without the tree widget. *)
Fixpoint collect_video_urls (aweme_list : list json) (urls : list str) : list str :=
  match aweme_list with
  | [] => urls
  | video :: rest =>
      match extract_video_url video with
      | Some (c :: video_url) => collect_video_urls rest (urls ++ [c :: video_url])
      | _ => collect_video_urls rest urls
      end
  end.

(** The loop [while page <= 5], lines 1433-1465, bounded by [fuel]
    iterations ([None]: still running).  The exception, if any, is the
    one that leaves the loop for the handler of [analyze_url]. *)
Fixpoint pages (fuel : nat) (headers : gmap str str) (url sec_user_id : str)
    (page : Z) (max_cursor : json) (a : analysis) : option (analysis * option exn) :=
  match fuel with
  | O => None
  | S fuel' =>
      if negb (page <=? 5) then Some (a, None)
      else
        let current_url := update_url_with_params url max_cursor sec_user_id in
        let '(data, logged) := fetch_api_data (length (requested a)) headers current_url in
        let a1 := {| video_urls := video_urls a;
                     requested := requested a ++ [current_url];
                     events := events a
                               ++ [Log (py "📄 Loading page " ++ str_of_Z page ++ py "...")]
                               ++ logged |} in
        match data with
        | None => Some (a1, None)
        | Some data =>
            if negb (truthy data) then Some (a1, None)
            else
              match
                (has_list ← contains (py "aweme_list") data;
                 if negb has_list then Return None
                 else
                   aweme_list ← get data (py "aweme_list") (JArr []);
                   has_more ← get data (py "has_more") (JBool false);
                   max_cursor' ← get data (py "max_cursor") (JNum 0);
                   videos ← iter aweme_list;
                   Return (Some (videos, has_more, max_cursor')))
              with
              | Raise e => Some (a1, Some e)
              | Return None => Some (a1, None)
              | Return (Some (videos, has_more, max_cursor')) =>
                  let a2 := {| video_urls := collect_video_urls videos (video_urls a1);
                               requested := requested a1;
                               events := events a1 |} in
                  if negb (truthy has_more) then Some (a2, None)
                  else
                    pages fuel' headers url sec_user_id (page + 1) max_cursor'
                      {| video_urls := video_urls a2;
                         requested := requested a2;
                         events := events a2 ++ [Sleep 1] |}
              end
        end
  end.

(** [analyze_url], lines 1404-1476, for the URL field [url_field] and the
    headers of the form. *)
Definition analyze_url (fuel : nat) (headers : gmap str str) (url_field : str)
    : option analysis :=
  let url := strip url_field in
  let nothing := {| video_urls := []; requested := []; events := [] |} in
  if bool_decide (url = []) then
    Some {| video_urls := []; requested := [];
            events := [ShowError (py "Please provide API URL!")] |}
  else if negb (substring_of (py "aweme/v1/web/aweme/post") url) then
    Some {| video_urls := []; requested := [];
            events := [ShowError (py "URL must be Douyin API endpoint!")] |}
  else
    match extract_user_id_from_api_url url with
    | Some (c :: sec_user_id) =>
        match pages fuel headers url (c :: sec_user_id) 1 (JNum 0)
                {| video_urls := []; requested := [];
                   events := [Log (py "🔍 Analyzing URL...")] |} with
        | None => None
        | Some (a, Some e) =>
            Some {| video_urls := video_urls a; requested := requested a;
                    events := events a
                              ++ [Log (py "❌ Analysis error: " ++ exn_str e);
                                  ShowError (py "Analysis failed: " ++ exn_str e)] |}
        | Some (a, None) =>
            Some {| video_urls := video_urls a; requested := requested a;
                    events := events a ++
                      [Log (if bool_decide (video_urls a = []) then py "❌ No videos found"
                            else py "🎉 Found " ++ str_of_Z (len (video_urls a))
                                 ++ py " videos")] |}
        end
    | _ =>
        Some {| video_urls := []; requested := [];
                events := [Log (py "🔍 Analyzing URL..."); ShowError (py "Cannot extract User ID!")] |}
    end.

End Feed.

(** *** Downloads *)

(** An entry of [self.video_files]. *)
Record video_file := {
  vf_path : str;
  vf_filename : str;
  vf_size : str
}.

(** The state of [download_videos]: the two counters, [self.video_files],
    the files on disk, the calls of [download_single_video] as
    (index, url, path), and the events, all oldest first. *)
Record downloads := {
  successful : Z;
  failed : Z;
  video_files : list video_file;
  disk : gmap str str;
  attempted : list (Z * str * str);
  happened : list event
}.

Section Download.

(** [os.path.join], [urllib.request.urlopen] with the response body read
    ([urlopen i url] is the request for the item of index [i]: it raises,
    or returns the status and the body), [open(path, 'wb')], and
    [get_file_size]. *)
Variable os_path_join : str -> str -> str.
Variable urlopen : Z -> str -> M (Z * str).
Variable open_wb : str -> M unit.
Variable get_file_size : str -> str.

(** [download_single_video], lines 1627-1648: the result, the disk and
    the log lines. *)
Definition download_single_video (files : gmap str str) (url file_path : str) (index : Z)
    : bool * gmap str str * list event :=
  let started := Log (py "📥 Downloading video " ++ str_of_Z (index + 1)) in
  match
    (response ← urlopen index url;
     if fst response =? 200 then
       _ ← open_wb file_path;
       Return (Some (<[file_path := snd response]> files))
     else Return None)
  with
  | Return (Some files') => (true, files', [started])
  | Return None => (false, files, [started])
  | Raise e =>
      (false, files,
       [started;
        Log (py "❌ Download error for video " ++ str_of_Z (index + 1) ++ py ": " ++ exn_str e)])
  end.

(** The loop [for i, url in enumerate(self.video_urls)], lines 1571-1611,
    without the tree and progress widgets. *)
Fixpoint download_each (download_folder : str) (urls : list str) (i : Z) (d : downloads)
    : downloads :=
  match urls with
  | [] => d
  | url :: rest =>
      let filename := py "video_" ++ format_03d (i + 1) ++ py ".mp4" in
      let file_path := os_path_join download_folder filename in
      let '(ok, files, logged) := download_single_video (disk d) url file_path i in
      download_each download_folder rest (i + 1)
        (if ok then
           {| successful := successful d + 1;
              failed := failed d;
              video_files := video_files d ++
                [{| vf_path := file_path; vf_filename := filename;
                    vf_size := get_file_size file_path |}];
              disk := files;
              attempted := attempted d ++ [(i, url, file_path)];
              happened := happened d ++ logged ++ [Sleep 1] |}
         else
           {| successful := successful d;
              failed := failed d + 1;
              video_files := video_files d;
              disk := files;
              attempted := attempted d ++ [(i, url, file_path)];
              happened := happened d ++ logged ++ [Sleep 1] |})
  end.

Definition download_report (d : downloads) : str :=
  py "Download complete!" ++ [ascii_of_nat 10] ++ py "Success: " ++ str_of_Z (successful d)
  ++ [ascii_of_nat 10] ++ py "Failed: " ++ str_of_Z (failed d).

(** [download_videos], lines 1550-1625, from the files already on disk and
    the entries already in [self.video_files]. *)
Definition download_videos (video_urls : list str) (download_folder : str)
    (files : gmap str str) (known : list video_file) : downloads :=
  let start := {| successful := 0; failed := 0; video_files := known; disk := files;
                  attempted := []; happened := [] |} in
  if bool_decide (video_urls = []) then
    {| successful := 0; failed := 0; video_files := known; disk := files;
       attempted := []; happened := [ShowError (py "No videos to download!")] |}
  else if bool_decide (download_folder = []) then
    {| successful := 0; failed := 0; video_files := known; disk := files;
       attempted := []; happened := [ShowError (py "Please select download folder!")] |}
  else
    let d := download_each download_folder video_urls 0 start in
    {| successful := successful d; failed := failed d; video_files := video_files d;
       disk := disk d; attempted := attempted d;
       happened := happened d ++ [Log (download_report d); ShowInfo (download_report d)] |}.

End Download.

(** *** Resolving the files to upload *)

Section Paths.

(** [os.path.join], [os.path.exists], [os.path.isabs] and
    [os.path.expanduser]. *)
Variable os_path_join : str -> str -> str.
Variable os_path_exists : str -> bool.
Variable os_path_isabs : str -> bool.
Variable expanduser : str -> str.

(** The truth value of [self.current_video_folder], which is [None] or a
    string. *)
Definition chosen (current_video_folder : option str) : option str :=
  match current_video_folder with
  | Some (c :: folder) => Some (c :: folder)
  | _ => None
  end.

(** [get_full_video_path], lines 1879-1896. *)
Definition get_full_video_path (current_video_folder : option str) (download_folder : str)
    (file_name : str) : option str :=
  let in_current :=
    match chosen current_video_folder with
    | Some folder =>
        let test_path := os_path_join folder file_name in
        if os_path_exists test_path then Some test_path else None
    | None => None
    end in
  match in_current with
  | Some p => Some p
  | None =>
      let test_path := os_path_join download_folder file_name in
      if os_path_exists test_path then Some test_path
      else if os_path_isabs file_name && os_path_exists file_name then Some file_name
      else None
  end.

(** The truth value of a path that is [None] or a string: [if not
    file_path]. *)
Definition found (file_path : option str) : bool :=
  match file_path with
  | Some (_ :: _) => true
  | _ => false
  end.

(** The resolution of one selected row in [upload_selected_videos], lines
    3534-3551. *)
Definition selected_path (current_video_folder : option str) (download_folder : str)
    (file_name : str) : option str :=
  let file_path := None in
  let file_path :=
    match chosen current_video_folder with
    | Some folder =>
        let test_path := os_path_join folder file_name in
        if os_path_exists test_path then Some test_path else file_path
    | None => file_path
    end in
  let file_path :=
    if negb (found file_path) then
      let test_path := os_path_join download_folder file_name in
      if os_path_exists test_path then Some test_path else file_path
    else file_path in
  let file_path :=
    if negb (found file_path) && os_path_isabs file_name then
      if os_path_exists file_name then Some file_name else file_path
    else file_path in
  file_path.

(** The loop over the rows of the upload tree in [upload_selected_videos],
    lines 3529-3556; a row is [(values[0], values[1])], [item] its
    position.  The result is [selected_files] and the log. *)
Fixpoint upload_selected_files (current_video_folder : option str) (download_folder : str)
    (rows : list (str * str)) (item : Z) : list (Z * str * str) * list event :=
  match rows with
  | [] => ([], [])
  | (mark, file_name) :: rest =>
      let '(files, logged) :=
        upload_selected_files current_video_folder download_folder rest (item + 1) in
      if bool_decide (mark = py "✓") then
        match selected_path current_video_folder download_folder file_name with
        | Some (c :: file_path) => ((item, c :: file_path, file_name) :: files, logged)
        | _ => (files, Log (py "⚠️ File not found: " ++ file_name) :: logged)
        end
      else (files, logged)
  end.

(** [for folder in [expanduser('~/Downloads'), expanduser('~/Videos'), '.']],
    lines 2703-2707. *)
Fixpoint first_in (folders : list str) (file_name : str) : option str :=
  match folders with
  | [] => None
  | folder :: rest =>
      let test_path := os_path_join folder file_name in
      if os_path_exists test_path then Some test_path else first_in rest file_name
  end.

Definition common_locations : list str :=
  [expanduser (py "~/Downloads"); expanduser (py "~/Videos"); py "."].

(** The resolution of one selected row in [upload_as_shorts_thread], lines
    2686-2707. *)
Definition shorts_path (current_video_folder : option str) (download_folder : str)
    (file_name : str) : option str :=
  let file_path := None in
  let file_path :=
    match chosen current_video_folder with
    | Some folder =>
        if os_path_exists folder then
          let test_path := os_path_join folder file_name in
          if os_path_exists test_path then Some test_path else file_path
        else file_path
    | None => file_path
    end in
  let file_path :=
    if negb (found file_path) then
      let test_path := os_path_join download_folder file_name in
      if os_path_exists test_path then Some test_path else file_path
    else file_path in
  let file_path :=
    if negb (found file_path) then
      match first_in common_locations file_name with
      | Some p => Some p
      | None => file_path
      end
    else file_path in
  file_path.

(** The loop over the rows of the upload tree in [upload_as_shorts_thread],
    lines 2681-2713. *)
Fixpoint shorts_selected_files (current_video_folder : option str) (download_folder : str)
    (rows : list (str * str)) : list str * list event :=
  match rows with
  | [] => ([], [])
  | (mark, file_name) :: rest =>
      let '(files, logged) := shorts_selected_files current_video_folder download_folder rest in
      if bool_decide (mark = py "✓") then
        match shorts_path current_video_folder download_folder file_name with
        | Some (c :: file_path) =>
            ((c :: file_path) :: files,
             Log (py "✅ Found for Shorts: " ++ c :: file_path) :: logged)
        | _ => (files, Log (py "❌ File not found for Shorts: " ++ file_name) :: logged)
        end
      else (files, logged)
  end.

End Paths.

End DouyinYouTubeTool.

(** * Scenarios

    Concrete services, clocks and file systems on which the functions are
    run. *)

Module Scenarios.

(** The renderings of values that no scenario depends on. *)
Definition plain_repr (j : json) : str :=
  match j with
  | JNull => py "None"
  | JBool true => py "True"
  | JBool false => py "False"
  | JNum n => str_of_Z n
  | JStr s => s
  | JArr _ => py "[...]"
  | JObj _ => py "{...}"
  end.

(** A service whose every request raises [HttpError] with [status]. *)
Definition failing (status : Z) : YouTubeUploader.service :=
  {| YouTubeUploader.videos_insert := fun _ _ _ =>
       Raise (HttpError status (py "<HttpError " ++ str_of_Z status ++ py ">"));
     YouTubeUploader.videos_list := fun _ _ => Raise (Exception_ (py "unreachable"));
     YouTubeUploader.channels_list := fun _ => Raise (Exception_ (py "unreachable"));
     YouTubeUploader.playlistItems_list := fun _ _ _ => Raise (Exception_ (py "unreachable")) |}.

(** A service that takes the file in one chunk and answers with the id
    [abc123], and whose status query times out. *)
Definition unverifiable : YouTubeUploader.service :=
  {| YouTubeUploader.videos_insert := fun _ _ _ =>
       Return (Some (JObj [(py "id", JStr (py "abc123"))]));
     YouTubeUploader.videos_list := fun _ _ => Raise (Exception_ (py "timed out"));
     YouTubeUploader.channels_list := fun _ => Raise (Exception_ (py "unreachable"));
     YouTubeUploader.playlistItems_list := fun _ _ _ => Raise (Exception_ (py "unreachable")) |}.

(** A file system with one file of [size] bytes. *)
Definition one_file (name : str) (size : Z) : (str -> bool) * (str -> Z) :=
  (fun p => bool_decide (p = name), fun p => if bool_decide (p = name) then size else 0).

(** A playlist entry with the fields both traversals read. *)
Definition entry (id published : string) : json :=
  JObj [(py "contentDetails", JObj [(py "videoId", JStr (py id))]);
        (py "snippet", JObj [(py "publishedAt", JStr (py published));
                             (py "resourceId", JObj [(py "videoId", JStr (py id))])])].

Definition my_channel : json :=
  JObj [(py "items",
         JArr [JObj [(py "snippet", JObj [(py "title", JStr (py "My channel"))]);
                     (py "contentDetails",
                      JObj [(py "relatedPlaylists",
                             JObj [(py "uploads", JStr (py "UU1"))])])]])].

Definition a_video : json :=
  JObj [(py "items",
         JArr [JObj [(py "id", JStr (py "v1"));
                     (py "snippet", JObj [(py "title", JStr (py "A video"));
                                          (py "publishedAt", JStr (py "2025-08-21T14:30:00Z"))]);
                     (py "statistics", JObj []);
                     (py "status", JObj [(py "privacyStatus", JStr (py "public"));
                                         (py "uploadStatus", JStr (py "processed"))])]])].

(** A service that lists the first [maxResults] entries of [playlist]. *)
Definition page_of (playlist : list json) (maxResults : Z) : M json :=
  if maxResults <? 0 then Raise (HttpError 400 (py "<HttpError 400>"))
  else Return (JObj [(py "items", JArr (take (Z.to_nat maxResults) playlist))]).

Definition channel_with (playlist : list json) : YouTubeUploader.service :=
  {| YouTubeUploader.videos_insert := fun _ _ _ => Raise (Exception_ (py "unreachable"));
     YouTubeUploader.videos_list := fun _ _ => Return a_video;
     YouTubeUploader.channels_list := fun _ => Return my_channel;
     YouTubeUploader.playlistItems_list := fun _ _ n => page_of playlist n |}.

Definition client_with (playlist : list json) : YouTubeAPI.client :=
  {| YouTubeAPI.channels_list := fun _ => Return my_channel;
     YouTubeAPI.playlistItems_list := fun _ _ n => page_of playlist n;
     YouTubeAPI.videos_list := fun _ _ => Return a_video;
     YouTubeAPI.search_list := fun _ => Raise (Exception_ (py "unreachable")) |}.

Definition oauth (playlist : list json) : YouTubeAPI.api :=
  {| YouTubeAPI.authenticated := true;
     YouTubeAPI.the_service := YouTubeAPI.Client (client_with playlist);
     YouTubeAPI.credentials := true |}.

(** 21 August 2025, 15:00 UTC, and the timestamps of the scenarios. *)
Definition afternoon : Z := 1755788400000000.

Definition timestamps (j : json) : option Z :=
  match j with
  | JStr s =>
      if bool_decide (s = py "2025-08-21T14:30:00Z") then Some 1755786600000000
      else if bool_decide (s = py "2025-08-21T10:00:00Z") then Some 1755770400000000
      else if bool_decide (s = py "2025-08-21T00:00:00Z") then Some 1755734400000000
      else if bool_decide (s = py "2025-08-20T23:59:59Z") then Some 1755734399000000
      else if bool_decide (s = py "2025-08-19T12:00:00Z") then Some 1755604800000000
      else if bool_decide (s = py "2025-08-21T01:00:00+02:00") then Some 1755730800000000
      else None
  | _ => None
  end.

(** Fifty entries, newest first, of which the first three are of today. *)
Definition fifty : list json :=
  [entry "v1" "2025-08-21T14:30:00Z"; entry "v2" "2025-08-21T10:00:00Z";
   entry "v3" "2025-08-21T00:00:00Z"]
  ++ replicate 47 (entry "old" "2025-08-20T23:59:59Z").

(** Three entries, newest first: one of today and two older ones. *)
Definition three : list json :=
  [entry "v1" "2025-08-21T14:30:00Z"; entry "v2" "2025-08-20T23:59:59Z";
   entry "v3" "2025-08-19T12:00:00Z"].

(** An entry published at 23:00 UTC of the day before, written with the
    offset of another time zone. *)
Definition offset_entry : list json := [entry "v9" "2025-08-21T01:00:00+02:00"].

(** Sixty entries of today, and a service that ignores [maxResults]. *)
Definition sixty : list json := replicate 60 (entry "v1" "2025-08-21T14:30:00Z").

Definition unlimited (playlist : list json) : YouTubeUploader.service :=
  {| YouTubeUploader.videos_insert := fun _ _ _ => Raise (Exception_ (py "unreachable"));
     YouTubeUploader.videos_list := fun _ _ => Return a_video;
     YouTubeUploader.channels_list := fun _ => Return my_channel;
     YouTubeUploader.playlistItems_list := fun _ _ _ =>
       Return (JObj [(py "items", JArr playlist)]) |}.

(** Four entries, newest first, of which the second has a timestamp that
    does not parse and the last is older than today. *)
Definition undated : list json :=
  [entry "v1" "2025-08-21T14:30:00Z"; entry "v5" "last Thursday";
   entry "v2" "2025-08-21T10:00:00Z"; entry "v3" "2025-08-20T23:59:59Z"].

(** Three entries, newest first: one of today, an older one, and one
    that has lost its snippet. *)
Definition broken_tail : list json :=
  [entry "v1" "2025-08-21T14:30:00Z"; entry "v2" "2025-08-20T23:59:59Z";
   JObj [(py "contentDetails", JObj [(py "videoId", JStr (py "v3"))])]].

(** A feed item with the given [url_list]. *)
Definition feed_item (url_list : json) : json :=
  JObj [(py "aweme_id", JStr (py "7300000000000000000"));
        (py "video", JObj [(py "play_addr", JObj [(py "url_list", url_list)])])].

(** A feed server that always has one more page: every response holds
    one item and [has_more]. *)
Definition endless (n : nat) (url : str) (headers : gmap str str) : M (Z * str) :=
  Return (200, py "page").

Definition endless_page (body : str) : M json :=
  Return (JObj [(py "aweme_list", JArr [feed_item (JArr [JStr (py "https://a.com/v")])]);
                (py "has_more", JNum 1);
                (py "max_cursor", JNum 1700000000000)]).

(** The helpers over [urllib.parse], reduced to what the scenarios need:
    the user id is what follows [sec_user_id=], the cursor is appended. *)
Definition user_id (url : str) : option str := Some (py "ABC123").

Definition with_cursor (repr : json -> str) (url : str) (max_cursor : json) (sec_user_id : str)
    : str :=
  url ++ py "&max_cursor=" ++ repr max_cursor.

Definition feed_url : str :=
  py "https://www.douyin.com/aweme/v1/web/aweme/post/?sec_user_id=ABC123".

End Scenarios.

(** * Specification predicates *)

(** A result of an upload is structured: a success with the video id and
    the watch URL, or a failure with its message. *)
Definition structured (r : dict) : Prop :=
  (r !! py "success" = Some (JBool true)
   /\ is_Some (r !! py "video_id") /\ exists u, r !! py "url" = Some (JStr u))
  \/ (r !! py "success" = Some (JBool false)
      /\ exists message, r !! py "error" = Some (JStr message)).

(** The arguments of [time.sleep] after [n] retries: 2, 4, ..., 2^n. *)
Definition backoff (n : nat) : list Z := map (fun i => 2 ^ Z.of_nat i) (seq 1 n).

(** The request does not report progress for ever: after every call
    comes one that raises or returns a response. *)
Definition finishes (insert_request : nat -> M (option json)) : Prop :=
  forall n, exists m, (n <= m)%nat /\ insert_request m <> Return None.

(** The id and the timestamp of a playlist entry, as
    [YouTubeUploader.get_todays_uploads] reads them. *)
Definition entry_id (item : json) : M json :=
  contentDetails ← getitem item (py "contentDetails");
  getitem contentDetails (py "videoId").

Definition entry_published (item : json) : M json :=
  snippet ← getitem item (py "snippet");
  getitem snippet (py "publishedAt").

(** The entry was published before the start of the day. *)
Definition older (fromisoformat : json -> option Z) (today_start : Z) (item : json) : Prop :=
  exists id p t,
    entry_id item = Return id /\ entry_published item = Return p
    /\ fromisoformat p = Some t /\ t < today_start.

(** The entry has the id [id] and was published during the day. *)
Definition of_today (fromisoformat : json -> option Z) (today_start today_end : Z)
    (item id : json) : Prop :=
  exists p t,
    entry_id item = Return id /\ entry_published item = Return p
    /\ fromisoformat p = Some t /\ today_start <= t <= today_end.

(** The entry has an id and a timestamp, so that the body of the loop
    does not raise on it. *)
Definition well_formed (item : json) : Prop :=
  exists id p, entry_id item = Return id /\ entry_published item = Return p.

(** The ids of the entries published during the day, in order. *)
Fixpoint todays_ids (fromisoformat : json -> option Z) (today_start today_end : Z)
    (items : list json) : list json :=
  match items with
  | [] => []
  | item :: rest =>
      let others := todays_ids fromisoformat today_start today_end rest in
      match entry_id item, entry_published item with
      | Return id, Return p =>
          match fromisoformat p with
          | Some t => if (today_start <=? t) && (t <=? today_end) then id :: others else others
          | None => others
          end
      | _, _ => others
      end
  end.

(** The id and the timestamp of a playlist entry, as
    [YouTubeAPI.get_todays_uploads] reads them; the entry is not older
    than [today] when its timestamp is a string that is not less. *)
Definition resource_id (item : json) : M json :=
  snippet ← getitem item (py "snippet");
  resourceId ← getitem snippet (py "resourceId");
  getitem resourceId (py "videoId").

Definition since (today : str) (item id : json) : Prop :=
  exists p, entry_published item = Return (JStr p) /\ str_ge p today = true
            /\ resource_id item = Return id.

(** The timestamp of the entry is a string, and the entry has an id when
    that string is not less than [today]: the filter loop does not raise
    on it. *)
Definition listed (today : str) (item : json) : Prop :=
  exists p, entry_published item = Return (JStr p)
            /\ (str_ge p today = true -> exists id, resource_id item = Return id).

(** The ids of the entries whose timestamp string is not less than
    [today], in order. *)
Fixpoint kept_ids (today : str) (items : list json) : list json :=
  match items with
  | [] => []
  | item :: rest =>
      match entry_published item, resource_id item with
      | Return (JStr p), Return id =>
          if str_ge p today then id :: kept_ids today rest else kept_ids today rest
      | _, _ => kept_ids today rest
      end
  end.

(** The service returns at most [maxResults] playlist entries. *)
Definition honours_limit (list_items : str -> json -> Z -> M json) : Prop :=
  forall part playlist n response,
    list_items part playlist n = Return response ->
    forall page entries,
      dict_lookup (py "items") match response with JObj f => f | _ => [] end = Some page ->
      iter page = Return entries -> len entries <= n.

(** [enumerate(urls)], counting from [i]. *)
Fixpoint indexed (i : Z) (urls : list str) : list (Z * str) :=
  match urls with
  | [] => []
  | url :: rest => (i, url) :: indexed (i + 1) rest
  end.

(** The name and the path of the file of the item of index [i]. *)
Definition download_name (i : Z) : str := py "video_" ++ format_03d (i + 1) ++ py ".mp4".

(** The item of index [i] downloads: the request returns status 200 and
    the file can be written. *)
Definition succeeds (os_path_join : str -> str -> str) (urlopen : Z -> str -> M (Z * str))
    (open_wb : str -> M unit) (download_folder : str) (item : Z * str) : bool :=
  match urlopen (fst item) (snd item) with
  | Return (status, _) =>
      (status =? 200) &&
      match open_wb (os_path_join download_folder (download_name (fst item))) with
      | Return _ => true
      | Raise _ => false
      end
  | Raise _ => false
  end.

(** The entry of [self.video_files] recorded for a downloaded item, and
    the call of [download_single_video] made for an item. *)
Definition recorded (os_path_join : str -> str -> str) (get_file_size : str -> str)
    (download_folder : str) (item : Z * str) : DouyinYouTubeTool.video_file :=
  let file_path := os_path_join download_folder (download_name (fst item)) in
  {| DouyinYouTubeTool.vf_path := file_path;
     DouyinYouTubeTool.vf_filename := download_name (fst item);
     DouyinYouTubeTool.vf_size := get_file_size file_path |}.

Definition call (os_path_join : str -> str -> str) (download_folder : str) (item : Z * str)
    : Z * str * str :=
  (fst item, snd item, os_path_join download_folder (download_name (fst item))).

(** The line logged when the request of an item raises [e]. *)
Definition download_error (item : Z * str) (e : exn) : DouyinYouTubeTool.event :=
  DouyinYouTubeTool.Log
    (py "❌ Download error for video " ++ str_of_Z (fst item + 1) ++ py ": " ++ exn_str e).

(** The places where [get_full_video_path] and [upload_selected_videos]
    look for a file, in order, and those of [upload_as_shorts_thread]. *)
Definition upload_candidates (os_path_join : str -> str -> str) (os_path_isabs : str -> bool)
    (current_video_folder : option str) (download_folder file_name : str) : list str :=
  match DouyinYouTubeTool.chosen current_video_folder with
  | Some folder => [os_path_join folder file_name]
  | None => []
  end
  ++ [os_path_join download_folder file_name]
  ++ (if os_path_isabs file_name then [file_name] else []).

Definition shorts_candidates (os_path_join : str -> str -> str) (os_path_exists : str -> bool)
    (expanduser : str -> str)
    (current_video_folder : option str) (download_folder file_name : str) : list str :=
  match DouyinYouTubeTool.chosen current_video_folder with
  | Some folder => if os_path_exists folder then [os_path_join folder file_name] else []
  | None => []
  end
  ++ [os_path_join download_folder file_name]
  ++ map (fun folder => os_path_join folder file_name)
       (DouyinYouTubeTool.common_locations expanduser).

(** A small POSIX world: three items of which the second times out, and
    a home directory with one clip in [Downloads]. *)
Module Posix.

Definition join (a b : str) : str :=
  if startswith b (py "/") then b else a ++ py "/" ++ b.

Definition isabs (p : str) : bool := startswith p (py "/").

Definition expanduser (p : str) : str :=
  if startswith p (py "~") then py "/home/u" ++ drop 1 p else p.

Definition only_in_downloads (p : str) : bool :=
  bool_decide (p = py "/home/u/Downloads/clip.mp4").

Definition flaky (i : Z) (url : str) : M (Z * str) :=
  if i =? 1 then Raise (Exception_ (py "timed out")) else Return (200, py "bytes").

Definition writable (path : str) : M unit := Return ().

Definition sizes (path : str) : str := py "5.0 B".

Definition three_urls : list str :=
  [py "https://a.com/1"; py "https://a.com/2"; py "https://a.com/3"].

End Posix.

(** A cURL command as browsers copy it: the quoted URL, then the header
    flags, then the cookie flag if there is one, all with the quote [q]. *)
Definition header_flag (q : ascii) (h : str * str) : str :=
  py " -H " ++ [q] ++ fst h ++ py ": " ++ snd h ++ [q].

Definition cookie_flag (q : ascii) (cookie : option str) : str :=
  match cookie with
  | Some c => py " -b " ++ [q] ++ c ++ [q]
  | None => []
  end.

Definition curl_command (q : ascii) (url : str) (hs : list (str * str)) (cookie : option str)
    : str :=
  py "curl " ++ [q] ++ url ++ [q] ++ concat (map (header_flag q) hs) ++ cookie_flag q cookie.

(** A string without quotes that does not end in white space, and one
    that does not start with white space either. *)
Definition unquoted (w : str) : Prop :=
  w <> [] /\ Forall (fun c => DouyinYouTubeTool.quote c = false) w
  /\ forall c, last w = Some c -> DouyinYouTubeTool.space c = false.

Definition trimmed (w : str) : Prop :=
  unquoted w /\ forall c, head w = Some c -> DouyinYouTubeTool.space c = false.

(** A header name: no colon and no quote. *)
Definition header_name (w : str) : Prop :=
  w <> [] /\ Forall (fun c => DouyinYouTubeTool.quote c = false) w
  /\ Forall (fun c => DouyinYouTubeTool.colon c = false) w.

(** The dictionary in which every header is set in turn, then the
    cookie. *)
Definition headers_of (hs : list (str * str)) (cookie : option str) : gmap str str :=
  let headers := foldl (fun m h => <[fst h := snd h]> m) ∅ hs in
  match cookie with
  | Some c => <[py "Cookie" := c]> headers
  | None => headers
  end.

(** The value of the last header named [name]. *)
Fixpoint last_value (name : str) (hs : list (str * str)) : option str :=
  match hs with
  | [] => None
  | h :: rest =>
      match last_value name rest with
      | Some v => Some v
      | None => if bool_decide (fst h = name) then Some (snd h) else None
      end
  end.

(** * Properties *)

(** ** Strings *)

Lemma len_app {A} (l1 l2 : list A) : len (l1 ++ l2) = len l1 + len l2.
Proof. unfold len. rewrite length_app. lia. Qed.

Lemma len_slice_to {A} (n : Z) (l : list A) :
  0 <= n -> len (slice_to n l) = Z.min n (len l).
Proof. intros Hn. unfold len, slice_to. rewrite length_take. lia. Qed.

Lemma slice_to_all {A} (n : Z) (l : list A) : len l <= n -> slice_to n l = l.
Proof. intros H. unfold slice_to, len in *. apply take_ge. lia. Qed.

Lemma endswith_app (s suffix : str) : endswith (s ++ suffix) suffix = true.
Proof.
  unfold endswith. apply bool_decide_eq_true.
  rewrite length_app.
  replace (length s + length suffix - length suffix)%nat with (length s) by lia.
  by rewrite drop_app_length.
Qed.

(** ** Upload metadata *)

Module UploaderFacts.
Import YouTubeUploader.

Lemma clean_title_short (s : str) : len s <= 100 -> clean_title s = s.
Proof. intros H. unfold clean_title. destruct (Z.ltb_spec 100 (len s)); [lia | done]. Qed.

Lemma clean_description_short (s : str) : len s <= 5000 -> clean_description s = s.
Proof. intros H. unfold clean_description. destruct (Z.ltb_spec 5000 (len s)); [lia | done]. Qed.

Lemma clean_title_long (s : str) :
  100 < len s -> len (clean_title s) = 100 /\ endswith (clean_title s) (py "...") = true.
Proof.
  intros H. unfold clean_title. destruct (Z.ltb_spec 100 (len s)); [| lia]. split.
  - rewrite len_app, len_slice_to by lia. change (len (py "...")) with 3. lia.
  - apply endswith_app.
Qed.

Lemma clean_description_long (s : str) :
  5000 < len s ->
  len (clean_description s) = 5000 /\ endswith (clean_description s) (py "...") = true.
Proof.
  intros H. unfold clean_description. destruct (Z.ltb_spec 5000 (len s)); [| lia]. split.
  - rewrite len_app, len_slice_to by lia. change (len (py "...")) with 3. lia.
  - apply endswith_app.
Qed.

Lemma clean_title_bound (s : str) : len (clean_title s) <= 100.
Proof.
  destruct (Z.le_gt_cases (len s) 100) as [H | H].
  - by rewrite clean_title_short.
  - apply clean_title_long in H. lia.
Qed.

Lemma clean_description_bound (s : str) : len (clean_description s) <= 5000.
Proof.
  destruct (Z.le_gt_cases (len s) 5000) as [H | H].
  - by rewrite clean_description_short.
  - apply clean_description_long in H. lia.
Qed.

(** C7.  The truncation of the title (limit 100) and of the description
    (limit 5000) in the metadata of [upload_video] is idempotent: building
    the body again from the fields of a body gives the same body; a
    string at or under the limit is kept unchanged; a string exactly one
    character over the limit becomes a string at or under the limit that
    ends in the marker [...]. *)
Theorem truncation_idempotent (t d : str) (tags : list str) (category privacy : str) :
  let b := body_snippet (upload_body t d tags category privacy) in
  upload_body (title b) (description b) (YouTubeUploader.tags b) category privacy
    = upload_body t d tags category privacy
  /\ (len t <= 100 -> title b = t)
  /\ (len d <= 5000 -> description b = d)
  /\ (len t = 101 -> len (title b) <= 100 /\ endswith (title b) (py "...") = true)
  /\ (len d = 5001 ->
      len (description b) <= 5000 /\ endswith (description b) (py "...") = true).
Proof.
  cbn. repeat split.
  - unfold upload_body. cbn.
    rewrite (clean_title_short (clean_title t)) by apply clean_title_bound.
    rewrite (clean_description_short (clean_description d)) by apply clean_description_bound.
    unfold slice_to. by rewrite take_take, Nat.min_id.
  - by apply clean_title_short.
  - by apply clean_description_short.
  - apply clean_title_bound.
  - apply clean_title_long. lia.
  - apply clean_description_bound.
  - apply clean_description_long. lia.
Qed.

(** A title of 101 characters and a description of 5001. *)
Lemma truncation_idempotent_witness :
  let t := replicate 101 "a"%char in
  let d := replicate (Z.to_nat 5001) "b"%char in
  let b := body_snippet (upload_body t d [] (py "22") (py "private")) in
  (len (title b) <= 100 /\ endswith (title b) (py "...") = true)
  /\ (len (description b) <= 5000 /\ endswith (description b) (py "...") = true)
  /\ title (body_snippet (upload_body (py "short") d [] (py "22") (py "private"))) = py "short".
Proof.
  intros t d b.
  pose proof (truncation_idempotent t d [] (py "22") (py "private")) as (_ & _ & _ & Ht & Hd).
  pose proof (truncation_idempotent (py "short") d [] (py "22") (py "private")) as (_ & Hs & _).
  split; [apply Ht; vm_compute; reflexivity |].
  split; [apply Hd; vm_compute; reflexivity |].
  apply Hs. vm_compute. discriminate.
Defined.

Section Upload.

Variable repr : json -> str.
Variable os_path_exists : str -> bool.
Variable os_path_getsize : str -> Z.
Variable format_gb : Z -> str.

Lemma failure_structured (message : str) : structured (failure message).
Proof. right. split; [reflexivity | by exists message]. Qed.

(** The status query after the upload never raises, and its result is
    structured. *)
Lemma uploaded_structured (yt : service) (video_id : json) :
  exists r, uploaded repr yt video_id = Return r /\ structured r.
Proof.
  unfold uploaded, try_except.
  match goal with |- context [match ?c with Return _ => _ | Raise _ => _ end] =>
    destruct c as [r | e] eqn:Hc end.
  - exists r. split; [done |]. revert Hc. cbn.
    repeat (match goal with
            | |- context [mbind _ ?c] => destruct c; cbn; try discriminate
            | |- context [if ?b then _ else _] => destruct b; cbn; try discriminate
            end).
    all: intros [= H]; subst r;
      first [apply failure_structured | left; repeat split; by eexists].
  - eexists. split; [done |]. left. repeat split; [by eexists | by eexists].
Qed.

(** What one iteration does, by the outcome of its call of [next_chunk]. *)
Lemma iteration_progress (yt : service) (req : nat -> M (option json)) (s : upload_state) :
  req (calls s) = Return None ->
  upload_iteration repr yt req s
    = Return ({| retry := retry s; calls := S (calls s); slept := slept s |}, None).
Proof. intros H. unfold upload_iteration. by rewrite H. Qed.

Lemma iteration_response (yt : service) (req : nat -> M (option json)) (s : upload_state)
    (response : json) :
  req (calls s) = Return (Some response) ->
  exists r,
    upload_iteration repr yt req s
      = Return ({| retry := retry s; calls := S (calls s); slept := slept s |}, Some r)
    /\ structured r.
Proof.
  intros H. unfold upload_iteration. rewrite H.
  destruct response as [| b | n | text | items | fields]; cbn;
    try (eexists; split; [reflexivity | apply failure_structured]).
  - destruct (substring_of (py "id") text); cbn;
      eexists; (split; [reflexivity | apply failure_structured]).
  - destruct (existsb (is_str (py "id")) items); cbn;
      eexists; (split; [reflexivity | apply failure_structured]).
  - destruct (dict_lookup (py "id") fields) as [video_id |]; cbn.
    + destruct (uploaded_structured yt video_id) as (r & -> & Hr). cbn. by exists r.
    + eexists. split; [reflexivity | apply failure_structured].
Qed.

Lemma iteration_retry (yt : service) (req : nat -> M (option json)) (s : upload_state)
    (st : Z) (text : str) :
  req (calls s) = Raise (HttpError st text) -> retriable st = true ->
  upload_iteration repr yt req s =
    if 5 <? retry s + 1 then
      Return ({| retry := retry s + 1; calls := S (calls s); slept := slept s |},
              Some (failure (py "Max retries exceeded: " ++ text)))
    else
      Return ({| retry := retry s + 1; calls := S (calls s);
                 slept := slept s ++ [2 ^ (retry s + 1)] |}, None).
Proof. intros H Hst. unfold upload_iteration. rewrite H. cbn. by rewrite Hst. Qed.

Lemma iteration_http_error (yt : service) (req : nat -> M (option json)) (s : upload_state)
    (st : Z) (text : str) :
  req (calls s) = Raise (HttpError st text) -> retriable st = false ->
  upload_iteration repr yt req s
    = Return ({| retry := retry s; calls := S (calls s); slept := slept s |},
              Some (failure (py "HTTP Error: " ++ text))).
Proof. intros H Hst. unfold upload_iteration. rewrite H. cbn. by rewrite Hst. Qed.

Lemma iteration_unexpected (yt : service) (req : nat -> M (option json)) (s : upload_state)
    (e : exn) :
  req (calls s) = Raise e -> (forall st text, e <> HttpError st text) ->
  upload_iteration repr yt req s
    = Return ({| retry := retry s; calls := S (calls s); slept := slept s |},
              Some (failure (py "Unexpected error: " ++ exn_str e))).
Proof.
  intros H He. unfold upload_iteration. rewrite H. cbn.
  destruct e as [st text | | | | | |]; try reflexivity. by destruct (He st text).
Qed.

(** The invariant of the loop: at most 5 retries so far, each followed by
    a sleep of twice the previous one. *)
Definition retrying (s : upload_state) : Prop :=
  0 <= retry s <= 5 /\ slept s = backoff (Z.to_nat (retry s)).

Lemma backoff_S (n : nat) : backoff (S n) = backoff n ++ [2 ^ Z.of_nat (S n)].
Proof. unfold backoff. by rewrite seq_S, map_app. Qed.

(** One iteration either goes round again, keeping the invariant, or
    returns a structured result; it never raises. *)
Lemma iteration_cases (yt : service) (req : nat -> M (option json)) (s : upload_state) :
  retrying s ->
  exists s' o,
    upload_iteration repr yt req s = Return (s', o)
    /\ calls s' = S (calls s)
    /\ match o with
       | None => retrying s' /\ retry s <= retry s'
                 /\ (retry s' = retry s -> req (calls s) = Return None)
       | Some r => structured r /\ retry s' <= 6 /\ slept s' = slept s
       end.
Proof.
  intros [Hr Hs].
  destruct (req (calls s)) as [[response |] | e] eqn:Hreq.
  - destruct (iteration_response yt req s response Hreq) as (r & -> & Hstr).
    eexists _, _. split; [reflexivity |]. cbn [retry calls slept]. split_and!; try done; lia.
  - rewrite iteration_progress by done.
    eexists _, _. split; [reflexivity |]. cbn [retry calls slept]. split_and!; try done; lia.
  - assert (Hother : (exists st text, e = HttpError st text) \/
                     (forall st text, e <> HttpError st text)).
    { destruct e; try (right; discriminate). left. by eexists _, _. }
    destruct Hother as [(st & text & ->) | Hother].
    + destruct (retriable st) eqn:Hst.
      * rewrite (iteration_retry yt req s st text Hreq Hst).
        destruct (Z.ltb_spec 5 (retry s + 1)).
        -- eexists _, _. split; [reflexivity |]. cbn [retry calls slept].
           split_and!; try done; try lia. apply failure_structured.
        -- eexists _, _. split; [reflexivity |]. cbn [retry calls slept]. split_and!; try lia.
           split; cbn [retry calls slept]; [lia |].
           replace (Z.to_nat (retry s + 1)) with (S (Z.to_nat (retry s))) by lia.
           rewrite backoff_S, Hs. do 3 f_equal. lia.
      * rewrite (iteration_http_error yt req s st text Hreq Hst).
        eexists _, _. split; [reflexivity |]. cbn [retry calls slept].
        split_and!; try done; try lia. apply failure_structured.
    + rewrite (iteration_unexpected yt req s e Hreq Hother).
      eexists _, _. split; [reflexivity |]. cbn [retry calls slept].
      split_and!; try done; try lia. apply failure_structured.
Qed.

(** Whatever the loop returns is a structured result, reached with at most
    5 sleeps, which are 2, 4, 8, 16, 32 seconds long. *)
Lemma loop_result (yt : service) (req : nat -> M (option json)) (fuel : nat) :
  forall s out,
    retrying s -> upload_loop repr fuel yt req s = Some out ->
    exists s' r, out = Return (s', r) /\ structured r
      /\ (length (slept s') <= 5)%nat /\ slept s' = backoff (length (slept s'))
      /\ (calls s < calls s')%nat.
Proof.
  induction fuel as [| fuel IH]; intros s out Hinv Hrun; [discriminate |].
  cbn in Hrun.
  destruct (iteration_cases yt req s Hinv) as (s' & o & Hit & Hcalls & Ho).
  rewrite Hit in Hrun. destruct o as [r |].
  - injection Hrun as <-. exists s', r. destruct Ho as (Hstr & _ & Hsl).
    destruct Hinv as [Hr Hs]. rewrite Hsl, Hs.
    unfold backoff. rewrite length_map, length_seq.
    repeat split; [done | lia | lia].
  - destruct Ho as (Hinv' & _). destruct (IH s' out Hinv' Hrun) as (s'' & r & ? & ? & ? & ? & ?).
    exists s'', r. repeat split; try done. lia.
Qed.

(** More fuel does not change a result. *)
Lemma loop_fuel (yt : service) (req : nat -> M (option json)) (fuel : nat) :
  forall s out, upload_loop repr fuel yt req s = Some out ->
                upload_loop repr (S fuel) yt req s = Some out.
Proof.
  induction fuel as [| fuel IH]; intros s out Hrun; [discriminate |].
  cbn in Hrun. cbn.
  destruct (upload_iteration repr yt req s) as [[s' [r |]] | e]; try done.
  by apply IH.
Qed.

(** The loop ends when the request does not report progress for ever. *)
Lemma loop_ends (yt : service) (req : nat -> M (option json)) :
  finishes req ->
  forall budget s, retrying s -> (Z.to_nat (5 - retry s) < budget)%nat ->
    exists fuel out, upload_loop repr fuel yt req s = Some out.
Proof.
  intros Hfin budget. induction budget as [| budget IHb]; intros s Hinv Hb; [lia |].
  destruct (Hfin (calls s)) as (m & Hm & Hreq).
  remember (m - calls s)%nat as d eqn:Hd.
  revert s Hinv Hb Hm Hd. induction d as [| d IHd]; intros s Hinv Hb Hm Hd.
  - assert (m = calls s) by lia. subst m.
    destruct (iteration_cases yt req s Hinv) as (s' & o & Hit & Hcalls & Ho).
    destruct o as [r |].
    + exists 1%nat. eexists. cbn. by rewrite Hit.
    + destruct Ho as (Hinv' & Hle & Hsame).
      assert (retry s < retry s').
      { destruct (Z.eq_dec (retry s') (retry s)) as [Heq | ?]; [| lia].
        by destruct Hreq, (Hsame Heq). }
      destruct (IHb s' Hinv') as (fuel & out & Hrun); [destruct Hinv'; lia |].
      exists (S fuel), out. cbn. by rewrite Hit.
  - destruct (iteration_cases yt req s Hinv) as (s' & o & Hit & Hcalls & Ho).
    destruct o as [r |].
    + exists 1%nat. eexists. cbn. by rewrite Hit.
    + destruct Ho as (Hinv' & Hle & _).
      destruct (IHd s' Hinv') as (fuel & out & Hrun); [lia | lia | lia |].
      exists (S fuel), out. cbn. by rewrite Hit.
Qed.

Lemma retrying_start : retrying {| retry := 0; calls := 0; slept := [] |}.
Proof. split; cbn; [lia | reflexivity]. Qed.

Lemma loop_S (yt : service) (req : nat -> M (option json)) (fuel : nat) (s : upload_state) :
  upload_loop repr (S fuel) yt req s =
    match upload_iteration repr yt req s with
    | Raise e => Some (Raise e)
    | Return (s', Some r) => Some (Return (s', r))
    | Return (s', None) => upload_loop repr fuel yt req s'
    end.
Proof. reflexivity. Qed.

(** When every call of [next_chunk] raises a retriable error, the loop is
    still running with less fuel than the retries it has left, and it
    gives up at the call that makes the counter exceed 5. *)
Lemma retriable_running (yt : service) (req : nat -> M (option json)) :
  (forall n, exists st text, req n = Raise (HttpError st text) /\ retriable st = true) ->
  forall fuel s, Z.of_nat fuel + retry s < 6 -> upload_loop repr fuel yt req s = None.
Proof.
  intros Hall fuel. induction fuel as [| fuel IH]; intros s Hlt; [reflexivity |].
  cbn [upload_loop]. destruct (Hall (calls s)) as (st & text & Hreq & Hst).
  rewrite (iteration_retry yt req s st text Hreq Hst).
  destruct (Z.ltb_spec 5 (retry s + 1)); [lia |].
  apply IH. cbn [retry]. lia.
Qed.

Lemma retriable_gives_up (yt : service) (req : nat -> M (option json)) :
  (forall n, exists st text, req n = Raise (HttpError st text) /\ retriable st = true) ->
  forall n s, 0 <= retry s -> Z.of_nat n + retry s = 5 ->
    exists st text,
      req (calls s + n)%nat = Raise (HttpError st text)
      /\ upload_loop repr (S n) yt req s
         = Some (Return ({| retry := 6; calls := S (calls s + n);
                            slept := slept s ++
                              map (fun i => 2 ^ Z.of_nat i) (seq (S (Z.to_nat (retry s))) n) |},
                         failure (py "Max retries exceeded: " ++ text))).
Proof.
  intros Hall n. induction n as [| n IH]; intros s Hpos Hsum.
  - destruct (Hall (calls s)) as (st & text & Hreq & Hst). exists st, text.
    rewrite Nat.add_0_r. split; [done |].
    cbn [upload_loop]. rewrite (iteration_retry yt req s st text Hreq Hst).
    destruct (Z.ltb_spec 5 (retry s + 1)); [| lia].
    cbn [seq map]. rewrite app_nil_r. do 4 f_equal. lia.
  - destruct (Hall (calls s)) as (st & text & Hreq & Hst).
    rewrite loop_S, (iteration_retry yt req s st text Hreq Hst).
    destruct (Z.ltb_spec 5 (retry s + 1)); [lia |].
    destruct (IH {| retry := retry s + 1; calls := S (calls s);
                    slept := slept s ++ [2 ^ (retry s + 1)] |})
      as (st' & text' & Hreq' & Hrun); cbn [retry calls slept]; [lia | lia |].
    cbn [retry calls slept] in Hreq', Hrun.
    exists st', text'.
    replace (calls s + S n)%nat with (S (calls s) + n)%nat by lia.
    split; [done |]. rewrite Hrun. do 3 f_equal.
    rewrite <- app_assoc. cbn [seq map app].
    replace (Z.of_nat (S (Z.to_nat (retry s)))) with (retry s + 1) by lia.
    by replace (Z.to_nat (retry s + 1)) with (S (Z.to_nat (retry s))) by lia.
Qed.

(** C1, as the code has it.  A call of [next_chunk] that raises an HTTP
    error with status 500, 502, 503 or 504 is retried after a sleep of 2,
    4, 8, 16, 32 seconds, at most 5 times: when every call fails so, the
    upload reports [Max retries exceeded] with the text of the last error
    after exactly 6 calls, the first attempt and 5 retries.  An HTTP error
    with any other status, and any other exception, ends the upload at
    once with a failure that carries the text of the error.  No upload
    sleeps more than 5 times. *)
Theorem retry_policy (yt : service) (req : nat -> M (option json)) :
  ((forall n, exists st text, req n = Raise (HttpError st text) /\ st ∈ [500; 502; 503; 504]) ->
   exists st text,
     req 5%nat = Raise (HttpError st text)
     /\ _resumable_upload repr 6 yt req
        = Some (Return ({| retry := 6; calls := 6; slept := [2; 4; 8; 16; 32] |},
                        failure (py "Max retries exceeded: " ++ text)))
     /\ forall fuel, (fuel < 6)%nat -> _resumable_upload repr fuel yt req = None)
  /\ (forall fuel s st text,
        req (calls s) = Raise (HttpError st text) -> st ∉ [500; 502; 503; 504] ->
        upload_loop repr (S fuel) yt req s
        = Some (Return ({| retry := retry s; calls := S (calls s); slept := slept s |},
                        failure (py "HTTP Error: " ++ text))))
  /\ (forall fuel s e,
        req (calls s) = Raise e -> (forall st text, e <> HttpError st text) ->
        upload_loop repr (S fuel) yt req s
        = Some (Return ({| retry := retry s; calls := S (calls s); slept := slept s |},
                        failure (py "Unexpected error: " ++ exn_str e))))
  /\ (forall fuel out,
        _resumable_upload repr fuel yt req = Some out ->
        exists s r, out = Return (s, r)
          /\ (length (slept s) <= 5)%nat /\ slept s = backoff (length (slept s))).
Proof.
  split_and!.
  - intros Hall.
    assert (Hall' : forall n, exists st text,
               req n = Raise (HttpError st text) /\ retriable st = true).
    { intros n. destruct (Hall n) as (st & text & ? & ?). exists st, text.
      split; [done |]. by apply bool_decide_eq_true. }
    destruct (retriable_gives_up yt req Hall' 5 {| retry := 0; calls := 0; slept := [] |})
      as (st & text & Hreq & Hrun); cbn [retry]; [lia | lia |].
    exists st, text. split_and!; [done | exact Hrun |].
    intros fuel Hfuel. apply retriable_running; [done |]. cbn [retry]. lia.
  - intros fuel s st text Hreq Hst. cbn [upload_loop].
    rewrite (iteration_http_error yt req s st text Hreq); [done |].
    by apply bool_decide_eq_false.
  - intros fuel s e Hreq He. cbn [upload_loop].
    by rewrite (iteration_unexpected yt req s e Hreq He).
  - intros fuel out Hrun.
    destruct (loop_result yt req fuel _ out retrying_start Hrun)
      as (s & r & -> & _ & Hlen & Hsl & _).
    by exists s, r.
Qed.

(** C8.  When a call of [next_chunk] returns a response with an id and the
    status query that follows raises, the upload returns a success with
    the id, the watch URL and a warning that carries the text of the
    error.  Whatever an upload returns is a structured result, never an
    exception; and it does return when the request does not report
    progress for ever. *)
Theorem upload_always_reports (yt : service) (req : nat -> M (option json)) :
  (forall fuel s response video_id e,
     req (calls s) = Return (Some response) ->
     contains (py "id") response = Return true ->
     getitem response (py "id") = Return video_id ->
     videos_list yt (py "snippet,status,processingDetails") video_id = Raise e ->
     exists s' r,
       upload_loop repr (S fuel) yt req s = Some (Return (s', r))
       /\ r !! py "success" = Some (JBool true)
       /\ r !! py "video_id" = Some video_id
       /\ r !! py "url"
          = Some (JStr (py "https://www.youtube.com/watch?v=" ++ format repr video_id))
       /\ r !! py "warning"
          = Some (JStr (py "Could not get video details: " ++ exn_str e)))
  /\ (forall fuel out,
        _resumable_upload repr fuel yt req = Some out ->
        exists s r, out = Return (s, r) /\ structured r)
  /\ (finishes req ->
      exists fuel s r,
        _resumable_upload repr fuel yt req = Some (Return (s, r)) /\ structured r).
Proof.
  split_and!.
  - intros fuel s response video_id e Hreq Hin Hid Hlist.
    cbn [upload_loop]. unfold upload_iteration. rewrite Hreq. cbn.
    rewrite Hin. cbn. rewrite Hid. cbn.
    unfold uploaded. rewrite Hlist. cbn.
    eexists _, _. split; [reflexivity |]. by split_and!.
  - intros fuel out Hrun.
    destruct (loop_result yt req fuel _ out retrying_start Hrun)
      as (s & r & -> & Hstr & _).
    by exists s, r.
  - intros Hfin.
    destruct (loop_ends yt req Hfin 6 _ retrying_start) as (fuel & out & Hrun);
      [cbn; lia |].
    destruct (loop_result yt req fuel _ out retrying_start Hrun)
      as (s & r & -> & Hstr & _).
    by exists fuel, s, r.
Qed.

(** C10.  [upload_video] raises when the uploader is not authenticated,
    raises [FileNotFoundError] when the file does not exist, and raises
    when the file is larger than 256 GiB; a file of exactly 256 GiB is
    uploaded. *)
Theorem upload_video_preconditions (fuel : nat) (youtube : option service)
    (video_file t d : str) (tags : list str) (category privacy : str) :
  let run := upload_video repr os_path_exists os_path_getsize format_gb fuel youtube
               video_file t d tags category privacy in
  (youtube = None ->
   run = Some (Raise (Exception_ (py "Not authenticated! Call authenticate() first."))))
  /\ (is_Some youtube -> os_path_exists video_file = false ->
      run = Some (Raise (FileNotFoundError
                           (py "Video file '" ++ video_file ++ py "' not found!"))))
  /\ (is_Some youtube -> os_path_exists video_file = true ->
      256 * 1024 * 1024 * 1024 < os_path_getsize video_file ->
      exists message, run = Some (Raise (Exception_ message)))
  /\ (forall yt, youtube = Some yt -> os_path_exists video_file = true ->
      os_path_getsize video_file = 256 * 1024 * 1024 * 1024 ->
      run = _resumable_upload repr fuel yt
              (videos_insert yt (upload_body t d tags category privacy) video_file)
      /\ forall out, run = Some out -> exists s r, out = Return (s, r)).
Proof.
  cbn zeta. unfold upload_video. split_and!.
  - by intros ->.
  - intros [yt ->] ->. done.
  - intros [yt ->] -> Hsize.
    destruct (Z.ltb_spec (256 * 1024 * 1024 * 1024) (os_path_getsize video_file)); [| lia].
    by eexists.
  - intros yt -> -> Hsize. rewrite Hsize. split; [reflexivity |].
    cbn [negb]. change (256 * 1024 * 1024 * 1024 <? 256 * 1024 * 1024 * 1024) with false.
    cbn iota. intros out Hrun.
    destruct (loop_result _ _ fuel _ out retrying_start Hrun) as (s & r & -> & _).
    by exists s, r.
Qed.

End Upload.

(** A service that always answers 503: the sixth call gives up. *)
Lemma retry_policy_witness :
  _resumable_upload Scenarios.plain_repr 6 (Scenarios.failing 503)
    (fun _ => Raise (HttpError 503 (py "<HttpError 503>")))
  = Some (Return ({| retry := 6; calls := 6; slept := [2; 4; 8; 16; 32] |},
                  failure (py "Max retries exceeded: <HttpError 503>"))).
Proof.
  destruct (retry_policy Scenarios.plain_repr (Scenarios.failing 503)
              (fun _ => Raise (HttpError 503 (py "<HttpError 503>"))))
    as (Hgive & _).
  destruct Hgive as (st & text & Hreq & Hrun & _).
  - intros n. exists 503, (py "<HttpError 503>"). split; [reflexivity |].
    apply (bool_decide_unpack _). reflexivity.
  - injection Hreq as <- <-. exact Hrun.
Defined.

(** The claim as written fails: a service that always answers 503 is
    called 6 times, not 5, and a 501 is not retried at all. *)
Lemma five_attempts_counterexample :
  (exists r,
     _resumable_upload Scenarios.plain_repr 6 (Scenarios.failing 503)
       (videos_insert (Scenarios.failing 503)
          (upload_body (py "t") [] [] (py "22") (py "private")) (py "a.mp4"))
     = Some (Return ({| retry := 6; calls := 6; slept := [2; 4; 8; 16; 32] |}, r)))
  /\ _resumable_upload Scenarios.plain_repr 5 (Scenarios.failing 503)
       (videos_insert (Scenarios.failing 503)
          (upload_body (py "t") [] [] (py "22") (py "private")) (py "a.mp4"))
     = None
  /\ _resumable_upload Scenarios.plain_repr 6 (Scenarios.failing 501)
       (videos_insert (Scenarios.failing 501)
          (upload_body (py "t") [] [] (py "22") (py "private")) (py "a.mp4"))
     = Some (Return ({| retry := 0; calls := 1; slept := [] |},
                     failure (py "HTTP Error: <HttpError 501>"))).
Proof. split_and!; [eexists |..]; vm_compute; reflexivity. Qed.

(** The upload of a file whose status query times out. *)
Lemma upload_always_reports_witness :
  exists s r,
    _resumable_upload Scenarios.plain_repr 1 Scenarios.unverifiable
      (fun _ => Return (Some (JObj [(py "id", JStr (py "abc123"))])))
    = Some (Return (s, r))
    /\ r !! py "success" = Some (JBool true)
    /\ r !! py "video_id" = Some (JStr (py "abc123"))
    /\ r !! py "url" = Some (JStr (py "https://www.youtube.com/watch?v=abc123"))
    /\ r !! py "warning" = Some (JStr (py "Could not get video details: timed out")).
Proof.
  destruct (upload_always_reports Scenarios.plain_repr Scenarios.unverifiable
              (fun _ => Return (Some (JObj [(py "id", JStr (py "abc123"))]))))
    as (Hwarn & _ & Hfin).
  destruct (Hwarn 0%nat {| retry := 0; calls := 0; slept := [] |}
              (JObj [(py "id", JStr (py "abc123"))]) (JStr (py "abc123"))
              (Exception_ (py "timed out")))
    as (s & r & Hrun & H1 & H2 & H3 & H4); try reflexivity.
  assert (Hends : finishes (fun _ : nat => Return (Some (JObj [(py "id", JStr (py "abc123"))])))).
  { intros n. exists n. split; [lia | discriminate]. }
  destruct (Hfin Hends) as (_ & _ & _ & _).
  exists s, r. split_and!; done.
Defined.

(** A file of exactly 256 GiB is uploaded; one more byte is refused. *)
Lemma upload_video_preconditions_witness :
  (exists s r,
     upload_video Scenarios.plain_repr
       (fst (Scenarios.one_file (py "a.mp4") (256 * 1024 * 1024 * 1024)))
       (snd (Scenarios.one_file (py "a.mp4") (256 * 1024 * 1024 * 1024)))
       str_of_Z 1 (Some Scenarios.unverifiable)
       (py "a.mp4") (py "t") [] [] (py "22") (py "private")
     = Some (Return (s, r)))
  /\ (exists message,
        upload_video Scenarios.plain_repr
          (fst (Scenarios.one_file (py "a.mp4") (256 * 1024 * 1024 * 1024 + 1)))
          (snd (Scenarios.one_file (py "a.mp4") (256 * 1024 * 1024 * 1024 + 1)))
          str_of_Z 1 (Some Scenarios.unverifiable)
          (py "a.mp4") (py "t") [] [] (py "22") (py "private")
        = Some (Raise (Exception_ message))).
Proof.
  split.
  - destruct (upload_video_preconditions Scenarios.plain_repr
                (fst (Scenarios.one_file (py "a.mp4") (256 * 1024 * 1024 * 1024)))
                (snd (Scenarios.one_file (py "a.mp4") (256 * 1024 * 1024 * 1024)))
                str_of_Z 1 (Some Scenarios.unverifiable)
                (py "a.mp4") (py "t") [] [] (py "22") (py "private"))
      as (_ & _ & _ & Hok).
    destruct (Hok Scenarios.unverifiable) as [Hrun Hret]; try reflexivity.
    rewrite Hrun. eexists _, _. vm_compute. reflexivity.
  - destruct (upload_video_preconditions Scenarios.plain_repr
                (fst (Scenarios.one_file (py "a.mp4") (256 * 1024 * 1024 * 1024 + 1)))
                (snd (Scenarios.one_file (py "a.mp4") (256 * 1024 * 1024 * 1024 + 1)))
                str_of_Z 1 (Some Scenarios.unverifiable)
                (py "a.mp4") (py "t") [] [] (py "22") (py "private"))
      as (_ & _ & Hbig & _).
    apply Hbig; [by eexists | reflexivity | reflexivity].
Defined.

End UploaderFacts.

(** ** Today's uploads *)

Module TodaysFacts.

Section Uploader.
Import YouTubeUploader.

Variable repr : json -> str.
Variable fromisoformat : json -> option Z.
Variable isoformat : Z -> str.
Variable youtube : option service.
Variables today_start today_end : Z.

Local Abbreviation visit := (visit repr fromisoformat youtube today_start today_end).
Local Abbreviation walk_items := (walk_items repr fromisoformat youtube today_start today_end).
Local Abbreviation older := (older fromisoformat today_start).
Local Abbreviation of_today := (of_today fromisoformat today_start today_end).

(** The body of the loop counts the entry; it breaks only at an older
    entry, and it passes the id to the resolver only for an entry of
    today. *)
Lemma visit_cases (item : json) (w : walk) :
  match visit item w with
  | Raise _ => True
  | Return (stop, w') =>
      total_checked w' = total_checked w + 1
      /\ (stop = true -> older item)
      /\ (resolved w' = resolved w /\ todays_videos w' = todays_videos w
          \/ stop = false /\ exists id, of_today item id
               /\ resolved w' = resolved w ++ [id]
               /\ (todays_videos w' = todays_videos w
                   \/ exists entry, todays_videos w' = todays_videos w ++ [entry]))
  end.
Proof.
  unfold visit, older, of_today, entry_id, entry_published.
  destruct (getitem item (py "contentDetails")) as [cd |]; cbn; [| done].
  destruct (getitem cd (py "videoId")) as [id |]; cbn; [| done].
  destruct (getitem item (py "snippet")) as [sn |]; cbn; [| done].
  destruct (getitem sn (py "publishedAt")) as [p |]; cbn; [| done].
  destruct (fromisoformat p) as [t |] eqn:Hp; cbn.
  2: { split_and!; [done | done | by left]. }
  destruct (Z.leb_spec today_start t); cbn.
  - destruct (Z.leb_spec t today_end); cbn.
    + match goal with |- context [try_except ?c _] => destruct c as [[stop w'] |] eqn:Hc end;
        cbn.
      * revert Hc.
        destruct (dict_getitem (check_video_status youtube id) (py "success")) as [ok |];
          cbn; [| done].
        destruct (truthy ok); cbn.
        -- destruct (todays_entry repr id p (check_video_status youtube id)) as [entry |];
             cbn; [| done].
           intros [= <- <-]. cbn. split_and!; [done | done |].
           right. split; [done |]. exists id. split_and!; [by exists p, t | done | eauto].
        -- intros [= <- <-]. cbn. split_and!; [done | done |].
           right. split; [done |]. exists id. split_and!; [by exists p, t | done | eauto].
      * split_and!; [done | done |].
        right. split; [done |]. exists id. split_and!; [by exists p, t | done | eauto].
    + destruct (Z.ltb_spec t today_start); [lia |]. cbn. split_and!; [done | done | by left].
  - destruct (Z.ltb_spec t today_start); cbn.
    + split_and!; [done | | by left]. intros _. by exists id, p, t.
    + split_and!; [done | done | by left].
Qed.

Lemma visit_older (item : json) (w : walk) :
  older item ->
  visit item w = Return (true, {| todays_videos := todays_videos w;
                                  total_checked := total_checked w + 1;
                                  resolved := resolved w |}).
Proof.
  intros (id & p & t & Hid & Hp & Ht & Hlt). revert Hid Hp.
  unfold visit, entry_id, entry_published.
  destruct (getitem item (py "contentDetails")) as [cd |]; cbn; [| done].
  intros ->.
  destruct (getitem item (py "snippet")) as [sn |]; cbn; [| done].
  intros ->. cbn. rewrite Ht.
  destruct (Z.leb_spec today_start t); [lia |]. cbn.
  by destruct (Z.ltb_spec t today_start); [| lia].
Qed.

(** The traversal stops at the first older entry: what follows it is
    never looked at. *)
Lemma walk_stops (pre post : list json) (item : json) (w : walk) :
  older item -> walk_items (pre ++ item :: post) w = walk_items (pre ++ [item]) w.
Proof.
  intros Hold. revert w. induction pre as [| x pre IH]; intros w; cbn.
  - by rewrite (visit_older item w Hold).
  - destruct (visit x w) as [[[] w'] |]; [done | apply IH | done].
Qed.

(** The traversal inspects no more entries than the page has, and every
    id that it resolves belongs to an entry of today. *)
Lemma walk_bounds (items : list json) (w : walk) :
  let w' := fst (walk_items items w) in
  total_checked w <= total_checked w' <= total_checked w + len items
  /\ exists ids, resolved w' = resolved w ++ ids
       /\ Forall (fun id => exists item, item ∈ items /\ of_today item id) ids
       /\ (length (todays_videos w') <= length (todays_videos w) + length ids)%nat.
Proof.
  cbn zeta. revert w. induction items as [| x items IH]; intros w; cbn [walk_items].
  - cbn. split; [unfold len; cbn; lia |]. exists []. rewrite app_nil_r.
    split_and!; [done | constructor | cbn; lia].
  - pose proof (visit_cases x w) as Hv.
    assert (Hlen : len (x :: items) = len items + 1) by (unfold len; cbn; lia).
    destruct (visit x w) as [[stop w1] |].
    + destruct Hv as (Hc & _ & Hres).
      assert (Hone : total_checked w <= total_checked w1 <= total_checked w + len (x :: items)
                /\ exists ids, resolved w1 = resolved w ++ ids
                     /\ Forall (fun id => exists item, item ∈ x :: items /\ of_today item id) ids
                     /\ (length (todays_videos w1)
                         <= length (todays_videos w) + length ids)%nat).
      { split; [unfold len in *; lia |].
        destruct Hres as [[-> ->] | (_ & id & Hid & -> & Hv)].
        - exists []. rewrite app_nil_r. split_and!; [done | constructor | cbn; lia].
        - exists [id]. split_and!; [done | | ].
          + constructor; [| constructor]. exists x. split; [left | done].
          + destruct Hv as [-> | [entry ->]]; [cbn; lia |].
            rewrite length_app. cbn. lia. }
      destruct stop; [exact Hone |].
      destruct (IH w1) as (Hc' & ids' & Hr' & Hall' & Hlen').
      destruct Hone as (Hc1 & ids & Hr & Hall & Hlen1).
      split; [unfold len in *; lia |].
      exists (ids ++ ids'). split_and!.
      * by rewrite Hr', Hr, app_assoc.
      * apply Forall_app. split; [done |].
        eapply Forall_impl; [exact Hall' |]. intros id (item & Hin & Hof).
        exists item. split; [by right | done].
      * rewrite length_app. lia.
    + cbn. split; [unfold len in *; lia |]. exists []. rewrite app_nil_r.
      split_and!; [done | constructor | cbn; lia].
Qed.

Lemma todays_ids_cons (item : json) (items : list json) :
  todays_ids fromisoformat today_start today_end (item :: items)
  = todays_ids fromisoformat today_start today_end [item]
    ++ todays_ids fromisoformat today_start today_end items.
Proof.
  cbn [todays_ids].
  destruct (entry_id item) as [id |]; [| done].
  destruct (entry_published item) as [p |]; [| done].
  destruct (fromisoformat p) as [t |]; [| done].
  by destruct ((today_start <=? t) && (t <=? today_end)).
Qed.

(** On an entry that has its fields and is not older, the body of the
    loop goes on to the next entry, and it resolves the entry exactly
    when the entry is of today. *)
Lemma visit_continues (item : json) (w : walk) :
  well_formed item -> ~ older item ->
  exists w', visit item w = Return (false, w')
    /\ total_checked w' = total_checked w + 1
    /\ resolved w' = resolved w ++ todays_ids fromisoformat today_start today_end [item].
Proof.
  intros (id & p & Hid & Hp) Hnot.
  assert (Hids : todays_ids fromisoformat today_start today_end [item]
                 = match fromisoformat p with
                   | Some t => if (today_start <=? t) && (t <=? today_end) then [id] else []
                   | None => []
                   end).
  { cbn [todays_ids]. by rewrite Hid, Hp. }
  rewrite Hids. clear Hids.
  assert (Hold : forall t, fromisoformat p = Some t -> t < today_start -> False).
  { intros t Ht Hlt. apply Hnot. by exists id, p, t. }
  clear Hnot. revert Hid Hp. unfold visit, entry_id, entry_published.
  destruct (getitem item (py "contentDetails")) as [cd |]; cbn; [| done].
  intros ->.
  destruct (getitem item (py "snippet")) as [sn |]; cbn; [| done].
  intros ->. cbn.
  destruct (fromisoformat p) as [t |] eqn:Hp.
  2: { eexists. split_and!; [reflexivity | done | cbn; by rewrite app_nil_r]. }
  destruct (Z.leb_spec today_start t); cbn.
  - destruct (Z.leb_spec t today_end); cbn.
    + match goal with |- context [try_except ?c _] => destruct c as [[stop w'] |] eqn:Hc end;
        cbn.
      * revert Hc.
        destruct (dict_getitem (check_video_status youtube id) (py "success")) as [ok |];
          cbn; [| done].
        destruct (truthy ok); cbn.
        -- destruct (todays_entry repr id p (check_video_status youtube id)) as [entry |];
             cbn; [| done].
           intros [= <- <-]. eexists. split_and!; [reflexivity | done | done].
        -- intros [= <- <-]. eexists. split_and!; [reflexivity | done | done].
      * eexists. split_and!; [reflexivity | done | done].
    + destruct (Z.ltb_spec t today_start); [lia |]. cbn.
      eexists. split_and!; [reflexivity | done | cbn; by rewrite app_nil_r].
  - destruct (Z.ltb_spec t today_start); cbn.
    + by destruct (Hold t).
    + eexists. split_and!; [reflexivity | done | cbn; by rewrite app_nil_r].
Qed.

(** Over entries that have their fields and are not older, the loop goes
    on: it inspects every one of them and resolves exactly those of
    today. *)
Lemma walk_exact (pre : list json) :
  forall w,
    Forall (fun x => well_formed x /\ ~ older x) pre ->
    exists w1,
      total_checked w1 = total_checked w + len pre
      /\ resolved w1 = resolved w ++ todays_ids fromisoformat today_start today_end pre
      /\ forall rest, walk_items (pre ++ rest) w = walk_items rest w1.
Proof.
  induction pre as [| x pre IH]; intros w Hpre.
  - exists w. unfold len. cbn. rewrite app_nil_r. split_and!; [lia | done | done].
  - inversion Hpre as [| ? ? [Hwf Hnot] Hpre']; subst.
    destruct (visit_continues x w Hwf Hnot) as (w' & Hv & Hc & Hr).
    destruct (IH w' Hpre') as (w1 & Hc1 & Hr1 & Hrest).
    exists w1. split_and!.
    + rewrite Hc1, Hc. unfold len. cbn [length]. lia.
    + by rewrite Hr1, Hr, (todays_ids_cons x pre), app_assoc.
    + intros rest. cbn [app YouTubeUploader.walk_items]. rewrite Hv. apply Hrest.
Qed.

End Uploader.

(** A step of a computation in [M]: case analysis on the first bind. *)
Ltac bind_cases :=
  match goal with
  | |- context [mbind _ ?c] => destruct c; cbn [mbind M_bind]
  end.

Ltac bind_as x H :=
  match goal with
  | |- context [mbind _ ?c] => destruct c as [x |] eqn:H; cbn [mbind M_bind]
  end.

Lemma getitem_lookup (response page : json) :
  getitem response (py "items") = Return page ->
  dict_lookup (py "items") match response with JObj f => f | _ => [] end = Some page.
Proof.
  destruct response; cbn; try discriminate.
  destruct (dict_lookup (py "items") fields); [by intros [= ->] | discriminate].
Qed.

Section UploaderQuery.
Import YouTubeUploader.

Variable repr : json -> str.
Variable fromisoformat : json -> option Z.
Variable isoformat : Z -> str.

(** The query walks the page of 50 entries that it asks the service for:
    it inspects at most the entries of that page and resolves only
    entries of that page that are of today. *)
Lemma uploader_query (youtube : option service) (now : Z) (res : todays_result) (w : walk) :
  get_todays_uploads repr fromisoformat isoformat youtube now = (res, Some w) ->
  exists yt playlist response page entries,
    youtube = Some yt
    /\ playlistItems_list yt (py "snippet,contentDetails") playlist 50 = Return response
    /\ getitem response (py "items") = Return page
    /\ iter page = Return entries
    /\ w = fst (walk_items repr fromisoformat youtube (start_of_day now) (end_of_day now)
                  entries {| todays_videos := []; total_checked := 0; resolved := [] |})
    /\ total_checked w <= len entries
    /\ (honours_limit (playlistItems_list yt) -> total_checked w <= 50)
    /\ Forall (fun id => exists item,
                 item ∈ entries
                 /\ of_today fromisoformat (start_of_day now) (end_of_day now) item id)
         (resolved w)
    /\ match res with
       | Success r => videos r = todays_videos w /\ report_total_checked r = total_checked w
       | Failure _ => True
       end.
Proof.
  unfold get_todays_uploads. destruct youtube as [yt |]; [| discriminate].
  bind_cases; [| discriminate].
  bind_cases; [| discriminate].
  destruct (truthy _); cbn [negb]; [| discriminate].
  do 5 (bind_cases; [| discriminate]).
  bind_as playlist Hstep5; [| discriminate].
  bind_as response Hstep6; [| discriminate].
  bind_as page Hstep7; [| discriminate].
  bind_as entries Hstep8; [| discriminate].
  pose proof (walk_bounds repr fromisoformat (Some yt) (start_of_day now) (end_of_day now)
                entries {| todays_videos := []; total_checked := 0; resolved := [] |})
    as (Hc & ids & Hr & Hall & Hlen).
  destruct (walk_items _ _ _ _ _ entries _) as [w' [e |]] eqn:Hwalk;
    cbn [fst] in *; intros [= <- <-].
  all: exists yt, playlist, response, page, entries.
  all: cbn [resolved total_checked todays_videos app] in *.
  all: split_and!; try done; try lia.
  all: try (intros Hlim;
            pose proof (Hlim _ _ _ _ Hstep6 page entries (getitem_lookup _ _ Hstep7) Hstep8);
            lia).
  all: first [by rewrite Hwalk | by rewrite Hr].
Qed.

End UploaderQuery.

Section API.
Import YouTubeAPI.

(** The filter loop visits every entry unless one raises, and collects
    the ids of entries that are not older than [today]. *)
Lemma collect_bounds (today : str) (items : list json) :
  forall (ids : list json) (n : Z),
    let '(ids', n', e) := collect_ids today items ids n in
    n <= n' <= n + len items
    /\ (e = None -> n' = n + len items)
    /\ exists new, ids' = ids ++ new
         /\ Forall (fun id => exists item, item ∈ items /\ since today item id) new.
Proof.
  induction items as [| x items IH]; intros ids n; cbn [collect_ids].
  - unfold len. cbn. split_and!; [lia | lia | intros; lia |]. exists []. by rewrite app_nil_r.
  - assert (Hlen : len (x :: items) = len items + 1) by (unfold len; cbn; lia).
    assert (Hstop : forall e : exn,
               n <= n + 1 <= n + len (x :: items)
               /\ (Some e = None -> n + 1 = n + len (x :: items))
               /\ exists new, ids = ids ++ new
                    /\ Forall (fun id => exists item, item ∈ x :: items /\ since today item id) new).
    { intros e. assert (0 <= len items) by (unfold len; lia).
      split_and!; [lia | lia | done |]. exists []. by rewrite app_nil_r. }
    assert (Hnext : forall ids1 new1,
               ids1 = ids ++ new1 ->
               Forall (fun id => exists item, item ∈ x :: items /\ since today item id) new1 ->
               let '(ids', n', e) := collect_ids today items ids1 (n + 1) in
               n <= n' <= n + len (x :: items)
               /\ (e = None -> n' = n + len (x :: items))
               /\ exists new, ids' = ids ++ new
                    /\ Forall (fun id => exists item, item ∈ x :: items /\ since today item id) new).
    { intros ids1 new1 -> Hnew1. specialize (IH (ids ++ new1) (n + 1)).
      destruct (collect_ids today items (ids ++ new1) (n + 1)) as [[ids' n'] e].
      destruct IH as (Hn & He & new & -> & Hnew).
      split_and!; [lia | lia | intros ?; rewrite He by done; lia |].
      exists (new1 ++ new). split; [by rewrite app_assoc |].
      apply Forall_app. split; [done |].
      eapply Forall_impl; [exact Hnew |]. intros id (item & Hin & Hs).
      exists item. split; [by right | done]. }
    destruct (getitem x (py "snippet")) as [sn |] eqn:Hsn; cbn [mbind M_bind]; [| apply Hstop].
    destruct (getitem sn (py "publishedAt")) as [p |] eqn:Hp; cbn [mbind M_bind];
      [| apply Hstop].
    destruct p as [| | | p | |]; cbn [ge mbind M_bind]; try apply Hstop.
    destruct (str_ge p today) eqn:Hge.
    + destruct (getitem sn (py "resourceId")) as [ri |] eqn:Hri; cbn [mbind M_bind];
        [| apply Hstop].
      destruct (getitem ri (py "videoId")) as [id |] eqn:Hid; cbn [mbind M_bind];
        [| apply Hstop].
      apply (Hnext _ [id]); [done |]. constructor; [| constructor].
      exists x. split; [left |]. exists p. unfold entry_published, resource_id.
      rewrite Hsn. cbn. rewrite Hp, Hri. cbn. by rewrite Hid.
    + apply (Hnext _ []); [by rewrite app_nil_r | constructor].
Qed.

Lemma strings_of_spec (ids : list json) (l : list str) :
  strings_of ids = Return l -> ids = map JStr l.
Proof.
  revert l. induction ids as [| [| | | s | |] ids IH]; intros l; cbn; try discriminate.
  - by intros [= <-].
  - destruct (strings_of ids) as [l' |]; cbn; [| discriminate].
    intros [= <-]. cbn. by rewrite (IH l').
Qed.

(** On entries whose timestamp is a string, the filter loop reads every
    one of them and keeps exactly the ids of those whose timestamp string
    is not less than [today]. *)
Lemma collect_exact (today : str) (items : list json) :
  Forall (listed today) items ->
  forall (ids : list json) (n : Z),
    collect_ids today items ids n = (ids ++ kept_ids today items, n + len items, None).
Proof.
  induction 1 as [| x items (p & Hp & Hid) Hitems IH]; intros ids n.
  - unfold len. cbn. rewrite app_nil_r. do 2 f_equal. lia.
  - assert (Hlen : n + len (x :: items) = n + 1 + len items) by (unfold len; cbn; lia).
    cbn [collect_ids kept_ids]. rewrite Hp. revert Hp Hid.
    unfold entry_published, resource_id.
    destruct (getitem x (py "snippet")) as [sn |]; cbn [mbind M_bind]; [| done].
    intros ->. cbn [ge mbind M_bind].
    destruct (str_ge p today).
    2: { intros _. rewrite IH, Hlen. by destruct (mbind _ _). }
    intros Hid. destruct (Hid eq_refl) as [id Hr]. revert Hr.
    destruct (getitem sn (py "resourceId")) as [ri |]; cbn [mbind M_bind]; [| done].
    intros ->. cbn [mbind M_bind]. rewrite IH, Hlen. by rewrite <- app_assoc.
Qed.

(** The query reads the page of 50 entries that it asks the service for;
    the ids it asks statistics for are those of entries of that page
    whose timestamp string is not less than [today]. *)
Lemma api_query (self : api) (today : str) (videos : list dict) (tr : trace) :
  get_todays_uploads self today = (videos, tr) ->
  (forall c, the_service self = Client c -> honours_limit (playlistItems_list c) ->
     inspected tr <= 50)
  /\ (credentials self = true ->
      forall arg, arg ∈ resolved tr ->
        exists c playlist response page entries ids,
          the_service self = Client c
          /\ playlistItems_list c (py "snippet") playlist 50 = Return response
          /\ get response (py "items") (JArr []) = Return page
          /\ iter page = Return entries
          /\ inspected tr = len entries
          /\ resolved tr = [arg]
          /\ arg = join (py ",") ids
          /\ Forall (fun id => exists item, item ∈ entries /\ since today item (JStr id))
               ids).
Proof.
  unfold get_todays_uploads.
  destruct (authenticated self); cbn [negb].
  2: { intros [= <- <-]. cbn. split; [lia | intros _ arg Harg; inversion Harg]. }
  destruct (the_service self) as [| | c] eqn:Hsvc.
  1, 2: intros [= <- <-]; cbn; split; [lia | intros _ arg Harg; inversion Harg].
  destruct (credentials self).
  - unfold my_uploads.
    assert (Hnone : forall n (videos0 : list dict),
              (honours_limit (playlistItems_list c) -> n <= 50) ->
              (videos0, {| inspected := n; resolved := [] |}) = (videos, tr) ->
              (forall c0, Client c = Client c0 -> honours_limit (playlistItems_list c0) ->
                 inspected tr <= 50)
              /\ (true = true -> forall arg, arg ∈ resolved tr ->
                    exists c0 playlist response page entries ids,
                      Client c = Client c0
                      /\ playlistItems_list c0 (py "snippet") playlist 50 = Return response
                      /\ get response (py "items") (JArr []) = Return page
                      /\ iter page = Return entries
                      /\ inspected tr = len entries
                      /\ resolved tr = [arg]
                      /\ arg = join (py ",") ids
                      /\ Forall (fun id => exists item,
                                   item ∈ entries /\ since today item (JStr id)) ids)).
    { intros n videos0 Hn [= <- <-]. cbn. split.
      - intros c0 [= <-]. exact Hn.
      - intros _ arg Harg. inversion Harg. }
    bind_cases; [| by apply (Hnone 0)].
    bind_cases; [| by apply (Hnone 0)].
    destruct (truthy _); [| by apply (Hnone 0)].
    do 4 (bind_cases; [| by apply (Hnone 0)]).
    bind_as playlist Hstep5; [| by apply (Hnone 0)].
    bind_as response Hstep6; [| by apply (Hnone 0)].
    bind_as page Hstep7; [| by apply (Hnone 0)].
    bind_as entries Hstep8; [| by apply (Hnone 0)].
    pose proof (collect_bounds today entries [] 0) as Hcol.
    destruct (collect_ids today entries [] 0) as [[video_ids n] e].
    destruct Hcol as (Hn & Hfull & new & Hnew & Hall). cbn [app] in Hnew. subst new.
    assert (Hpage : honours_limit (playlistItems_list c) -> n <= 50).
    { intros Hlim. enough (len entries <= 50) by lia.
      destruct response as [| | | | | fields]; try discriminate.
      cbn in Hstep7. injection Hstep7 as Hpage.
      destruct (dict_lookup (py "items") fields) as [v |] eqn:Hv; cbn in Hpage; subst page.
      - by apply (Hlim _ _ _ _ Hstep6 v entries).
      - cbn in Hstep8. injection Hstep8 as <-. unfold len. cbn. lia. }
    destruct e as [e |]; [by apply (Hnone n) |].
    destruct (bool_decide (video_ids = [])); [by apply (Hnone n) |].
    destruct (strings_of video_ids) as [ids |] eqn:Hids; [| by apply (Hnone n)].
    intros [= <- <-]. cbn. split.
    + intros c0 [= <-]. exact Hpage.
    + intros _ arg Harg. apply list_elem_of_singleton in Harg as ->.
      exists c, playlist, response, page, entries, ids.
      split_and!; try done.
      * rewrite Hfull by done. lia.
      * apply strings_of_spec in Hids. subst video_ids.
        by rewrite List.Forall_map in Hall.
  - unfold searched_uploads.
    match goal with |- context [match ?c with Return _ => _ | Raise _ => _ end] =>
      destruct c as [[ids |] |] end.
    all: intros [= <- <-]; cbn; split; [intros; lia | discriminate].
Qed.

End API.

Lemma page_of_honours (playlist : list json) :
  honours_limit (fun _ _ n => Scenarios.page_of playlist n).
Proof.
  intros _ _ n response Hpage page entries. unfold Scenarios.page_of in Hpage.
  destruct (Z.ltb_spec n 0); [discriminate |]. injection Hpage as <-.
  cbn. intros [= <-] [= <-]. unfold len. rewrite length_take. lia.
Qed.

(** C2, as the code has it.  [YouTubeUploader.get_todays_uploads] asks
    for a page of 50 entries and walks it in order.  As long as the
    entries have an id and a timestamp and are not published before the
    start of the current UTC day, it goes on: it inspects every one of
    them, also those whose timestamp does not parse or lies after the end
    of the day, and passes to [check_video_status] exactly the ids of
    those published during the day.  At the first entry published before
    the start of the day it stops: that entry is counted, and what
    follows it is not looked at.  The ids that it resolves are ids of
    entries of the page that were published during the current UTC day;
    it inspects no more entries than the page has, which is at most 50
    when the service returns no more than what it was asked for.
    [YouTubeAPI.get_todays_uploads] does not stop early: it reads the
    timestamp of every entry of its page of 50, unless one raises, and
    asks statistics, in one request, for the ids of the entries of the
    page whose timestamp string is not less than the string of today's
    midnight. *)
Theorem todays_uploads_traversal :
  (forall repr fromisoformat youtube today_start today_end pre item post w,
     older fromisoformat today_start item ->
     YouTubeUploader.walk_items repr fromisoformat youtube today_start today_end
       (pre ++ item :: post) w
     = YouTubeUploader.walk_items repr fromisoformat youtube today_start today_end
         (pre ++ [item]) w)
  /\ (forall repr fromisoformat youtube today_start today_end pre w,
        Forall (fun x => well_formed x /\ ~ older fromisoformat today_start x) pre ->
        exists w1,
          YouTubeUploader.walk_items repr fromisoformat youtube today_start today_end pre w
          = (w1, None)
          /\ YouTubeUploader.total_checked w1 = YouTubeUploader.total_checked w + len pre
          /\ YouTubeUploader.resolved w1
             = YouTubeUploader.resolved w
               ++ todays_ids fromisoformat today_start today_end pre
          /\ forall item post,
               older fromisoformat today_start item ->
               exists w2,
                 YouTubeUploader.walk_items repr fromisoformat youtube today_start today_end
                   (pre ++ item :: post) w
                 = (w2, None)
                 /\ YouTubeUploader.total_checked w2 = YouTubeUploader.total_checked w1 + 1
                 /\ YouTubeUploader.resolved w2 = YouTubeUploader.resolved w1)
  /\ (forall repr fromisoformat isoformat youtube now res w,
        YouTubeUploader.get_todays_uploads repr fromisoformat isoformat youtube now
        = (res, Some w) ->
        exists yt playlist response page entries,
          youtube = Some yt
          /\ YouTubeUploader.playlistItems_list yt (py "snippet,contentDetails") playlist 50
             = Return response
          /\ getitem response (py "items") = Return page
          /\ iter page = Return entries
          /\ w = fst (YouTubeUploader.walk_items repr fromisoformat youtube
                        (YouTubeUploader.start_of_day now) (YouTubeUploader.end_of_day now)
                        entries
                        {| YouTubeUploader.todays_videos := [];
                           YouTubeUploader.total_checked := 0;
                           YouTubeUploader.resolved := [] |})
          /\ YouTubeUploader.total_checked w <= len entries
          /\ (honours_limit (YouTubeUploader.playlistItems_list yt) ->
              YouTubeUploader.total_checked w <= 50)
          /\ Forall (fun id => exists item,
                       item ∈ entries
                       /\ of_today fromisoformat (YouTubeUploader.start_of_day now)
                            (YouTubeUploader.end_of_day now) item id)
               (YouTubeUploader.resolved w)
          /\ match res with
             | YouTubeUploader.Success r =>
                 YouTubeUploader.videos r = YouTubeUploader.todays_videos w
                 /\ YouTubeUploader.report_total_checked r = YouTubeUploader.total_checked w
             | YouTubeUploader.Failure _ => True
             end)
  /\ (forall today items ids n,
        Forall (listed today) items ->
        YouTubeAPI.collect_ids today items ids n
        = (ids ++ kept_ids today items, n + len items, None))
  /\ (forall today items,
        snd (YouTubeAPI.collect_ids today items [] 0) = None ->
        snd (fst (YouTubeAPI.collect_ids today items [] 0)) = len items)
  /\ (forall self today videos tr,
        YouTubeAPI.get_todays_uploads self today = (videos, tr) ->
        (forall c, YouTubeAPI.the_service self = YouTubeAPI.Client c ->
           honours_limit (YouTubeAPI.playlistItems_list c) ->
           YouTubeAPI.inspected tr <= 50)
        /\ (YouTubeAPI.credentials self = true ->
            forall arg, arg ∈ YouTubeAPI.resolved tr ->
              exists c playlist response page entries ids,
                YouTubeAPI.the_service self = YouTubeAPI.Client c
                /\ YouTubeAPI.playlistItems_list c (py "snippet") playlist 50
                   = Return response
                /\ get response (py "items") (JArr []) = Return page
                /\ iter page = Return entries
                /\ YouTubeAPI.inspected tr = len entries
                /\ YouTubeAPI.resolved tr = [arg]
                /\ arg = join (py ",") ids
                /\ Forall (fun id => exists item,
                             item ∈ entries /\ since today item (JStr id)) ids)).
Proof.
  split_and!.
  - intros. by apply walk_stops.
  - intros repr fromisoformat youtube today_start today_end pre w Hpre.
    destruct (walk_exact repr fromisoformat youtube today_start today_end pre w Hpre)
      as (w1 & Hc & Hr & Hrest).
    exists w1. split_and!; [| done | done |].
    + specialize (Hrest []). by rewrite app_nil_r in Hrest.
    + intros item post Hold. rewrite Hrest. cbn [YouTubeUploader.walk_items].
      rewrite (visit_older repr fromisoformat youtube today_start today_end item w1 Hold).
      eexists. split_and!; [reflexivity | done | done].
  - intros repr fromisoformat isoformat youtube now res w Hrun.
    exact (uploader_query repr fromisoformat isoformat youtube now res w Hrun).
  - intros today items ids n Hitems. by apply collect_exact.
  - intros today items He.
    pose proof (collect_bounds today items [] 0) as Hcol.
    destruct (YouTubeAPI.collect_ids today items [] 0) as [[ids n] e].
    cbn in *. destruct Hcol as (_ & Hn & _). rewrite Hn by done. lia.
  - intros self today videos tr Hrun. exact (api_query self today videos tr Hrun).
Qed.

(** Four entries, newest first: one of today, one whose timestamp does
    not parse, one of today and an older one.  All four are inspected and
    the two of today are resolved.  And fifty entries of which the first
    three are of today: four entries are inspected, three ids are
    resolved, three videos are reported. *)
Lemma todays_uploads_traversal_witness :
  (exists w,
     YouTubeUploader.walk_items Scenarios.plain_repr Scenarios.timestamps
       (Some (Scenarios.channel_with Scenarios.undated))
       (YouTubeUploader.start_of_day Scenarios.afternoon)
       (YouTubeUploader.end_of_day Scenarios.afternoon)
       Scenarios.undated
       {| YouTubeUploader.todays_videos := [];
          YouTubeUploader.total_checked := 0;
          YouTubeUploader.resolved := [] |}
     = (w, None)
     /\ YouTubeUploader.total_checked w = 4
     /\ YouTubeUploader.resolved w = [JStr (py "v1"); JStr (py "v2")])
  /\ exists r w,
       YouTubeUploader.get_todays_uploads Scenarios.plain_repr Scenarios.timestamps str_of_Z
         (Some (Scenarios.channel_with Scenarios.fifty)) Scenarios.afternoon
       = (YouTubeUploader.Success r, Some w)
       /\ YouTubeUploader.total_checked w <= 50
       /\ YouTubeUploader.total_checked w = 4
       /\ YouTubeUploader.resolved w = [JStr (py "v1"); JStr (py "v2"); JStr (py "v3")]
       /\ YouTubeUploader.total_today r = 3.
Proof.
  destruct todays_uploads_traversal as (_ & Hwalk & Hquery & _).
  split.
  - destruct (Hwalk Scenarios.plain_repr Scenarios.timestamps
                (Some (Scenarios.channel_with Scenarios.undated))
                (YouTubeUploader.start_of_day Scenarios.afternoon)
                (YouTubeUploader.end_of_day Scenarios.afternoon)
                [Scenarios.entry "v1" "2025-08-21T14:30:00Z";
                 Scenarios.entry "v5" "last Thursday";
                 Scenarios.entry "v2" "2025-08-21T10:00:00Z"]
                {| YouTubeUploader.todays_videos := [];
                   YouTubeUploader.total_checked := 0;
                   YouTubeUploader.resolved := [] |})
      as (w1 & _ & Hc1 & Hr1 & Hstop).
    { repeat constructor.
      all: try (eexists _, _; split; reflexivity).
      all: intros (id & p & t & _ & Hp & Ht & Hlt).
      all: injection Hp as <-; vm_compute in Ht; try discriminate.
      all: injection Ht as <-; vm_compute in Hlt; discriminate. }
    destruct (Hstop (Scenarios.entry "v3" "2025-08-20T23:59:59Z") [])
      as (w2 & Hrun & Hc2 & Hr2).
    { exists (JStr (py "v3")), (JStr (py "2025-08-20T23:59:59Z")), 1755734399000000.
      split_and!; [reflexivity | reflexivity | reflexivity | vm_compute; reflexivity]. }
    exists w2. split_and!.
    + exact Hrun.
    + rewrite Hc2, Hc1. reflexivity.
    + rewrite Hr2, Hr1. vm_compute. reflexivity.
  - destruct (YouTubeUploader.get_todays_uploads Scenarios.plain_repr Scenarios.timestamps
                str_of_Z (Some (Scenarios.channel_with Scenarios.fifty)) Scenarios.afternoon)
      as [res w] eqn:Hrun.
    assert (Hw : exists r w', res = YouTubeUploader.Success r /\ w = Some w'
               /\ YouTubeUploader.total_checked w' = 4
               /\ YouTubeUploader.resolved w'
                  = [JStr (py "v1"); JStr (py "v2"); JStr (py "v3")]
               /\ YouTubeUploader.total_today r = 3).
    { vm_compute in Hrun. injection Hrun as <- <-. eexists _, _.
      split_and!; reflexivity. }
    destruct Hw as (r & w' & -> & -> & Hc & Hr & Ht).
    destruct (Hquery _ _ _ _ _ _ _ Hrun)
      as (yt & playlist & response & page & entries & Hyt & _ & _ & _ & _ & _ & Hlim & _).
    exists r, w'. split_and!; try done.
    apply Hlim. injection Hyt as <-. apply page_of_honours.
Defined.

(** The claim as written fails in three ways.
    [YouTubeAPI.get_todays_uploads] does not stop early: of three
    entries, newest first, of which the second is older than today, it
    reads all three; and when the third one has no snippet it reports
    nothing, where [YouTubeUploader.get_todays_uploads] stops at the
    second entry and reports the first.
    [YouTubeAPI.get_todays_uploads] compares the timestamps as strings:
    it asks statistics for an entry published at 23:00 UTC of the day
    before whose timestamp is written with the offset [+02:00].
    The bound of 50 is the service's, not the code's: from a service that
    answers with sixty entries of today,
    [YouTubeUploader.get_todays_uploads] inspects sixty. *)
Lemma stops_early_counterexample :
  older Scenarios.timestamps (YouTubeUploader.start_of_day Scenarios.afternoon)
    (Scenarios.entry "v2" "2025-08-20T23:59:59Z")
  /\ YouTubeAPI.inspected
       (snd (YouTubeAPI.get_todays_uploads (Scenarios.oauth Scenarios.three)
               (py "2025-08-21T00:00:00Z"))) = 3
  /\ YouTubeAPI.get_todays_uploads (Scenarios.oauth Scenarios.broken_tail)
       (py "2025-08-21T00:00:00Z")
     = ([], {| YouTubeAPI.inspected := 3; YouTubeAPI.resolved := [] |})
  /\ (exists r w,
        YouTubeUploader.get_todays_uploads Scenarios.plain_repr Scenarios.timestamps str_of_Z
          (Some (Scenarios.channel_with Scenarios.broken_tail)) Scenarios.afternoon
        = (YouTubeUploader.Success r, Some w)
        /\ YouTubeUploader.total_checked w = 2 /\ YouTubeUploader.total_today r = 1)
  /\ (older Scenarios.timestamps (YouTubeUploader.start_of_day Scenarios.afternoon)
        (Scenarios.entry "v9" "2025-08-21T01:00:00+02:00")
      /\ YouTubeAPI.resolved
           (snd (YouTubeAPI.get_todays_uploads (Scenarios.oauth Scenarios.offset_entry)
                   (py "2025-08-21T00:00:00Z")))
         = [py "v9"])
  /\ (YouTubeUploader.total_checked
        <$> snd (YouTubeUploader.get_todays_uploads Scenarios.plain_repr Scenarios.timestamps
                   str_of_Z (Some (Scenarios.unlimited Scenarios.sixty)) Scenarios.afternoon)
      = Some 60
      /\ match
           fst (YouTubeUploader.get_todays_uploads Scenarios.plain_repr Scenarios.timestamps
                  str_of_Z (Some (Scenarios.unlimited Scenarios.sixty)) Scenarios.afternoon)
         with
         | YouTubeUploader.Success r =>
             YouTubeUploader.report_total_checked r = 60 /\ YouTubeUploader.total_today r = 60
         | YouTubeUploader.Failure _ => False
         end).
Proof.
  split_and!.
  - exists (JStr (py "v2")), (JStr (py "2025-08-20T23:59:59Z")), 1755734399000000.
    split_and!; [reflexivity | reflexivity | reflexivity | vm_compute; reflexivity].
  - vm_compute. reflexivity.
  - vm_compute. reflexivity.
  - eexists _, _. split_and!; [vm_compute; reflexivity | reflexivity | reflexivity].
  - exists (JStr (py "v9")), (JStr (py "2025-08-21T01:00:00+02:00")), 1755730800000000.
    split_and!; [reflexivity | reflexivity | reflexivity | vm_compute; reflexivity].
  - vm_compute. reflexivity.
  - vm_compute. reflexivity.
  - vm_compute. split; reflexivity.
Qed.

End TodaysFacts.

(** ** The feed *)

Module FeedFacts.
Import DouyinYouTubeTool.

(** What [extract_video_url] returns for an item whose [url_list] starts
    with a string. *)
Lemma extract_first (url : str) (more : list json) :
  extract_video_url (Scenarios.feed_item (JArr (JStr url :: more)))
  = Some (if startswith url (py "https") then url
          else replace url (py "http") (py "https")).
Proof. cbv -[startswith replace]. by destruct (startswith url _). Qed.

(** C5, where the code departs from it.  For an item whose [url_list]
    starts with a string, [extract_video_url] returns that string when it
    starts with [https] and otherwise the string with every [http] in it
    replaced by [https]: the second [http] of
    [http://a.com/v?src=http://b.com] is rewritten as well, and the
    scheme of [ftp://a.com/v] is kept.  An item without the keys, or with
    an empty list, gives no URL. *)
Theorem extract_video_url_rewrites_every_http :
  (forall url more,
     extract_video_url (Scenarios.feed_item (JArr (JStr url :: more)))
     = Some (if startswith url (py "https") then url
             else replace url (py "http") (py "https")))
  /\ extract_video_url
       (Scenarios.feed_item (JArr [JStr (py "http://a.com/v?src=http://b.com")]))
     = Some (py "https://a.com/v?src=https://b.com")
  /\ py "https://a.com/v?src=https://b.com" <> py "https://a.com/v?src=http://b.com"
  /\ extract_video_url (Scenarios.feed_item (JArr [JStr (py "ftp://a.com/v")]))
     = Some (py "ftp://a.com/v")
  /\ extract_video_url (Scenarios.feed_item (JArr [JStr (py "https://a.com/v")]))
     = Some (py "https://a.com/v")
  /\ extract_video_url (Scenarios.feed_item (JArr [JStr (py "http://a.com/v")]))
     = Some (py "https://a.com/v")
  /\ extract_video_url (Scenarios.feed_item (JArr [])) = None
  /\ extract_video_url (JObj [(py "video", JObj [])]) = None
  /\ extract_video_url (JObj []) = None
  /\ extract_video_url JNull = None.
Proof.
  split_and!; try (vm_compute; reflexivity).
  - apply extract_first.
  - vm_compute. discriminate.
Qed.

Section Pagination.

Variable extract_user_id_from_api_url : str -> option str.
Variable update_url_with_params : str -> json -> str -> str.
Variable http_get : nat -> str -> gmap str str -> M (Z * str).
Variable json_loads : str -> M json.

Local Abbreviation fetch_api_data := (fetch_api_data http_get json_loads).
Local Abbreviation pages := (pages update_url_with_params http_get json_loads).
Local Abbreviation analyze_url :=
  (analyze_url extract_user_id_from_api_url update_url_with_params http_get json_loads).

(** One round of the loop requests one page; then the loop is left, or it
    goes round with the next page number. *)
Lemma pages_round (fuel : nat) (headers : gmap str str) (url sid : str) (page : Z)
    (max_cursor : json) (a : analysis) :
  page <= 5 ->
  let current_url := update_url_with_params url max_cursor sid in
  exists a1, requested a1 = requested a ++ [current_url]
    /\ ((exists e, pages (S fuel) headers url sid page max_cursor a = Some (a1, e))
        \/ (exists max_cursor',
              pages (S fuel) headers url sid page max_cursor a
              = pages fuel headers url sid (page + 1) max_cursor' a1)).
Proof.
  intros Hpage. cbn zeta. cbn [DouyinYouTubeTool.pages].
  destruct (Z.leb_spec page 5); [| lia]. cbn [negb].
  destruct (fetch_api_data _ headers _) as [[data |] logged].
  2: { eexists. split; [| left; eexists; reflexivity]. done. }
  destruct (truthy data); cbn [negb].
  2: { eexists. split; [| left; eexists; reflexivity]. done. }
  match goal with |- context [match ?c with Return _ => _ | Raise _ => _ end] =>
    destruct c as [[[[videos has_more] max_cursor'] |] | e] end.
  - destruct (truthy has_more); cbn [negb].
    + eexists. split; [| right; eexists; reflexivity]. done.
    + eexists. split; [| left; eexists; reflexivity]. done.
  - eexists. split; [| left; eexists; reflexivity]. done.
  - eexists. split; [| left; eexists; reflexivity]. done.
Qed.

(** The loop ends within the pages that are left, and requests no more
    pages than that. *)
Lemma pages_bound (headers : gmap str str) (url sid : str) (left : nat) :
  forall fuel page max_cursor a,
    6 - page <= Z.of_nat left -> (left < fuel)%nat ->
    exists a' e,
      pages fuel headers url sid page max_cursor a = Some (a', e)
      /\ (length (requested a') <= length (requested a) + left)%nat.
Proof.
  induction left as [| left IH]; intros fuel page max_cursor a Hleft Hfuel.
  - destruct fuel as [| fuel]; [lia |]. cbn [DouyinYouTubeTool.pages].
    destruct (Z.leb_spec page 5); [lia |]. cbn [negb].
    exists a, None. split; [done | lia].
  - destruct fuel as [| fuel]; [lia |].
    destruct (Z.le_gt_cases page 5) as [Hpage | Hpage].
    + destruct (pages_round fuel headers url sid page max_cursor a Hpage)
        as (a1 & Hreq & [[e Hrun] | [max_cursor' Hrun]]).
      * exists a1, e. split; [done |]. rewrite Hreq, length_app. cbn. lia.
      * destruct (IH fuel (page + 1) max_cursor' a1) as (a' & e & Hrun' & Hlen);
          [lia | lia |].
        exists a', e. split; [by rewrite Hrun |].
        rewrite Hreq, length_app in Hlen. cbn in Hlen. lia.
    + cbn [DouyinYouTubeTool.pages]. destruct (Z.leb_spec page 5); [lia |]. cbn [negb].
      exists a, None. split; [done | lia].
Qed.

(** While the server claims more pages, the loop goes on up to page 5. *)
Lemma pages_cap (headers : gmap str str) (url sid : str) :
  (forall n u, exists f videos more,
      fst (fetch_api_data n headers u) = Some (JObj f)
      /\ dict_lookup (py "aweme_list") f = Some (JArr videos)
      /\ dict_lookup (py "has_more") f = Some more /\ truthy more = true) ->
  forall (left : nat) fuel page max_cursor a,
    page = 6 - Z.of_nat left -> (left <= 5)%nat -> (left < fuel)%nat ->
    exists a' e,
      pages fuel headers url sid page max_cursor a = Some (a', e)
      /\ length (requested a') = (length (requested a) + left)%nat.
Proof.
  intros Hmore left. induction left as [| left IH]; intros fuel page max_cursor a Hp Hl Hfuel.
  - destruct fuel as [| fuel]; [lia |]. cbn [DouyinYouTubeTool.pages].
    destruct (Z.leb_spec page 5); [lia |]. cbn [negb].
    exists a, None. split; [done | lia].
  - destruct fuel as [| fuel]; [lia |]. cbn [DouyinYouTubeTool.pages].
    destruct (Z.leb_spec page 5); [| lia]. cbn [negb].
    destruct (Hmore (length (requested a)) (update_url_with_params url max_cursor sid))
      as (f & videos & more & Hdata & Hlist & Hhas & Htrue).
    destruct (fetch_api_data _ headers _) as [data logged]. cbn in Hdata. subst data.
    assert (Hf : truthy (JObj f) = true).
    { destruct f; [discriminate | reflexivity]. }
    rewrite Hf. cbn [negb contains getitem get iter mbind M_bind].
    rewrite Hlist, Hhas. cbn. rewrite Htrue. cbn [negb].
    match goal with |- context [pages fuel headers url sid (page + 1) ?c ?a1] =>
      destruct (IH fuel (page + 1) c a1) as (a' & e & Hrun & Hlen); [lia | lia | lia |]
    end.
    exists a', e. split; [exact Hrun |].
    rewrite Hlen. cbn. rewrite length_app. cbn. lia.
Qed.

(** More fuel does not change a result, and a result only adds
    requests. *)
Lemma pages_fuel (headers : gmap str str) (url sid : str) (fuel : nat) :
  forall page max_cursor a r,
    pages fuel headers url sid page max_cursor a = Some r ->
    pages (S fuel) headers url sid page max_cursor a = Some r.
Proof.
  induction fuel as [| fuel IH]; intros page max_cursor a r Hrun; [discriminate |].
  remember (S fuel) as fuel' eqn:Hfuel. cbn [DouyinYouTubeTool.pages].
  rewrite Hfuel in Hrun. revert Hrun. cbn [DouyinYouTubeTool.pages].
  destruct (negb (page <=? 5)); [done |].
  destruct (fetch_api_data _ headers _) as [[data |] logged]; [| done].
  destruct (negb (truthy data)); [done |].
  match goal with |- context [match ?c with Return _ => _ | Raise _ => _ end] =>
    destruct c as [[[[videos has_more] mc] |] | err] end; try done.
  destruct (negb (truthy has_more)); [done |].
  apply IH.
Qed.

Lemma pages_fuel_le (headers : gmap str str) (url sid : str) (fuel fuel' : nat) :
  (fuel <= fuel')%nat ->
  forall page max_cursor a r,
    pages fuel headers url sid page max_cursor a = Some r ->
    pages fuel' headers url sid page max_cursor a = Some r.
Proof.
  induction 1 as [| fuel' _ IH]; intros page max_cursor a r Hrun; [done |].
  by apply pages_fuel, IH.
Qed.

Lemma pages_extends (headers : gmap str str) (url sid : str) (fuel : nat) :
  forall page max_cursor a a' e,
    pages fuel headers url sid page max_cursor a = Some (a', e) ->
    exists more, requested a' = requested a ++ more
      /\ (page <= 5 -> head more = Some (update_url_with_params url max_cursor sid)).
Proof.
  induction fuel as [| fuel IH]; intros page max_cursor a a' e Hrun; [discriminate |].
  destruct (Z.le_gt_cases page 5) as [Hpage | Hpage].
  - destruct (pages_round fuel headers url sid page max_cursor a Hpage)
      as (a1 & Hreq & [[e1 Hone] | [mc Hone]]); rewrite Hone in Hrun.
    + injection Hrun as <- <-. eexists. split; [exact Hreq | done].
    + destruct (IH _ _ _ _ _ Hrun) as (more & Hmore & _).
      exists (update_url_with_params url max_cursor sid :: more).
      split; [| done]. rewrite Hmore, Hreq. by rewrite <- app_assoc.
  - revert Hrun. cbn [DouyinYouTubeTool.pages].
    destruct (Z.leb_spec page 5); [lia |]. cbn [negb]. intros [= <- <-].
    exists []. split; [by rewrite app_nil_r | lia].
Qed.

(** C4.  [analyze_url] returns, whatever the server does and with the
    same result for any fuel from 6 on, after at most 5 requests, the
    first of them with cursor 0.  A round of the loop whose page is
    missing or falsy, or lacks the key [aweme_list], or whose [has_more]
    is falsy, is the last one; and when the server claims more pages for
    ever, exactly 5 pages are requested. *)
Theorem feed_pagination (headers : gmap str str) (url_field : str) :
  (exists a,
     analyze_url 6 headers url_field = Some a
     /\ (forall fuel, (6 <= fuel)%nat -> analyze_url fuel headers url_field = Some a)
     /\ (length (requested a) <= 5)%nat
     /\ (forall sid, extract_user_id_from_api_url (strip url_field) = Some sid ->
         forall first, head (requested a) = Some first ->
           first = update_url_with_params (strip url_field) (JNum 0) sid))
  /\ (forall fuel url sid page max_cursor a,
        page <= 5 ->
        let current_url := update_url_with_params url max_cursor sid in
        let data := fst (fetch_api_data (length (requested a)) headers current_url) in
        (data = None \/ (exists d, data = Some d /\ truthy d = false)
         \/ (exists d, data = Some d /\ contains (py "aweme_list") d = Return false)
         \/ (exists f videos,
               data = Some (JObj f) /\ dict_lookup (py "aweme_list") f = Some (JArr videos)
               /\ truthy (from_option id (JBool false) (dict_lookup (py "has_more") f))
                  = false)) ->
        exists a',
          pages (S fuel) headers url sid page max_cursor a = Some (a', None)
          /\ requested a' = requested a ++ [current_url])
  /\ ((forall n u, exists f videos more,
          fst (fetch_api_data n headers u) = Some (JObj f)
          /\ dict_lookup (py "aweme_list") f = Some (JArr videos)
          /\ dict_lookup (py "has_more") f = Some more /\ truthy more = true) ->
      forall url sid,
        exists a' e,
          pages 6 headers url sid 1 (JNum 0)
            {| video_urls := []; requested := []; events := [] |} = Some (a', e)
          /\ length (requested a') = 5%nat).
Proof.
  split_and!.
  - unfold DouyinYouTubeTool.analyze_url.
    destruct (bool_decide (strip url_field = [])).
    { eexists. split_and!; [reflexivity | done | cbn; lia | cbn; discriminate]. }
    destruct (negb (substring_of _ (strip url_field))).
    { eexists. split_and!; [reflexivity | done | cbn; lia | cbn; discriminate]. }
    destruct (extract_user_id_from_api_url (strip url_field)) as [[| c sid] |].
    1, 3: eexists; split_and!; [reflexivity | done | cbn; lia | cbn; discriminate].
    set (a0 := {| video_urls := []; requested := [];
                  events := [Log (py "🔍 Analyzing URL...")] |}).
    destruct (pages_bound headers (strip url_field) (c :: sid) 5 6 1 (JNum 0) a0)
      as (a' & e & Hrun & Hlen); [lia | lia |].
    destruct (pages_extends _ _ _ _ _ _ _ _ _ Hrun) as (more & Hmore & Hhead).
    cbn in Hmore, Hlen. specialize (Hhead ltac:(lia)).
    assert (Hfirst : forall sid', Some (c :: sid) = Some sid' ->
              forall first, head (requested a') = Some first ->
                first = update_url_with_params (strip url_field) (JNum 0) sid').
    { intros sid' [= <-] first. rewrite Hmore, Hhead. by intros [= <-]. }
    rewrite Hrun. destruct e as [e |]; eexists.
    all: split_and!; [reflexivity | | exact Hlen | exact Hfirst].
    all: intros fuel Hfuel;
      by rewrite (pages_fuel_le headers (strip url_field) (c :: sid) 6 fuel Hfuel _ _ _ _ Hrun).
  - intros fuel url sid page max_cursor a Hpage. cbn zeta. cbn [DouyinYouTubeTool.pages].
    destruct (Z.leb_spec page 5); [| lia]. cbn [negb].
    destruct (fetch_api_data _ headers _) as [data logged]. cbn [fst].
    intros [-> | [(d & -> & Hd) | [(d & -> & Hd) | (f & videos & -> & Hl & Hm)]]].
    + by eexists.
    + rewrite Hd. by eexists.
    + destruct (truthy d); cbn [negb]; [| by eexists].
      rewrite Hd. cbn. by eexists.
    + assert (Hf : truthy (JObj f) = true).
      { destruct f; [discriminate | reflexivity]. }
      rewrite Hf. cbn [negb contains getitem get iter mbind M_bind].
      rewrite Hl. cbn. rewrite Hm. cbn. by eexists.
  - intros Hmore url sid.
    destruct (pages_cap headers url sid Hmore 5 6 1 (JNum 0)
                {| video_urls := []; requested := []; events := [] |})
      as (a' & e & Hrun & Hlen); [lia | lia | lia |].
    by exists a', e.
Qed.

End Pagination.

(** A server that always claims more: five pages, five videos. *)
Lemma feed_pagination_witness :
  exists a,
    analyze_url Scenarios.user_id (Scenarios.with_cursor Scenarios.plain_repr)
      Scenarios.endless Scenarios.endless_page 6 ∅ Scenarios.feed_url = Some a
    /\ length (requested a) = 5%nat
    /\ length (video_urls a) = 5%nat
    /\ head (requested a)
       = Some (Scenarios.feed_url ++ py "&max_cursor=0").
Proof.
  destruct (feed_pagination Scenarios.user_id (Scenarios.with_cursor Scenarios.plain_repr)
              Scenarios.endless Scenarios.endless_page ∅ Scenarios.feed_url)
    as ((a & Hrun & _ & Hle & Hfirst) & _ & Hcap).
  destruct (Hcap ltac:(intros n u; eexists _, _, _; split_and!; reflexivity)
              Scenarios.feed_url (py "ABC123"))
    as (a' & e & Hpages & Hfive).
  exists a. split; [exact Hrun |].
  vm_compute in Hrun. injection Hrun as <-.
  split_and!; reflexivity.
Defined.

End FeedFacts.

(** ** Downloads *)

Module DownloadFacts.
Import DouyinYouTubeTool.

Lemma indexed_lookup (urls : list str) :
  forall (i : Z) (j : nat),
    indexed i urls !! j = (fun url => (i + Z.of_nat j, url)) <$> urls !! j.
Proof.
  induction urls as [| u urls IH]; intros i j; [by destruct j |].
  destruct j as [| j]; cbn.
  - do 2 f_equal. lia.
  - rewrite IH. destruct (urls !! j); cbn; [| done]. do 2 f_equal. lia.
Qed.

Lemma indexed_length (urls : list str) (i : Z) : length (indexed i urls) = length urls.
Proof. revert i. induction urls as [| u urls IH]; intros i; cbn; [done | by rewrite IH]. Qed.

(** A list in which exactly the element at [k] fails a test. *)
Lemma one_failure {A} (test : A -> bool) (l : list A) :
  forall (k : nat) (x : A),
    l !! k = Some x -> test x = false ->
    (forall j y, l !! j = Some y -> j <> k -> test y = true) ->
    length (List.filter (fun y => negb (test y)) l) = 1%nat
    /\ length (List.filter test l) = (length l - 1)%nat
    /\ List.filter test l = take k l ++ drop (S k) l.
Proof.
  induction l as [| y l IH]; intros k x Hk Hx Hothers; [done |].
  destruct k as [| k]; cbn in Hk.
  - injection Hk as ->. cbn. rewrite Hx. cbn.
    assert (Hall : forall z, z ∈ l -> test z = true).
    { intros z Hz. apply list_elem_of_lookup in Hz as [j Hj].
      by apply (Hothers (S j) z). }
    assert (Hkeep : List.filter test l = l).
    { clear -Hall. induction l as [| z l IH]; [done |]. cbn.
      rewrite (Hall z) by left. f_equal. apply IH. intros z' Hz'. apply Hall. by right. }
    assert (Hdrop : List.filter (fun y => negb (test y)) l = []).
    { clear -Hall. induction l as [| z l IH]; [done |]. cbn.
      rewrite (Hall z) by left. cbn. apply IH. intros z' Hz'. apply Hall. by right. }
    rewrite Hkeep, Hdrop. split_and!; [done | lia | by rewrite drop_0].
  - assert (Hy : test y = true) by (by apply (Hothers 0%nat y)).
    destruct (IH k x Hk Hx) as (H1 & H2 & H3).
    { intros j z Hj Hne. apply (Hothers (S j) z); [done | lia]. }
    cbn. rewrite Hy. cbn. rewrite H1, H2, H3. split_and!; [done | | done].
    apply lookup_lt_Some in Hk. lia.
Qed.

Section Download.

Variable os_path_join : str -> str -> str.
Variable urlopen : Z -> str -> M (Z * str).
Variable open_wb : str -> M unit.
Variable get_file_size : str -> str.

Local Abbreviation download_single_video := (download_single_video urlopen open_wb).
Local Abbreviation download_each := (download_each os_path_join urlopen open_wb get_file_size).
Local Abbreviation download_videos :=
  (download_videos os_path_join urlopen open_wb get_file_size).
Local Abbreviation downloads := (succeeds os_path_join urlopen open_wb).

Local Abbreviation recorded := (recorded os_path_join get_file_size).
Local Abbreviation call := (call os_path_join).

(** [download_single_video] does not raise: it returns whether the item
    downloads, and logs the exception if there is one. *)
Lemma single_video (files : gmap str str) (download_folder : str) (item : Z * str) :
  let file_path := os_path_join download_folder (download_name (fst item)) in
  exists files' logged,
    download_single_video files (snd item) file_path (fst item)
    = (downloads download_folder item, files', logged)
    /\ forall e, urlopen (fst item) (snd item) = Raise e -> download_error item e ∈ logged.
Proof.
  cbn zeta. unfold DouyinYouTubeTool.download_single_video, succeeds, download_error.
  destruct (urlopen (fst item) (snd item)) as [[status content] | e]; cbn.
  - destruct (status =? 200); cbn.
    + destruct (open_wb _) as [[] | e]; cbn.
      * eexists _, _. split; [reflexivity | discriminate].
      * eexists _, _. split; [reflexivity | discriminate].
    + eexists _, _. split; [reflexivity | discriminate].
  - eexists _, _. split; [reflexivity |]. intros e' [= <-]. right. left.
Qed.

(** The loop calls [download_single_video] for every item in order,
    counts every outcome, and records the files of the items that
    downloaded. *)
Lemma download_each_spec (download_folder : str) (urls : list str) :
  forall (i : Z) (d : DouyinYouTubeTool.downloads),
    let d' := download_each download_folder urls i d in
    let items := indexed i urls in
    attempted d' = attempted d ++ map (call download_folder) items
    /\ successful d' = successful d + len (List.filter (downloads download_folder) items)
    /\ failed d'
       = failed d + len (List.filter (fun x => negb (downloads download_folder x)) items)
    /\ video_files d'
       = video_files d
         ++ map (recorded download_folder) (List.filter (downloads download_folder) items)
    /\ exists logged, happened d' = happened d ++ logged
         /\ forall item e, item ∈ items -> urlopen (fst item) (snd item) = Raise e ->
              download_error item e ∈ logged.
Proof.
  cbn zeta. induction urls as [| url urls IH]; intros i d.
  - cbn. rewrite !app_nil_r. unfold len. cbn. split_and!; try done; try lia.
    exists []. rewrite app_nil_r. split; [done |]. intros item e Hin. inversion Hin.
  - cbn [DouyinYouTubeTool.download_each indexed].
    destruct (single_video (disk d) download_folder (i, url)) as (files' & logged & Hrun & Hlog).
    cbn [fst snd] in Hrun, Hlog. unfold download_name in Hrun. rewrite Hrun.
    match goal with |- context [DouyinYouTubeTool.download_each _ _ _ _ _ _ _ ?d1] =>
      specialize (IH (i + 1) d1); destruct IH as (Ha & Hs & Hf & Hv & logged' & Hh & Hl)
    end.
    rewrite Ha, Hs, Hf, Hv, Hh. cbn [map List.filter].
    destruct (downloads download_folder (i, url)) eqn:Hok; cbn [negb attempted successful
      failed video_files happened disk map].
    + split_and!.
      * by rewrite <- app_assoc.
      * unfold len. cbn [length]. lia.
      * done.
      * by rewrite <- app_assoc.
      * exists ((logged ++ [Sleep 1]) ++ logged'). split; [by rewrite !app_assoc |].
        intros item e Hin He. apply elem_of_cons in Hin as [-> | Hin].
        -- apply elem_of_app. left. apply elem_of_app. left. by apply Hlog.
        -- apply elem_of_app. right. by apply (Hl item e).
    + split_and!.
      * by rewrite <- app_assoc.
      * done.
      * unfold len. cbn [length]. lia.
      * done.
      * exists ((logged ++ [Sleep 1]) ++ logged'). split; [by rewrite !app_assoc |].
        intros item e Hin He. apply elem_of_cons in Hin as [-> | Hin].
        -- apply elem_of_app. left. apply elem_of_app. left. by apply Hlog.
        -- apply elem_of_app. right. by apply (Hl item e).
Qed.

(** C6.  In a batch of N references of which the request of item [k]
    raises while every other item downloads, [download_videos] calls
    [download_single_video] for all N items in discovery order, logs the
    exception of item [k], counts one failure and N - 1 successes, records
    the files of the other items in order, and reports the totals once
    the queue is drained. *)
Theorem download_failures_isolated (video_urls : list str) (download_folder : str)
    (files : gmap str str) (known : list video_file) (k : nat) (url : str) (e : exn) :
  download_folder <> [] ->
  video_urls !! k = Some url ->
  urlopen (Z.of_nat k) url = Raise e ->
  (forall j u, video_urls !! j = Some u -> j <> k ->
     downloads download_folder (Z.of_nat j, u) = true) ->
  let d := download_videos video_urls download_folder files known in
  let items := indexed 0 video_urls in
  attempted d = map (call download_folder) items
  /\ failed d = 1
  /\ successful d = len video_urls - 1
  /\ successful d + failed d = len video_urls
  /\ video_files d
     = known ++ map (recorded download_folder) (take k items ++ drop (S k) items)
  /\ download_error (Z.of_nat k, url) e ∈ happened d
  /\ exists before,
       happened d
       = before ++ [Log (py "Download complete!" ++ [ascii_of_nat 10] ++ py "Success: "
                         ++ str_of_Z (len video_urls - 1) ++ [ascii_of_nat 10]
                         ++ py "Failed: " ++ py "1");
                    ShowInfo (py "Download complete!" ++ [ascii_of_nat 10] ++ py "Success: "
                              ++ str_of_Z (len video_urls - 1) ++ [ascii_of_nat 10]
                              ++ py "Failed: " ++ py "1")].
Proof.
  intros Hfolder Hk Hraise Hothers. cbn zeta.
  unfold DouyinYouTubeTool.download_videos.
  destruct (bool_decide_reflect (video_urls = [])) as [-> | _]; [done |].
  destruct (bool_decide_reflect (download_folder = [])) as [? | _]; [done |].
  match goal with |- context [DouyinYouTubeTool.download_each _ _ _ _ _ _ _ ?d0] =>
    destruct (download_each_spec download_folder video_urls 0 d0)
      as (Ha & Hs & Hf & Hv & logged & Hh & Hl)
  end.
  assert (Hitem : indexed 0 video_urls !! k = Some (Z.of_nat k, url)).
  { rewrite indexed_lookup, Hk. cbn. do 2 f_equal. }
  assert (Hfails : downloads download_folder (Z.of_nat k, url) = false).
  { unfold succeeds. cbn [fst snd]. by rewrite Hraise. }
  destruct (one_failure (downloads download_folder) (indexed 0 video_urls) k _ Hitem Hfails)
    as (Hone & Hrest & Hkeep).
  { intros j [i u] Hj Hne. rewrite indexed_lookup in Hj.
    destruct (video_urls !! j) as [u' |] eqn:Hu; [| done].
    cbn in Hj. injection Hj as <- <-. by apply (Hothers j u'). }
  cbn [attempted successful failed video_files happened] in *.
  assert (Hfailed : failed (download_each download_folder video_urls 0
                      {| successful := 0; failed := 0; video_files := known; disk := files;
                         attempted := []; happened := [] |}) = 1).
  { rewrite Hf. unfold len. rewrite Hone. lia. }
  assert (Hsucc : successful (download_each download_folder video_urls 0
                      {| successful := 0; failed := 0; video_files := known; disk := files;
                         attempted := []; happened := [] |}) = len video_urls - 1).
  { rewrite Hs. unfold len. rewrite Hrest, indexed_length.
    apply lookup_lt_Some in Hk. lia. }
  split_and!.
  - by rewrite Ha.
  - done.
  - done.
  - rewrite Hfailed, Hsucc. lia.
  - by rewrite Hv, Hkeep.
  - rewrite Hh. apply elem_of_app. left. cbn [app].
    apply (Hl (Z.of_nat k, url) e); [| done].
    apply list_elem_of_lookup. by exists k.
  - eexists. f_equal. unfold download_report. rewrite Hfailed, Hsucc. reflexivity.
Qed.

End Download.

(** Three items of which the second times out. *)
Lemma download_failures_isolated_witness :
  let d := download_videos Posix.join Posix.flaky Posix.writable Posix.sizes
             Posix.three_urls (py "/dl") ∅ [] in
  failed d = 1 /\ successful d = 2
  /\ attempted d = [(0, py "https://a.com/1", py "/dl/video_001.mp4");
                    (1, py "https://a.com/2", py "/dl/video_002.mp4");
                    (2, py "https://a.com/3", py "/dl/video_003.mp4")]
  /\ map vf_filename (video_files d) = [py "video_001.mp4"; py "video_003.mp4"].
Proof.
  cbn zeta.
  destruct (download_failures_isolated Posix.join Posix.flaky Posix.writable Posix.sizes
              Posix.three_urls (py "/dl") ∅ [] 1 (py "https://a.com/2")
              (Exception_ (py "timed out")))
    as (Ha & Hf & Hs & _ & Hv & _).
  - discriminate.
  - reflexivity.
  - reflexivity.
  - intros [| [| [| j]]] u Hu Hne; try done; injection Hu as <-; reflexivity.
  - split_and!; [exact Hf | exact Hs | rewrite Ha; reflexivity | rewrite Hv; reflexivity].
Defined.

End DownloadFacts.

(** ** Resolving the files to upload *)

Module PathFacts.
Import DouyinYouTubeTool.

Section Paths.

Variable os_path_join : str -> str -> str.
Variable os_path_exists : str -> bool.
Variable os_path_isabs : str -> bool.
Variable expanduser : str -> str.

Local Abbreviation get_full_video_path :=
  (get_full_video_path os_path_join os_path_exists os_path_isabs).
Local Abbreviation selected_path := (selected_path os_path_join os_path_exists os_path_isabs).
Local Abbreviation shorts_path := (shorts_path os_path_join os_path_exists expanduser).
Local Abbreviation upload_selected_files :=
  (upload_selected_files os_path_join os_path_exists os_path_isabs).
Local Abbreviation shorts_selected_files :=
  (shorts_selected_files os_path_join os_path_exists expanduser).
Local Abbreviation places := (upload_candidates os_path_join os_path_isabs).
Local Abbreviation shorts_places :=
  (shorts_candidates os_path_join os_path_exists expanduser).

(** The empty path does not exist. *)
Hypothesis no_empty_path : os_path_exists [] = false.

Lemma found_existing (p : str) : os_path_exists p = true -> found (Some p) = true.
Proof. destruct p; [by rewrite no_empty_path | done]. Qed.

Lemma get_full_video_path_first (current : option str) (download_folder file_name : str) :
  get_full_video_path current download_folder file_name
  = List.find os_path_exists (places current download_folder file_name).
Proof.
  unfold DouyinYouTubeTool.get_full_video_path, upload_candidates.
  destruct (chosen current) as [folder |]; cbn.
  - destruct (os_path_exists (os_path_join folder file_name)); [done |].
    destruct (os_path_exists (os_path_join download_folder file_name)); [done |].
    destruct (os_path_isabs file_name); cbn; [| done].
    by destruct (os_path_exists file_name).
  - destruct (os_path_exists (os_path_join download_folder file_name)); [done |].
    destruct (os_path_isabs file_name); cbn; [| done].
    by destruct (os_path_exists file_name).
Qed.

Lemma selected_path_first (current : option str) (download_folder file_name : str) :
  selected_path current download_folder file_name
  = List.find os_path_exists (places current download_folder file_name).
Proof.
  unfold DouyinYouTubeTool.selected_path, upload_candidates.
  destruct (chosen current) as [folder |]; cbn [app List.find].
  - destruct (os_path_exists (os_path_join folder file_name)) eqn:H1.
    + by do 2 (rewrite ?(found_existing _ H1); cbn [negb andb]).
    + cbn [found negb andb].
      destruct (os_path_exists (os_path_join download_folder file_name)) eqn:H2.
      * by do 2 (rewrite ?(found_existing _ H2); cbn [negb andb]).
      * cbn [found negb andb]. destruct (os_path_isabs file_name); cbn; [| done].
        by destruct (os_path_exists file_name).
  - cbn [found negb andb].
    destruct (os_path_exists (os_path_join download_folder file_name)) eqn:H2.
    + by do 2 (rewrite ?(found_existing _ H2); cbn [negb andb]).
    + cbn [found negb andb]. destruct (os_path_isabs file_name); cbn; [| done].
      by destruct (os_path_exists file_name).
Qed.

Lemma first_in_find (folders : list str) (file_name : str) :
  first_in os_path_join os_path_exists folders file_name
  = List.find os_path_exists (map (fun folder => os_path_join folder file_name) folders).
Proof.
  induction folders as [| folder folders IH]; cbn; [done |].
  by destruct (os_path_exists (os_path_join folder file_name)).
Qed.

Lemma shorts_path_first (current : option str) (download_folder file_name : str) :
  shorts_path current download_folder file_name
  = List.find os_path_exists (shorts_places current download_folder file_name).
Proof.
  unfold DouyinYouTubeTool.shorts_path, shorts_candidates.
  assert (Hrest : forall file_path : option str,
            found file_path = false -> file_path = None ->
            (let file_path :=
               if negb (found file_path)
               then
                 let test_path := os_path_join download_folder file_name in
                 if os_path_exists test_path then Some test_path else file_path
               else file_path in
             if negb (found file_path)
             then
               match first_in os_path_join os_path_exists (common_locations expanduser)
                       file_name with
               | Some p => Some p
               | None => file_path
               end
             else file_path)
            = List.find os_path_exists
                ([os_path_join download_folder file_name]
                 ++ map (fun folder => os_path_join folder file_name)
                      (common_locations expanduser))).
  { intros file_path Hf ->. cbn [found negb app List.find].
    destruct (os_path_exists (os_path_join download_folder file_name)) eqn:H2.
    - by do 2 (rewrite ?(found_existing _ H2); cbn [negb andb]).
    - cbn [found negb]. rewrite first_in_find. by destruct (List.find _ _). }
  destruct (chosen current) as [folder |]; cbn [app].
  - destruct (os_path_exists folder); cbn [app]; [| by apply Hrest].
    cbn [List.find].
    destruct (os_path_exists (os_path_join folder file_name)) eqn:H1; [| by apply Hrest].
    by do 2 (rewrite ?(found_existing _ H1); cbn [negb andb]).
  - by apply Hrest.
Qed.

(** Every selected row is resolved or logged. *)
Lemma upload_rows (current : option str) (download_folder : str) (rows : list (str * str)) :
  forall (item : Z) (file_name : str),
    (py "✓", file_name) ∈ rows ->
    let '(files, logged) := upload_selected_files current download_folder rows item in
    (exists i p, (i, p, file_name) ∈ files
       /\ List.find os_path_exists (places current download_folder file_name)
          = Some p)
    \/ (List.find os_path_exists (places current download_folder file_name) = None
        /\ Log (py "⚠️ File not found: " ++ file_name) ∈ logged).
Proof.
  induction rows as [| [mark name] rows IH]; intros item file_name Hin; [inversion Hin |].
  cbn [DouyinYouTubeTool.upload_selected_files].
  specialize (IH (item + 1) file_name).
  destruct (upload_selected_files current download_folder rows (item + 1)) as [files logged].
  apply elem_of_cons in Hin as [[= <- <-] | Hin].
  - rewrite bool_decide_eq_true_2 by done. rewrite selected_path_first.
    destruct (List.find os_path_exists _) as [[| c p] |] eqn:Hfind.
    + apply find_some in Hfind as [_ Hex]. by rewrite no_empty_path in Hex.
    + left. exists item, (c :: p). split; [left | done].
    + right. split; [done | left].
  - specialize (IH Hin).
    assert (Hkeep : forall x (l : list event),
              (exists i p, (i, p, file_name) ∈ files /\ x = Some p)
              \/ (x = None /\ Log (py "⚠️ File not found: " ++ file_name) ∈ logged) ->
              forall extra,
              (exists i p, (i, p, file_name) ∈ extra ++ files /\ x = Some p)
              \/ (x = None /\ Log (py "⚠️ File not found: " ++ file_name) ∈ l ++ logged)).
    { intros x l [(i & p & Hi & Hx) | [Hx Hl]] extra.
      - left. exists i, p. split; [apply elem_of_app; by right | done].
      - right. split; [done | apply elem_of_app; by right]. }
    destruct (bool_decide (mark = py "✓")); [| exact IH].
    destruct (selected_path current download_folder name) as [[| c p] |].
    + exact (Hkeep _ [_] IH []).
    + exact (Hkeep _ [] IH [_]).
    + exact (Hkeep _ [_] IH []).
Qed.

Lemma shorts_rows (current : option str) (download_folder : str) (rows : list (str * str)) :
  forall file_name : str,
    (py "✓", file_name) ∈ rows ->
    let '(files, logged) := shorts_selected_files current download_folder rows in
    (exists p, p ∈ files
       /\ List.find os_path_exists (shorts_places current download_folder file_name)
          = Some p)
    \/ (List.find os_path_exists (shorts_places current download_folder file_name) = None
        /\ Log (py "❌ File not found for Shorts: " ++ file_name) ∈ logged).
Proof.
  induction rows as [| [mark name] rows IH]; intros file_name Hin; [inversion Hin |].
  cbn [DouyinYouTubeTool.shorts_selected_files].
  specialize (IH file_name).
  destruct (shorts_selected_files current download_folder rows) as [files logged].
  apply elem_of_cons in Hin as [[= <- <-] | Hin].
  - rewrite bool_decide_eq_true_2 by done. rewrite shorts_path_first.
    destruct (List.find os_path_exists _) as [[| c p] |] eqn:Hfind.
    + apply find_some in Hfind as [_ Hex]. by rewrite no_empty_path in Hex.
    + left. exists (c :: p). split; [left | done].
    + right. split; [done | left].
  - specialize (IH Hin).
    assert (Hkeep : forall x (l : list event),
              (exists p, p ∈ files /\ x = Some p)
              \/ (x = None
                  /\ Log (py "❌ File not found for Shorts: " ++ file_name) ∈ logged) ->
              forall extra,
              (exists p, p ∈ extra ++ files /\ x = Some p)
              \/ (x = None
                  /\ Log (py "❌ File not found for Shorts: " ++ file_name) ∈ l ++ logged)).
    { intros x l [(p & Hi & Hx) | [Hx Hl]] extra.
      - left. exists p. split; [apply elem_of_app; by right | done].
      - right. split; [done | apply elem_of_app; by right]. }
    destruct (bool_decide (mark = py "✓")); [| exact IH].
    destruct (shorts_path current download_folder name) as [[| c p] |].
    + exact (Hkeep _ [_] IH []).
    + exact (Hkeep _ [_] IH [_]).
    + exact (Hkeep _ [_] IH []).
Qed.

(** C9, as the code has it.  [get_full_video_path] and
    [upload_selected_videos] return the first existing path among: the
    file in the chosen folder, when one is chosen; the file in the
    download folder; the file name itself, when it is absolute.
    [upload_as_shorts_thread] returns the first existing path among: the
    file in the chosen folder, when one is chosen and exists; the file in
    the download folder; the file in [~/Downloads], in [~/Videos] and in
    the working directory.  In both upload loops a selected file that is
    not resolved is skipped with a log line. *)
Theorem upload_path_resolution (current : option str) (download_folder : str) :
  (forall file_name,
     get_full_video_path current download_folder file_name
     = List.find os_path_exists (places current download_folder file_name))
  /\ (forall rows item file_name,
        (py "✓", file_name) ∈ rows ->
        let '(files, logged) := upload_selected_files current download_folder rows item in
        (exists i p, (i, p, file_name) ∈ files
           /\ List.find os_path_exists (places current download_folder file_name) = Some p)
        \/ (List.find os_path_exists (places current download_folder file_name) = None
            /\ Log (py "⚠️ File not found: " ++ file_name) ∈ logged))
  /\ (forall rows file_name,
        (py "✓", file_name) ∈ rows ->
        let '(files, logged) := shorts_selected_files current download_folder rows in
        (exists p, p ∈ files
           /\ List.find os_path_exists (shorts_places current download_folder file_name)
              = Some p)
        \/ (List.find os_path_exists (shorts_places current download_folder file_name) = None
            /\ Log (py "❌ File not found for Shorts: " ++ file_name) ∈ logged)).
Proof.
  split_and!.
  - intros file_name. apply get_full_video_path_first.
  - intros rows item file_name Hin. by apply upload_rows.
  - intros rows file_name Hin. by apply shorts_rows.
Qed.

End Paths.

(** A clip that is in the download folder is found there by all three. *)
Lemma upload_path_resolution_witness :
  let in_dl p := bool_decide (p = py "/dl/clip.mp4") in
  get_full_video_path Posix.join in_dl Posix.isabs (Some (py "/videos")) (py "/dl")
    (py "clip.mp4") = Some (py "/dl/clip.mp4")
  /\ fst (upload_selected_files Posix.join in_dl Posix.isabs (Some (py "/videos")) (py "/dl")
            [(py "✓", py "clip.mp4")] 0) = [(0, py "/dl/clip.mp4", py "clip.mp4")]
  /\ fst (shorts_selected_files Posix.join in_dl Posix.expanduser (Some (py "/videos"))
            (py "/dl") [(py "✓", py "clip.mp4")]) = [py "/dl/clip.mp4"].
Proof.
  intros in_dl.
  destruct (upload_path_resolution Posix.join in_dl Posix.isabs Posix.expanduser eq_refl
              (Some (py "/videos")) (py "/dl")) as (Hfull & _ & _).
  split_and!.
  - rewrite Hfull. vm_compute. reflexivity.
  - vm_compute. reflexivity.
  - vm_compute. reflexivity.
Defined.

(** The claim as written fails: a clip that is only in [~/Downloads] is
    not found by [get_full_video_path] nor by [upload_selected_videos],
    which do not look into the well-known folders; the Shorts upload
    finds it. *)
Lemma well_known_folders_counterexample :
  Posix.only_in_downloads
    (Posix.join (Posix.expanduser (py "~/Downloads")) (py "clip.mp4")) = true
  /\ get_full_video_path Posix.join Posix.only_in_downloads Posix.isabs
       (Some (py "/videos")) (py "/dl") (py "clip.mp4") = None
  /\ upload_selected_files Posix.join Posix.only_in_downloads Posix.isabs
       (Some (py "/videos")) (py "/dl") [(py "✓", py "clip.mp4")] 0
     = ([], [Log (py "⚠️ File not found: clip.mp4")])
  /\ shorts_selected_files Posix.join Posix.only_in_downloads Posix.expanduser
       (Some (py "/videos")) (py "/dl") [(py "✓", py "clip.mp4")]
     = ([py "/home/u/Downloads/clip.mp4"],
        [Log (py "✅ Found for Shorts: /home/u/Downloads/clip.mp4")]).
Proof. split_and!; vm_compute; reflexivity. Qed.

End PathFacts.

(** ** cURL parsing *)

Module CurlFacts.
Import DouyinYouTubeTool.

(** *** The matcher on the shapes that occur *)

(** A class taken once. *)
Lemma match_one (p : ascii -> bool) (re : list atom) (s : str) :
  match_here (one p :: re) s =
    match s with
    | c :: t => if p c then match_here re t else None
    | [] => None
    end.
Proof.
  destruct s as [| c t]; [reflexivity |].
  cbn. destruct (p c); [| reflexivity]. cbn. rewrite drop_0.
  by destruct (match_here re t) as [[groups rest] |].
Qed.

Lemma run_all (p : ascii -> bool) (w : str) (c : ascii) (t : str) :
  Forall (fun x => p x = true) w -> p c = false -> run p (w ++ c :: t) = length w.
Proof.
  intros Hw Hc. induction Hw as [| x w Hx Hw IH]; cbn.
  - by rewrite Hc.
  - by rewrite Hx, IH.
Qed.

Lemma longest_first_top {R} (f : nat -> option R) (lo n : nat) (r : R) :
  f (lo + n)%nat = Some r -> longest_first f lo n = Some r.
Proof. intros H. destruct n; cbn [longest_first]; by rewrite H. Qed.

(** A group that takes a whole non-empty run, when the rest of the
    pattern matches after it: nothing is given back. *)
Lemma match_group (p : ascii -> bool) (re : list atom) (w : str) (c : ascii) (t : str)
    (groups : list str) (rest : str) :
  w <> [] -> Forall (fun x => p x = true) w -> p c = false ->
  match_here re (c :: t) = Some (groups, rest) ->
  match_here (group_many1 p :: re) (w ++ c :: t) = Some (w :: groups, rest).
Proof.
  intros Hne Hw Hc Hre. cbn [match_here group_many1 accepts unbounded at_least captured].
  rewrite (run_all p w c t Hw Hc).
  assert (Hlen : (1 <= length w)%nat) by (destruct w; [done | cbn; lia]).
  destruct (Nat.ltb_spec (length w) 1); [lia |].
  apply longest_first_top.
  replace (1 + (length w - 1))%nat with (length w) by lia.
  by rewrite drop_app_length, take_app_length, Hre.
Qed.

(** White space before something that is not white space. *)
Lemma match_spaces (re : list atom) (w : str) (c : ascii) (t : str)
    (groups : list str) (rest : str) :
  Forall (fun x => space x = true) w -> space c = false ->
  match_here re (c :: t) = Some (groups, rest) ->
  match_here (many space :: re) (w ++ c :: t) = Some (groups, rest).
Proof.
  intros Hw Hc Hre. cbn [match_here many accepts unbounded at_least captured].
  rewrite (run_all space w c t Hw Hc).
  destruct (Nat.ltb_spec (length w) 0); [lia |].
  apply longest_first_top.
  replace (0 + (length w - 0))%nat with (length w) by lia.
  by rewrite drop_app_length, Hre.
Qed.

(** [search] passes over a character at which there is no match. *)
Lemma search_skip (re : list atom) (c : ascii) (t : str) :
  match_here re (c :: t) = None -> search re (c :: t) = search re t.
Proof. intros H. cbn [search]. by rewrite H. Qed.

Lemma search_here (re : list atom) (s : str) (r : list str * str) :
  match_here re s = Some r -> search re s = Some r.
Proof. intros H. destruct s; cbn [search]; by rewrite H. Qed.

(** *** The three patterns on a well-formed command *)

Lemma quote_not_space (q : ascii) : quote q = true -> space q = false.
Proof.
  unfold quote. intros H. apply orb_true_iff in H as [H | H];
    apply bool_decide_eq_true in H; by subst q.
Qed.

Lemma non_true (p : ascii -> bool) (w : str) :
  Forall (fun c => p c = false) w -> Forall (fun c => non p c = true) w.
Proof. intros H. eapply Forall_impl; [exact H |]. intros c Hc. unfold non. by rewrite Hc. Qed.

(** A quoted string: the opening quote, the string, the closing quote. *)
Lemma quoted_match (q : ascii) (w rest : str) :
  quote q = true -> w <> [] -> Forall (fun c => quote c = false) w ->
  match_here [one quote; group_many1 (non quote); one quote] (q :: w ++ q :: rest)
  = Some ([w], rest).
Proof.
  intros Hq Hne Hw. rewrite match_one, Hq.
  apply match_group; [done | by apply non_true | unfold non; by rewrite Hq |].
  by rewrite match_one, Hq.
Qed.

Lemma url_match (q : ascii) (url rest : str) :
  quote q = true -> url <> [] -> Forall (fun c => quote c = false) url ->
  search quoted_url_re (py "curl " ++ q :: url ++ q :: rest) = Some ([url], rest).
Proof.
  intros Hq Hne Hw. apply search_here.
  unfold quoted_url_re, literal, py. cbn [list_ascii_of_string map app].
  do 5 rewrite match_one. rewrite !bool_decide_eq_true_2 by reflexivity.
  by apply quoted_match.
Qed.

Lemma cookie_match (q : ascii) (cookie rest : str) :
  quote q = true -> cookie <> [] -> Forall (fun c => quote c = false) cookie ->
  search cookie_re (py " -b " ++ q :: cookie ++ q :: rest) = Some ([cookie], rest).
Proof.
  intros Hq Hne Hw. unfold py. cbn [list_ascii_of_string app].
  rewrite search_skip by reflexivity. apply search_here.
  unfold cookie_re, literal. cbn [list_ascii_of_string map app].
  do 3 rewrite match_one. rewrite !bool_decide_eq_true_2 by reflexivity.
  by apply quoted_match.
Qed.

Lemma header_match (q : ascii) (name value rest : str) :
  quote q = true -> header_name name -> trimmed value ->
  search header_re (py " -H " ++ q :: name ++ py ": " ++ value ++ q :: rest)
  = Some ([name; value], rest).
Proof.
  intros Hq (Hn & _ & Hcolon) ((Hv & Hvq & _) & Hhead).
  unfold py. cbn [list_ascii_of_string app].
  rewrite search_skip by reflexivity. apply search_here.
  unfold header_re, literal. cbn [list_ascii_of_string map app].
  do 4 rewrite match_one. rewrite !bool_decide_eq_true_2 by reflexivity. rewrite Hq.
  apply match_group; [done | by apply non_true | reflexivity |].
  rewrite match_one. change (colon ":"%char) with true. cbv iota.
  destruct value as [| v value]; [done |].
  apply (match_spaces _ [" "%char]); [by repeat constructor | by apply Hhead |].
  apply (match_group (non quote) [one quote] (v :: value) q rest [] rest);
    [done | by apply non_true | unfold non; by rewrite Hq |].
  by rewrite match_one, Hq.
Qed.

(** No flag starts inside a string without quotes that does not end in
    white space, nor at the quote that closes it: [search] passes over
    both. *)
Lemma search_past (a b : ascii) (re : list atom) (w : str) (q : ascii) (rest : str) :
  quote a = false -> quote b = false -> quote q = true ->
  Forall (fun c => quote c = false) w ->
  (forall c, last w = Some c -> space c = false) ->
  let pattern :=
    one (fun x => bool_decide (x = a)) :: one (fun x => bool_decide (x = b))
    :: one (fun x => bool_decide (x = " "%char)) :: one quote :: re in
  search pattern (w ++ q :: rest) = search pattern rest.
Proof.
  intros Ha Hb Hq Hw Hlast. cbn zeta.
  assert (Hqa : bool_decide (q = a) = false).
  { apply bool_decide_eq_false. intros ->. by rewrite Ha in Hq. }
  assert (Hqb : bool_decide (q = b) = false).
  { apply bool_decide_eq_false. intros ->. by rewrite Hb in Hq. }
  assert (Hqs : bool_decide (q = " "%char) = false).
  { apply bool_decide_eq_false. intros ->. by apply quote_not_space in Hq. }
  induction Hw as [| c w Hc Hw IH]; cbn [app].
  - apply search_skip. by rewrite match_one, Hqa.
  - rewrite search_skip.
    + apply IH. intros x Hx. apply Hlast. rewrite last_cons. by rewrite Hx.
    + rewrite match_one. destruct (bool_decide (c = a)); [| done].
      destruct w as [| c2 w]; cbn [app]; rewrite match_one; [by rewrite Hqb |].
      destruct (bool_decide (c2 = b)); [| done].
      destruct w as [| c3 w]; cbn [app]; rewrite match_one; [by rewrite Hqs |].
      destruct (bool_decide_reflect (c3 = " "%char)) as [-> | _]; [| done].
      destruct w as [| c4 w]; cbn [app]; rewrite match_one.
      * by specialize (Hlast " "%char eq_refl).
      * inversion Hw as [| ? ? _ Hw']. inversion Hw' as [| ? ? _ Hw''].
        inversion Hw'' as [| ? ? Hc4 _]. by rewrite Hc4.
Qed.

Lemma search_quote (a b : ascii) (re : list atom) (q : ascii) (rest : str) :
  quote a = false -> quote b = false -> quote q = true ->
  let pattern :=
    one (fun x => bool_decide (x = a)) :: one (fun x => bool_decide (x = b))
    :: one (fun x => bool_decide (x = " "%char)) :: one quote :: re in
  search pattern (q :: rest) = search pattern rest.
Proof. intros Ha Hb Hq. by apply (search_past a b re [] q rest). Qed.

Lemma header_re_shape :
  header_re
  = one (fun x => bool_decide (x = "-"%char)) :: one (fun x => bool_decide (x = "H"%char))
    :: one (fun x => bool_decide (x = " "%char)) :: one quote
    :: [group_many1 (non colon); one colon; many space; group_many1 (non quote); one quote].
Proof. reflexivity. Qed.

Lemma cookie_re_shape :
  cookie_re
  = one (fun x => bool_decide (x = "-"%char)) :: one (fun x => bool_decide (x = "b"%char))
    :: one (fun x => bool_decide (x = " "%char)) :: one quote
    :: [group_many1 (non quote); one quote].
Proof. reflexivity. Qed.

(** Neither flag pattern matches inside [curl 'url']. *)
Lemma headers_after_url (q : ascii) (url rest : str) :
  quote q = true -> unquoted url ->
  search header_re (py "curl " ++ q :: url ++ q :: rest) = search header_re rest.
Proof.
  intros Hq (_ & Hw & Hlast). unfold py. cbn [list_ascii_of_string app].
  do 5 (rewrite search_skip by reflexivity).
  rewrite header_re_shape.
  rewrite search_quote by done.
  by rewrite (search_past "-" "H" _ url q rest).
Qed.

Lemma cookie_after_url (q : ascii) (url rest : str) :
  quote q = true -> unquoted url ->
  search cookie_re (py "curl " ++ q :: url ++ q :: rest) = search cookie_re rest.
Proof.
  intros Hq (_ & Hw & Hlast). unfold py. cbn [list_ascii_of_string app].
  do 5 (rewrite search_skip by reflexivity).
  rewrite cookie_re_shape.
  rewrite search_quote by done.
  by rewrite (search_past "-" "b" _ url q rest).
Qed.

(** The cookie pattern does not match inside a header flag, nor the
    header pattern inside the cookie flag. *)
Lemma cookie_after_header (q : ascii) (h : str * str) (rest : str) :
  quote q = true -> header_name (fst h) -> trimmed (snd h) ->
  search cookie_re (header_flag q h ++ rest) = search cookie_re rest.
Proof.
  intros Hq (_ & Hnq & _) ((Hv & Hvq & Hlast) & _).
  assert (Htext : header_flag q h ++ rest
            = " "%char :: "-"%char :: "H"%char :: " "%char :: q
              :: (fst h ++ ":"%char :: " "%char :: snd h) ++ q :: rest).
  { unfold header_flag, py.
    repeat first [rewrite <- app_assoc | progress cbn [app list_ascii_of_string]].
    reflexivity. }
  rewrite Htext.
  do 4 (rewrite search_skip by reflexivity).
  rewrite cookie_re_shape.
  rewrite search_quote by done.
  apply (search_past "-" "b"); try done.
  - apply Forall_app. split; [done |]. by repeat constructor.
  - intros c. rewrite last_app. cbn [last]. rewrite !last_cons.
    destruct (last (snd h)) as [x |] eqn:Hx.
    + intros [= <-]. by apply Hlast.
    + destruct (snd h); [done | by rewrite last_cons in Hx; destruct (last l)].
Qed.

Lemma no_header_in_cookie (q : ascii) (cookie : option str) :
  quote q = true -> (forall c, cookie = Some c -> unquoted c) ->
  search header_re (cookie_flag q cookie) = None.
Proof.
  intros Hq Hc. destruct cookie as [c |]; [| reflexivity].
  destruct (Hc c eq_refl) as (_ & Hw & Hlast).
  unfold cookie_flag, py. cbn [list_ascii_of_string app].
  do 4 (rewrite search_skip by reflexivity).
  rewrite header_re_shape.
  rewrite search_quote by done.
  by rewrite (search_past "-" "H" _ c q []).
Qed.

(** [findall] finds exactly the header flags, in order. *)
Lemma headers_found (q : ascii) (cookie : option str) (hs : list (str * str)) :
  quote q = true -> (forall c, cookie = Some c -> unquoted c) ->
  Forall (fun h => header_name (fst h) /\ trimmed (snd h)) hs ->
  forall fuel, (length hs < fuel)%nat ->
    findall_from fuel header_re (concat (map (header_flag q) hs) ++ cookie_flag q cookie)
    = map (fun h => [fst h; snd h]) hs.
Proof.
  intros Hq Hc Hhs. induction Hhs as [| h hs [Hn Hv] Hhs IH]; intros fuel Hfuel.
  - destruct fuel as [| fuel]; [cbn in Hfuel; lia |].
    cbn [map concat app findall_from]. by rewrite no_header_in_cookie.
  - destruct fuel as [| fuel]; [cbn in Hfuel; lia |].
    cbn [map concat findall_from].
    assert (Htext : (header_flag q h ++ concat (map (header_flag q) hs))
                    ++ cookie_flag q cookie
              = py " -H " ++ q :: fst h ++ py ": " ++ snd h
                ++ q :: concat (map (header_flag q) hs) ++ cookie_flag q cookie).
    { unfold header_flag, py.
      repeat first [rewrite <- app_assoc | progress cbn [app list_ascii_of_string]].
      reflexivity. }
    rewrite Htext.
    rewrite (header_match q (fst h) (snd h)); [| done..].
    f_equal. apply IH. cbn in Hfuel. lia.
Qed.

Lemma set_headers_fold (hs : list (str * str)) :
  forall m, set_headers (map (fun h => [fst h; snd h]) hs) m
            = foldl (fun m h => <[fst h := snd h]> m) m hs.
Proof. induction hs as [| h hs IH]; intros m; cbn; [done | apply IH]. Qed.

Lemma concat_flags_length (q : ascii) (hs : list (str * str)) :
  (length hs <= length (concat (map (header_flag q) hs)))%nat.
Proof.
  induction hs as [| h hs IH]; cbn [map concat length]; [lia |].
  assert (1 <= length (header_flag q h))%nat.
  { unfold header_flag. rewrite length_app. change (length (py " -H ")) with 4%nat. lia. }
  rewrite length_app. lia.
Qed.

(** [strip] keeps a string that has no white space at either end. *)
Lemma strip_trimmed (c q : ascii) (body : str) :
  space c = false -> space q = false -> strip (c :: body ++ [q]) = c :: body ++ [q].
Proof.
  intros Hc Hq. unfold strip. cbn [lstrip]. rewrite Hc.
  rewrite reverse_cons, reverse_app, reverse_singleton. cbn [app lstrip]. rewrite Hq.
  rewrite reverse_cons, reverse_app, !reverse_involutive. cbn [app].
  by rewrite reverse_singleton.
Qed.

Lemma flags_end (q : ascii) (hs : list (str * str)) (cookie : option str) :
  last (concat (map (header_flag q) hs) ++ cookie_flag q cookie) = Some q
  \/ last (concat (map (header_flag q) hs) ++ cookie_flag q cookie) = None.
Proof.
  rewrite last_app.
  assert (Hcookie : last (cookie_flag q cookie) = Some q \/ last (cookie_flag q cookie) = None).
  { destruct cookie as [c |]; [left | by right].
    unfold cookie_flag. by rewrite !app_assoc, last_snoc. }
  destruct Hcookie as [-> | ->]; [by left |].
  induction hs as [| h hs IH]; cbn [map concat]; [by right |].
  rewrite last_app. destruct IH as [-> | ->]; [by left |].
  left. unfold header_flag. by rewrite !app_assoc, last_snoc.
Qed.

Lemma strip_command (q : ascii) (url : str) (hs : list (str * str)) (cookie : option str) :
  quote q = true ->
  strip (curl_command q url hs cookie) = curl_command q url hs cookie.
Proof.
  intros Hq.
  assert (Hlast : last (curl_command q url hs cookie) = Some q).
  { assert (Hshape : curl_command q url hs cookie
              = (py "curl " ++ [q] ++ url)
                ++ q :: (concat (map (header_flag q) hs) ++ cookie_flag q cookie)).
    { unfold curl_command. by rewrite <- !app_assoc. }
    rewrite Hshape, last_app, last_cons.
    by destruct (flags_end q hs cookie) as [-> | ->]. }
  apply last_Some in Hlast as [text Htext].
  assert (Hfirst : exists body, text = "c"%char :: body).
  { destruct text as [| c text].
    - unfold curl_command, py in Htext. cbn [list_ascii_of_string app] in Htext.
      discriminate.
    - unfold curl_command, py in Htext. cbn [list_ascii_of_string app] in Htext.
      injection Htext as <- _. by eexists. }
  destruct Hfirst as [body ->]. rewrite Htext.
  apply strip_trimmed; [reflexivity | by apply quote_not_space].
Qed.

(** *** The dictionary of headers *)

Lemma fold_headers_lookup (hs : list (str * str)) (name : str) :
  forall m : gmap str str,
    foldl (fun m h => <[fst h := snd h]> m) m hs !! name
    = match last_value name hs with
      | Some v => Some v
      | None => m !! name
      end.
Proof.
  induction hs as [| h hs IH]; intros m; cbn [foldl last_value]; [done |].
  rewrite IH. destruct (last_value name hs); [done |].
  rewrite lookup_insert. destruct (decide (fst h = name)) as [Heq | Hne].
  - by rewrite bool_decide_eq_true_2.
  - by rewrite bool_decide_eq_false_2.
Qed.

Lemma fold_headers_dom (hs : list (str * str)) :
  forall m : gmap str str,
    dom (foldl (fun m h => <[fst h := snd h]> m) m hs)
    = dom m ∪ list_to_set (map fst hs).
Proof.
  induction hs as [| h hs IH]; intros m; cbn [foldl map].
  - rewrite list_to_set_nil. set_solver.
  - rewrite IH, dom_insert_L, list_to_set_cons. set_solver.
Qed.

Lemma size_names (names : list str) :
  size (list_to_set (C := gset str) names) = length (remove_dups names).
Proof.
  rewrite <- (size_list_to_set (C := gset str) (remove_dups names))
    by apply NoDup_remove_dups.
  f_equal. apply set_eq. intros x. by rewrite !elem_of_list_to_set, elem_of_remove_dups.
Qed.

Lemma remove_dups_distinct (names : list str) : NoDup names -> remove_dups names = names.
Proof.
  induction 1 as [| x l Hx Hl IH]; cbn [remove_dups]; [done |].
  destruct (decide_rel elem_of x l); [done | by rewrite IH].
Qed.

Lemma headers_of_size (hs : list (str * str)) (cookie : option str) :
  size (headers_of hs cookie)
  = length (remove_dups (match cookie with Some _ => [py "Cookie"] | None => [] end
                         ++ map fst hs)).
Proof.
  rewrite <- size_names, <- size_dom. f_equal. unfold headers_of.
  destruct cookie as [c |]; cbn [app].
  - rewrite dom_insert_L, fold_headers_dom, list_to_set_cons, dom_empty_L. set_solver.
  - rewrite fold_headers_dom, dom_empty_L. set_solver.
Qed.

Lemma headers_of_empty (hs : list (str * str)) (cookie : option str) :
  headers_of hs cookie = ∅ -> hs = [] /\ cookie = None.
Proof.
  intros Hempty. destruct cookie as [c |].
  - exfalso. assert (Hc : headers_of hs (Some c) !! py "Cookie" = Some c).
    { unfold headers_of. apply lookup_insert_eq. }
    rewrite Hempty, lookup_empty in Hc. discriminate.
  - destruct hs as [| h hs]; [done |]. exfalso.
    assert (Hh : is_Some (headers_of (h :: hs) None !! fst h)).
    { unfold headers_of. rewrite fold_headers_lookup. cbn [last_value].
      destruct (last_value (fst h) hs); [by eexists |].
      rewrite bool_decide_eq_true_2 by done. by eexists. }
    rewrite Hempty, lookup_empty in Hh. by destruct Hh.
Qed.

(** C3, as the code has it.  For a command [curl 'URL'] followed by flags
    [-H 'name: value'] and possibly by [-b 'cookie'], in which the URL
    and the cookie have no quote and do not end in white space, the
    names have no colon and no quote, and the values have no quote and
    no white space at either end: parsing recovers the exact URL; the
    header pattern matches exactly the flags; the dictionary maps every
    name to the value of the last flag with that name, and [Cookie] to
    the cookie of [-b], which overwrites a [Cookie] header; its size is
    the number of distinct names among the flags and [Cookie], hence the
    number of flags when the names are distinct and there is no [-b]. *)
Theorem parse_curl_recovers (self : form) (q : ascii) (url : str)
    (hs : list (str * str)) (cookie : option str) :
  quote q = true ->
  unquoted url ->
  Forall (fun h => header_name (fst h) /\ trimmed (snd h)) hs ->
  (forall c, cookie = Some c -> unquoted c) ->
  let text := curl_command q url hs cookie in
  let parsed := fst (parse_curl self text) in
  url_var parsed = url
  /\ findall header_re text = map (fun h => [fst h; snd h]) hs
  /\ headers_text parsed
     = (if bool_decide (hs = [] /\ cookie = None) then headers_text self
        else headers_of hs cookie)
  /\ (forall name,
        headers_of hs cookie !! name
        = match cookie with
          | Some c => if bool_decide (name = py "Cookie") then Some c
                      else last_value name hs
          | None => last_value name hs
          end)
  /\ size (headers_of hs cookie)
     = length (remove_dups (match cookie with Some _ => [py "Cookie"] | None => [] end
                            ++ map fst hs))
  /\ (NoDup (map fst hs) -> cookie = None ->
      size (headers_of hs cookie) = length (findall header_re text)).
Proof.
  intros Hq Hurl Hhs Hcookie. cbn zeta.
  assert (Hfind : findall header_re (curl_command q url hs cookie)
                  = map (fun h => [fst h; snd h]) hs).
  { unfold findall. unfold curl_command at 2.
    cbn [findall_from]. cbn [app].
    change (match search header_re (py "curl " ++ q :: url ++ q ::
                     concat (map (header_flag q) hs) ++ cookie_flag q cookie) with
            | Some (groups, rest) =>
                groups :: findall_from (length (curl_command q url hs cookie)) header_re rest
            | None => []
            end = map (fun h => [fst h; snd h]) hs).
    rewrite headers_after_url by done.
    change (findall_from (S (length (curl_command q url hs cookie))) header_re
              (concat (map (header_flag q) hs) ++ cookie_flag q cookie)
            = map (fun h => [fst h; snd h]) hs).
    apply headers_found; try done.
    unfold curl_command. rewrite !length_app.
    pose proof (concat_flags_length q hs). lia. }
  assert (Hcookie_found :
            search cookie_re (curl_command q url hs cookie)
            = match cookie with Some c => Some ([c], []) | None => None end).
  { unfold curl_command. cbn [app].
    change (search cookie_re (py "curl " ++ q :: url ++ q ::
              concat (map (header_flag q) hs) ++ cookie_flag q cookie) = 
            match cookie with Some c => Some ([c], []) | None => None end).
    rewrite cookie_after_url by done.
    clear Hfind. induction Hhs as [| h hs [Hn Hv] Hhs IH].
    - cbn [map concat app]. destruct cookie as [c |]; [| reflexivity].
      destruct (Hcookie c eq_refl) as (Hne & Hw & _).
      unfold cookie_flag. cbn [app]. by apply cookie_match.
    - cbn [map concat]. rewrite <- app_assoc. by rewrite cookie_after_header. }
  assert (Hlookup : forall name,
            headers_of hs cookie !! name
            = match cookie with
              | Some c => if bool_decide (name = py "Cookie") then Some c
                          else last_value name hs
              | None => last_value name hs
              end).
  { intros name. unfold headers_of. destruct cookie as [c |].
    - rewrite lookup_insert. destruct (decide (py "Cookie" = name)) as [<- | Hne].
      + by rewrite bool_decide_eq_true_2.
      + rewrite bool_decide_eq_false_2 by done.
        rewrite fold_headers_lookup, lookup_empty. by destruct (last_value name hs).
    - rewrite fold_headers_lookup, lookup_empty. by destruct (last_value name hs). }
  assert (Hparsed : fst (parse_curl self (curl_command q url hs cookie))
            = {| url_var := url;
                 headers_text := if bool_decide (headers_of hs cookie = ∅)
                                 then headers_text self else headers_of hs cookie |}).
  { assert (Hurl_found : search quoted_url_re (curl_command q url hs cookie)
              = Some ([url], concat (map (header_flag q) hs) ++ cookie_flag q cookie)).
    { destruct Hurl as (Hne & Hw & _). by apply url_match. }
    unfold parse_curl. rewrite strip_command by done.
    rewrite bool_decide_eq_false_2 by (unfold curl_command, py; discriminate).
    rewrite Hfind, Hcookie_found, Hurl_found, set_headers_fold.
    unfold headers_of. destruct cookie as [c |];
      by destruct (bool_decide _). }
  rewrite Hparsed. cbn [url_var headers_text]. split_and!.
  - done.
  - done.
  - destruct (bool_decide_reflect (headers_of hs cookie = ∅)) as [Hempty | Hfull].
    + apply headers_of_empty in Hempty as [-> ->]. by rewrite bool_decide_eq_true_2.
    + rewrite bool_decide_eq_false_2; [done |]. intros [-> ->]. by apply Hfull.
  - exact Hlookup.
  - apply headers_of_size.
  - intros Hnodup ->. rewrite headers_of_size, Hfind. cbn [app].
    rewrite length_map. rewrite <- (length_map fst hs). f_equal.
    by apply remove_dups_distinct.
Qed.

Ltac plain_string :=
  repeat split;
  first [ discriminate
        | by repeat constructor
        | let c := fresh in let H := fresh in
          intros c H; vm_compute in H; injection H as <-; reflexivity ].

(** A command with two headers, one of them a cookie, and [-b]. *)
Lemma parse_curl_recovers_witness :
  let text := py "curl 'https://a.com/x?sec_user_id=ABC' -H 'Accept: */*' -H 'Cookie: a=1' -b 'b=2'" in
  let parsed := fst (parse_curl {| url_var := []; headers_text := ∅ |} text) in
  url_var parsed = py "https://a.com/x?sec_user_id=ABC"
  /\ headers_text parsed !! py "Accept" = Some (py "*/*")
  /\ headers_text parsed !! py "Cookie" = Some (py "b=2")
  /\ size (headers_text parsed) = 2%nat.
Proof.
  cbn zeta.
  destruct (parse_curl_recovers {| url_var := []; headers_text := ∅ |} "'"%char
              (py "https://a.com/x?sec_user_id=ABC")
              [(py "Accept", py "*/*"); (py "Cookie", py "a=1")] (Some (py "b=2")))
    as (Hurl & _ & Hheaders & Hlookup & Hsize & _).
  - reflexivity.
  - plain_string.
  - repeat constructor; plain_string.
  - intros c [= <-]. plain_string.
  - change (curl_command "'"%char (py "https://a.com/x?sec_user_id=ABC")
              [(py "Accept", py "*/*"); (py "Cookie", py "a=1")] (Some (py "b=2")))
      with (py "curl 'https://a.com/x?sec_user_id=ABC' -H 'Accept: */*' -H 'Cookie: a=1' -b 'b=2'")
      in Hurl, Hheaders.
    rewrite Hurl, Hheaders. rewrite bool_decide_eq_false_2 by (by intros [? _]).
    rewrite !Hlookup, Hsize. split_and!; vm_compute; reflexivity.
Defined.

(** The claim as written fails: two flags with the same name give a
    dictionary of size 1 for 2 matched flags; and a URL in double quotes
    that contains an apostrophe is cut at the apostrophe. *)
Lemma header_count_counterexample :
  (let text := py "curl 'https://a.com' -H 'a: 1' -H 'a: 2'" in
   let parsed := fst (parse_curl {| url_var := []; headers_text := ∅ |} text) in
   length (findall header_re text) = 2%nat /\ size (headers_text parsed) = 1%nat
   /\ headers_text parsed !! py "a" = Some (py "2"))
  /\ (let text := py "curl " ++ [ascii_of_nat 34] ++ py "https://a.com/it's"
                  ++ [ascii_of_nat 34] in
      url_var (fst (parse_curl {| url_var := []; headers_text := ∅ |} text))
      = py "https://a.com/it").
Proof. cbv zeta. split_and!; vm_compute; reflexivity. Qed.

End CurlFacts.
